(** * ItkImFilter: run-time dispatch of the ITK filter wrappers

    A shallow embedding of [matlab/ItkToolbox/ItkImFilter.cpp].  The MEX
    entry point [mexFunction] starts a cascade that turns the run-time rank
    and class of the input image and the filter name into the template
    arguments of one [FilterWrapper] specialisation.  [mexErrMsgTxt] aborts
    the call, so the embedding is a state-and-error monad over the objects
    the call touches: the import filter, the export filter and the ITK
    pipeline. *)

From Stdlib Require Import ZArith List String Bool Lia.
From Stdlib Require Import SpecFloat.
Import ListNotations.
Local Open Scope string_scope.
Local Open Scope Z_scope.
Local Open Scope list_scope.

(** ** IEEE 754 arithmetic of the C++ types [double] and [float] *)

Module IEEE.

(** A [double] is a binary64 number; a [float] is a binary32 number.  Both
    are carried by [spec_float], whose finite values are sign, mantissa
    and exponent, so a [float] promoted to [double] keeps its value. *)
Definition double := spec_float.

Definition prec64 : Z := 53.
Definition emax64 : Z := 1024.
Definition prec32 : Z := 24.
Definition emax32 : Z := 128.

Definition add (x y : double) : double := SFadd prec64 emax64 x y.
Definition mul (x y : double) : double := SFmul prec64 emax64 x y.
Definition div (x y : double) : double := SFdiv prec64 emax64 x y.

(** Conversion of an integer to [double] (round to nearest even). *)
Definition of_Z (z : Z) : double := binary_normalize prec64 emax64 z 0 false.

(** Rounding of a value to the format with [prec] bits and infinities at
    [emax]. *)
Definition round_to (prec emax : Z) (x : spec_float) : spec_float :=
  match x with
  | S754_finite s m e => binary_normalize prec emax (cond_Zopp s (Zpos m)) e s
  | _ => x
  end.

(** [static_cast<float>(x)] and the promotion of a [float] to [double]. *)
Definition to_float (x : double) : spec_float := round_to prec32 emax32 x.
Definition of_float (x : spec_float) : double := round_to prec64 emax64 x.

(** Truncation toward zero, the value of a floating to integer conversion
    when the result fits the target type (otherwise the conversion is
    undefined in C++, and the embedding keeps the truncated integer). *)
Definition trunc (x : double) : Z :=
  match x with
  | S754_finite s m e =>
      cond_Zopp s (if 0 <=? e then Zpos m * 2 ^ e else Zpos m / 2 ^ (- e))
  | _ => 0
  end.

Definition is_zero (x : double) : bool :=
  match x with S754_zero _ => true | _ => false end.

Definition zero : double := S754_zero false.
Definition one : double := of_Z 1.
Definition two : double := of_Z 2.

(** [std::numeric_limits<float>::max()] and
    [std::numeric_limits<double>::max()]. *)
Definition FLT_MAX : spec_float := S754_finite false (2 ^ 24 - 1) 104.
Definition DBL_MAX : double := S754_finite false (2 ^ 53 - 1) 971.

End IEEE.

Import IEEE.

(** ** C++ scalar types and values *)

(** The types that occur as the template argument [TPixelIn] or as the
    target of a scalar read.  [mxLogical] is [bool], [int] is [int32_T],
    [unsigned int] is [uint32_T], [unsigned long] is [uint64_T] and
    [unsigned char] is [uint8_T]. *)
Inductive CType : Type :=
| mxLogical | c_double | c_float
| int8_T | uint8_T | int16_T | uint16_T
| int32_T | uint32_T | int64_T | uint64_T.


Definition is_floating (t : CType) : bool :=
  match t with c_double | c_float => true | _ => false end.

Definition is_integer (t : CType) : bool :=
  match t with
  | int8_T | uint8_T | int16_T | uint16_T
  | int32_T | uint32_T | int64_T | uint64_T => true
  | _ => false
  end.

(** A value of one of these types: an integer (also for [bool], as 0 or 1)
    or a floating-point number. *)
Inductive scalar : Type :=
| SInt (z : Z)
| SFlt (x : spec_float).

(** [std::numeric_limits<T>::max()]. *)
Definition numeric_limits_max (t : CType) : scalar :=
  match t with
  | mxLogical => SInt 1
  | c_double => SFlt DBL_MAX
  | c_float => SFlt FLT_MAX
  | int8_T => SInt (2 ^ 7 - 1)
  | uint8_T => SInt (2 ^ 8 - 1)
  | int16_T => SInt (2 ^ 15 - 1)
  | uint16_T => SInt (2 ^ 16 - 1)
  | int32_T => SInt (2 ^ 31 - 1)
  | uint32_T => SInt (2 ^ 32 - 1)
  | int64_T => SInt (2 ^ 63 - 1)
  | uint64_T => SInt (2 ^ 64 - 1)
  end.

(** [static_cast<double>(v)], also the promotion in [v / 2.0]. *)
Definition to_double (v : scalar) : double :=
  match v with
  | SInt z => of_Z z
  | SFlt x => of_float x
  end.

(** The integer of the type [t] that is congruent to [z] modulo 2^w, for
    the width w of the type: a value of an integer type always lies in the
    range of the type. *)
Definition in_range_of (t : CType) (z : Z) : Z :=
  match t with
  | int8_T => (z + 2 ^ 7) mod 2 ^ 8 - 2 ^ 7
  | uint8_T => z mod 2 ^ 8
  | int16_T => (z + 2 ^ 15) mod 2 ^ 16 - 2 ^ 15
  | uint16_T => z mod 2 ^ 16
  | int32_T => (z + 2 ^ 31) mod 2 ^ 32 - 2 ^ 31
  | uint32_T => z mod 2 ^ 32
  | int64_T => (z + 2 ^ 63) mod 2 ^ 64 - 2 ^ 63
  | uint64_T => z mod 2 ^ 64
  | _ => z
  end.

(** Conversion of a [double] to the type [t].  To an integer type the
    value is truncated toward zero; when the truncated value is outside
    the range of the type the conversion is undefined in C++, and the
    embedding takes the value modulo 2^w, which is what the conversion
    through a wider integer gives (300.0 to [unsigned char] is 44). *)
Definition cast (t : CType) (x : double) : scalar :=
  match t with
  | mxLogical => SInt (if is_zero x then 0 else 1)
  | c_double => SFlt x
  | c_float => SFlt (to_float x)
  | _ => SInt (in_range_of t (trunc x))
  end.

(** ** Matlab arrays *)

(** [mxClassID] of [matrix.h]. *)
Inductive mxClassID : Type :=
| mxUNKNOWN_CLASS | mxCELL_CLASS | mxSTRUCT_CLASS | mxLOGICAL_CLASS
| mxCHAR_CLASS | mxVOID_CLASS | mxDOUBLE_CLASS | mxSINGLE_CLASS
| mxINT8_CLASS | mxUINT8_CLASS | mxINT16_CLASS | mxUINT16_CLASS
| mxINT32_CLASS | mxUINT32_CLASS | mxINT64_CLASS | mxUINT64_CLASS
| mxFUNCTION_CLASS | mxOPAQUE_CLASS | mxOBJECT_CLASS.

(** An argument of the MEX call: a string, or an array with its class, its
    dimensions and its elements in storage order, each given by its value. *)
Inductive mxArray : Type :=
| mxChar (s : string)
| mxNumeric (cls : mxClassID) (dims : list Z) (pr : list double).

Definition mxGetClassID (a : mxArray) : mxClassID :=
  match a with
  | mxChar _ => mxCHAR_CLASS
  | mxNumeric cls _ _ => cls
  end.

Definition mxGetDimensions (a : mxArray) : list Z :=
  match a with
  | mxChar s => [1; Z.of_nat (String.length s)]
  | mxNumeric _ dims _ => dims
  end.

Definition mxGetData (a : mxArray) : list double :=
  match a with
  | mxChar _ => []
  | mxNumeric _ _ pr => pr
  end.

Definition INT_MAX : Z := 2 ^ 31 - 1.

(** Conversion of a size to [unsigned int]: the value modulo 2^32. *)
Definition to_unsigned_int (z : Z) : Z := z mod 2 ^ 32.

(** [v.size()] of a [std::vector]. *)
Definition vector_size {A} (v : list A) : Z := Z.of_nat (List.length v).

(** ** The objects of one MEX call *)

(** [MatlabInputPointer]: a registered input, with the argument it is bound
    to when the caller supplied one. *)
Record MatlabInput : Type := mkInput {
  in_name : string;
  in_pm : option mxArray
}.

(** [MatlabOutputPointer]: a registered output and its position in [plhs]. *)
Record MatlabOutput : Type := mkOutput {
  out_pos : nat;
  out_name : string
}.

(** Where an output array takes its voxels from. *)
Inductive ItkSource : Type :=
| GetOutputs (k : nat)
| GetNonMaximumSuppressionImage.

(** An array handed back to Matlab: position in [plhs], element type, shape
    and the ITK image behind it. *)
Record OutputArray : Type := mkOutputArray {
  oa_pos : nat;
  oa_name : string;
  oa_type : CType;
  oa_shape : list Z;
  oa_source : ItkSource
}.

(** The list of supported filters.  It is an enum so that it can be passed
    as a template constant parameter. *)
Inductive SupportedFilter : Type :=
| nCannyEdgeDetectionImageFilter
| nVotingBinaryIterativeHoleFillingImageFilter
| nApproximateSignedDistanceMapImageFilter
| nMedianImageFilter
| nMultiScaleHessianSmoothed3DToVesselnessMeasureImageFilter
| nAnisotropicDiffusionVesselEnhancementImageFilter
| nBinaryThinningImageFilter3D
| nSignedDanielssonDistanceMapImageFilter
| nDanielssonDistanceMapImageFilter
| nSignedMaurerDistanceMapImageFilter
| nBinaryDilateImageFilter
| nBinaryErodeImageFilter
| nMRFImageFilter.

(** The enumerators' values, in declaration order from 0. *)
Definition enum_value (f : SupportedFilter) : N :=
  match f with
  | nCannyEdgeDetectionImageFilter => 0
  | nVotingBinaryIterativeHoleFillingImageFilter => 1
  | nApproximateSignedDistanceMapImageFilter => 2
  | nMedianImageFilter => 3
  | nMultiScaleHessianSmoothed3DToVesselnessMeasureImageFilter => 4
  | nAnisotropicDiffusionVesselEnhancementImageFilter => 5
  | nBinaryThinningImageFilter3D => 6
  | nSignedDanielssonDistanceMapImageFilter => 7
  | nDanielssonDistanceMapImageFilter => 8
  | nSignedMaurerDistanceMapImageFilter => 9
  | nBinaryDilateImageFilter => 10
  | nBinaryErodeImageFilter => 11
  | nMRFImageFilter => 12
  end%N.

(** A parameter handed to an ITK object. *)
Inductive Value : Type :=
| VScalar (v : scalar)
| VVector (vs : list scalar).

(** What the call does to the ITK pipeline, in program order.  [ItkNew] is
    [FilterType::New()] of the wrapped filter with its input pixel type,
    output pixel type and dimension; [ItkNewAux] is [New()] of a helper
    object; [ItkSet] is a [Set...] call; [ItkUpdate] is
    [filter->Update()].  A read of the filter ([GetUpperThreshold],
    [GetOutputs], [GetNonMaximumSuppressionImage]) is not an event: it
    changes nothing, and its result is carried where it is used. *)
Inductive ItkEvent : Type :=
| ItkNew (f : SupportedFilter) (TPixelIn TPixelOut : CType) (dim : N)
| ItkNewAux (cls : string)
| ItkSet (param : string) (v : Value)
| ItkCall (method : string)
| ItkSetInput
| ItkUpdate.

Record World : Type := mkWorld {
  prhs : list mxArray;            (* ConnectToMatlabFunctionInput *)
  inputs : list MatlabInput;      (* inputs registered at the import filter *)
  nlhs : Z;                       (* ConnectToMatlabFunctionOutput *)
  outputs : list MatlabOutput;    (* outputs registered at the export filter *)
  plhs : list OutputArray;        (* arrays produced for Matlab *)
  itk : list ItkEvent             (* ITK pipeline trace *)
}.

(** The kinds of coercion of the parameter binder. *)
Inductive CoercionKind : Type :=
| KScalar | KRowVectorOfLengthRank | KRowVector | KSameRankArray | KString
| KImage.

(** Failures.  [ErrMsg] is a [mexErrMsgTxt] of this file with its message;
    the other two are raised by the import and export filters. *)
Inductive Error : Type :=
| ErrMsg (msg : string)
| ArityError (minExpected actual : Z)
| CoercionError (parameterName : string) (expectedKind : CoercionKind).

Inductive Result (A : Type) : Type :=
| Ok (a : A)
| Failed (e : Error).
Arguments Ok {A} a.
Arguments Failed {A} e.

(** A computation runs in a world and returns a value or fails; a failure
    ends the call and keeps the world as it was when it was raised. *)
Definition M (A : Type) : Type := World -> Result A * World.

Definition ret {A} (a : A) : M A := fun w => (Ok a, w).

Definition bind {A B} (m : M A) (k : A -> M B) : M B :=
  fun w =>
    match m w with
    | (Ok a, w') => k a w'
    | (Failed e, w') => (Failed e, w')
    end.

Definition raise {A} (e : Error) : M A := fun w => (Failed e, w).

Notation "x <- m ;; k" := (bind m (fun x => k))
  (at level 61, m at next level, right associativity).
Notation "m ;; k" := (bind m (fun _ => k))
  (at level 61, right associativity).

Definition mexErrMsgTxt {A} (msg : string) : M A := raise (ErrMsg msg).

Definition get_world : M World := fun w => (Ok w, w).

Definition itk_emit (e : ItkEvent) : M unit :=
  fun w => (Ok tt, mkWorld (prhs w) (inputs w) (nlhs w) (outputs w) (plhs w)
                           (itk w ++ [e])).

(** ** The import and export filters and the image header *)

Module MatlabImportFilter.

(** Modelled from the spec: [MatlabImportFilter::CheckNumberOfArguments]
    (MatlabImportFilter.h is not part of the sources).  The caller must
    supply at least [min] arguments, and arguments beyond [max] are an
    error. *)
Definition CheckNumberOfArguments (min max : Z) : M unit :=
  w <- get_world ;;
  let nrhs := Z.of_nat (List.length (prhs w)) in
  if (nrhs <? min) || (max <? nrhs) then raise (ArityError min nrhs)
  else ret tt.

(** Modelled from the spec: [MatlabImportFilter::RegisterInput].
    Parameters are resolved strictly by declared position; a position the
    caller did not fill is a missing argument. *)
Definition RegisterInput (pos : nat) (name : string) : M MatlabInput :=
  fun w =>
    let i := mkInput name (nth_error (prhs w) pos) in
    (Ok i, mkWorld (prhs w) (inputs w ++ [i]) (nlhs w) (outputs w) (plhs w)
                   (itk w)).

(** Modelled from the spec: [MatlabImportFilter::GetRegisteredInput], the
    input registered under [name] (a missing argument when there is
    none). *)
Definition GetRegisteredInput (name : string) : M MatlabInput :=
  w <- get_world ;;
  match find (fun i => String.eqb (in_name i) name) (inputs w) with
  | Some i => ret i
  | None => ret (mkInput name None)
  end.

(** Modelled from the spec: [MatlabImportFilter::ReadStringFromMatlab].
    A missing argument takes the default. *)
Definition ReadStringFromMatlab (i : MatlabInput) (def : string) : M string :=
  match in_pm i with
  | None => ret def
  | Some (mxChar s) => ret s
  | Some _ => raise (CoercionError (in_name i) KString)
  end.

(** Modelled from the spec: [MatlabImportFilter::ReadScalarFromMatlab].
    A missing argument takes the default; scalar coercion takes the first
    element of the caller-supplied container and casts it to the target
    type. *)
Definition ReadScalarFromMatlab (T : CType) (i : MatlabInput) (def : scalar)
  : M scalar :=
  match in_pm i with
  | None => ret def
  | Some a =>
      match mxGetData a with
      | x :: _ => ret (cast T x)
      | [] => raise (CoercionError (in_name i) KScalar)
      end
  end.

(** Modelled from the spec: the type side of a coercion to numbers.  An
    array of numbers has one of the numeric classes or the logical class;
    a string, a cell array, a struct and the like are a type mismatch. *)
Definition is_numeric (a : mxArray) : bool :=
  match mxGetClassID a with
  | mxLOGICAL_CLASS | mxDOUBLE_CLASS | mxSINGLE_CLASS
  | mxINT8_CLASS | mxUINT8_CLASS | mxINT16_CLASS | mxUINT16_CLASS
  | mxINT32_CLASS | mxUINT32_CLASS | mxINT64_CLASS | mxUINT64_CLASS => true
  | _ => false
  end.

(** Modelled from the spec: the shape side of the row-vector coercion.  A
    row vector is an array of numbers with the dimensions (1, n). *)
Definition is_row_vector (a : mxArray) : bool :=
  is_numeric a
  && match mxGetDimensions a with
     | [1; _] => true
     | _ => false
     end.

(** Modelled from the spec: [MatlabImportFilter::ReadRowVectorFromMatlab].
    A missing argument takes the default.  For a target of fixed length
    [n] (an [itk::FixedArray] or [itk::Size]) the caller's row vector is
    taken verbatim when it has [n] elements, and a single scalar fills the
    [n] entries; for a [std::vector] target the caller's row vector is
    taken verbatim.  Elements have the target's value type.  Anything else
    is a shape or type mismatch. *)
Definition ReadRowVectorFromMatlab (TValue : CType) (len : option N)
    (i : MatlabInput) (def : list scalar) : M (list scalar) :=
  match in_pm i with
  | None => ret def
  | Some a =>
      let xs := mxGetData a in
      match len with
      | None =>
          if is_row_vector a then ret (map (cast TValue) xs)
          else raise (CoercionError (in_name i) KRowVector)
      | Some n =>
          if (N.of_nat (List.length xs) =? n)%N && is_row_vector a
          then ret (map (cast TValue) xs)
          else match xs with
               | [x] => ret (repeat (cast TValue x) (N.to_nat n))
               | _ => raise (CoercionError (in_name i) KRowVectorOfLengthRank)
               end
      end
  end.

(** Modelled from the spec: [MatlabImportFilter::ReadArrayAsVectorFromMatlab].
    A missing argument takes the default; otherwise the elements of the
    array of numbers in storage order, as [double]; an argument that is
    not an array of numbers is a type mismatch. *)
Definition ReadArrayAsVectorFromMatlab (i : MatlabInput) (def : list double)
  : M (list double) :=
  match in_pm i with
  | None => ret def
  | Some a =>
      if is_numeric a then ret (mxGetData a)
      else raise (CoercionError (in_name i) KSameRankArray)
  end.

(** Modelled from the spec: [MatlabImportFilter::ReadMatlabArrayHalfSize].
    A missing argument takes the default; otherwise the half-size vector
    of the array's shape, [(size - 1) / 2] per axis; the array must have
    the rank of the image. *)
Definition ReadMatlabArrayHalfSize (VImageDimension : N) (i : MatlabInput)
    (def : list scalar) : M (list scalar) :=
  match in_pm i with
  | None => ret def
  | Some a =>
      let dims := mxGetDimensions a in
      if (N.of_nat (List.length dims) =? VImageDimension)%N
      then ret (map (fun s => SInt ((s - 1) / 2)) dims)
      else raise (CoercionError (in_name i) KSameRankArray)
  end.

(** Modelled from the spec: [MatlabImportFilter::GetImagePointerFromMatlab],
    which borrows the buffer of the primary input as an ITK image. *)
Definition GetImagePointerFromMatlab (TPixel : CType) (VImageDimension : N)
    (i : MatlabInput) : M unit :=
  match in_pm i with
  | None => raise (CoercionError (in_name i) KImage)
  | Some _ => ret tt
  end.

End MatlabImportFilter.

Module MatlabExportFilter.

(** Modelled from the spec: [MatlabExportFilter::CheckNumberOfArguments]
    (MatlabExportFilter.h is not part of the sources), the arity rule
    applied to the number of outputs the caller asks for. *)
Definition CheckNumberOfArguments (min max : Z) : M unit :=
  w <- get_world ;;
  if (nlhs w <? min) || (max <? nlhs w) then raise (ArityError min (nlhs w))
  else ret tt.

(** Modelled from the spec: [MatlabExportFilter::RegisterOutput]. *)
Definition RegisterOutput (pos : nat) (name : string) : M MatlabOutput :=
  fun w =>
    let o := mkOutput pos name in
    (Ok o, mkWorld (prhs w) (inputs w) (nlhs w) (outputs w ++ [o]) (plhs w)
                   (itk w)).

(** Modelled from the spec: the materialisation of a result array of a
    given element type and shape in the caller's slot of the output. *)
Definition produce (o : MatlabOutput) (T : CType) (shape : list Z)
    (src : ItkSource) : M unit :=
  fun w =>
    (Ok tt, mkWorld (prhs w) (inputs w) (nlhs w) (outputs w)
                    (plhs w ++ [mkOutputArray (out_pos o) (out_name o) T
                                              shape src])
                    (itk w)).

(** Modelled from the spec: [MatlabExportFilter::GraftItkImageOntoMatlab].
    The output slot gets the element type
    given as template argument; its shape is the shape of the input, or,
    for an image of vectors with [VectorDimension] components, the shape
    of the input with one extra leading axis of that size. *)
Definition GraftItkImageOntoMatlab (TPixel : CType)
    (VectorDimension : option N) (o : MatlabOutput) (src : ItkSource)
    (size : list Z) : M unit :=
  match VectorDimension with
  | None => produce o TPixel size src
  | Some n => produce o TPixel (Z.of_N n :: size) src
  end.

(** Modelled from the spec: [MatlabExportFilter::CopyItkImageToMatlab], for
    an image of scalars: the element type given as template argument and
    the shape of the input. *)
Definition CopyItkImageToMatlab (TPixel : CType) (o : MatlabOutput)
    (src : ItkSource) (size : list Z) : M unit :=
  produce o TPixel size src.

End MatlabExportFilter.

(** Modelled from the spec: [MatlabImageHeader] (MatlabImageHeader.h is not
    part of the sources), the description of the primary input: element
    class and shape; the rank is the length of the shape. *)
Record MatlabImageHeader : Type := mkHeader {
  im_type : mxClassID;
  im_size : list Z
}.

(** Modelled from the spec: [MatlabImageHeader::GetNumberOfDimensions]. *)
Definition GetNumberOfDimensions (im : MatlabImageHeader) : Z :=
  Z.of_nat (List.length (im_size im)).

(** Modelled from the spec: the constructor [MatlabImageHeader(pm, name)],
    which describes a plain array by its class and its dimensions. *)
Definition MatlabImageHeader_new (i : MatlabInput) : M MatlabImageHeader :=
  match in_pm i with
  | None => raise (CoercionError (in_name i) KImage)
  | Some a => ret (mkHeader (mxGetClassID a) (mxGetDimensions a))
  end.

(** ** The ITK pipeline

    ITK is an external library: what its filters compute is not part of
    the embedding.  A call on an ITK object is recorded in the trace of
    the world, with the values it is given. *)

Module Itk.

Definition New (f : SupportedFilter) (TPixelIn TPixelOut : CType) (dim : N)
  : M unit := itk_emit (ItkNew f TPixelIn TPixelOut dim).
Definition NewAux (cls : string) : M unit := itk_emit (ItkNewAux cls).
Definition Set_ (param : string) (v : Value) : M unit :=
  itk_emit (ItkSet param v).
Definition Call (method : string) : M unit := itk_emit (ItkCall method).
Definition SetInput : M unit := itk_emit ItkSetInput.
Definition Update : M unit := itk_emit ItkUpdate.

(** The value a parameter was last set to in a trace. *)
Fixpoint last_set (param : string) (tr : list ItkEvent) (acc : option Value)
  : option Value :=
  match tr with
  | [] => acc
  | ItkSet p v :: tr' =>
      last_set param tr' (if String.eqb p param then Some v else acc)
  | _ :: tr' => last_set param tr' acc
  end.

(** A [Get...] call on the filter: the value the parameter was last set
    to (zero before the first [Set...]). *)
Definition Get (param : string) : M scalar :=
  w <- get_world ;;
  match last_set param (itk w) None with
  | Some (VScalar v) => ret v
  | _ => ret (SInt 0)
  end.

End Itk.

(** The [double] nearest to the decimal [n / 10^k], the value of a literal
    such as [0.01] or [1e-7]. *)
Definition decimal (n : Z) (k : Z) : double := div (of_Z n) (of_Z (10 ^ k)).

(** [x.Fill(v)] on a fixed array of [dim] entries. *)
Definition Fill (dim : N) (v : scalar) : list scalar := repeat v (N.to_nat dim).

(** [typename InImageType::OffsetType::OffsetValueType] is [signed long]. *)
Definition OffsetValueType : CType := int64_T.
(** [typename InImageType::SizeValueType] is [unsigned long]. *)
Definition SizeValueType : CType := uint64_T.
(** [LabelPixelType] of the MRF wrapper is [unsigned char]. *)
Definition LabelPixelType : CType := uint8_T.

(** ** FilterWrapper: one partial specialisation per filter *)

Module FilterWrapper.

Import MatlabImportFilter MatlabExportFilter.

Section Wrappers.

Variable TPixelIn : CType.
Variable VImageDimension : N.
Variable im : MatlabImageHeader.

(** The primary template: a filter without a specialisation. *)
Definition Unsupported : M unit :=
  mexErrMsgTxt "Unsupported filter type".

(** CannyEdgeDetectionImageFilter *)
Definition CannyEdgeDetectionImageFilter : M unit :=
  MatlabImportFilter.CheckNumberOfArguments 2 6 ;;
  MatlabExportFilter.CheckNumberOfArguments 0 2 ;;
  inA <- GetRegisteredInput "A" ;;
  inVAR <- RegisterInput 2 "VAR" ;;
  inUPPTHR <- RegisterInput 3 "UPPTHR" ;;
  inLOWTHR <- RegisterInput 4 "LOWTHR" ;;
  inMAXERR <- RegisterInput 5 "MAXERR" ;;
  outB <- RegisterOutput 0 "B" ;;
  outC <- RegisterOutput 1 "C" ;;
  let TPixelOut := TPixelIn in
  Itk.New nCannyEdgeDetectionImageFilter TPixelIn TPixelOut
          VImageDimension ;;
  GetImagePointerFromMatlab TPixelIn VImageDimension inA ;;
  Itk.SetInput ;;
  let defVariance := Fill VImageDimension (SFlt zero) in
  var <- ReadRowVectorFromMatlab c_double (Some VImageDimension) inVAR
                                 defVariance ;;
  Itk.Set_ "Variance" (VVector var) ;;
  upp <- ReadScalarFromMatlab TPixelIn inUPPTHR
                              (numeric_limits_max TPixelIn) ;;
  Itk.Set_ "UpperThreshold" (VScalar upp) ;;
  cur <- Itk.Get "UpperThreshold" ;;
  low <- ReadScalarFromMatlab TPixelIn inLOWTHR
                              (cast TPixelIn (div (to_double cur) two)) ;;
  Itk.Set_ "LowerThreshold" (VScalar low) ;;
  let defMaximumError := Fill VImageDimension (SFlt (decimal 1 2)) in
  err <- ReadRowVectorFromMatlab c_double (Some VImageDimension) inMAXERR
                                 defMaximumError ;;
  Itk.Set_ "MaximumError" (VVector err) ;;
  GraftItkImageOntoMatlab TPixelOut None outB (GetOutputs 0) (im_size im) ;;
  Itk.Update ;;
  CopyItkImageToMatlab TPixelOut outC GetNonMaximumSuppressionImage
                       (im_size im).

Definition CannyEdgeDetectionImageFilter_nonfloating : M unit :=
  mexErrMsgTxt "CannyEdgeDetectionImageFilter only accepts input images with floating type (double or single)".

(** VotingBinaryIterativeHoleFillingImageFilter *)
Definition VotingBinaryIterativeHoleFillingImageFilter : M unit :=
  MatlabImportFilter.CheckNumberOfArguments 2 7 ;;
  MatlabExportFilter.CheckNumberOfArguments 0 1 ;;
  inA <- GetRegisteredInput "A" ;;
  inRADIUS <- RegisterInput 2 "RADIUS" ;;
  inMAXITER <- RegisterInput 3 "MAXITER" ;;
  inTHR <- RegisterInput 4 "THR" ;;
  inBACKGROUND <- RegisterInput 5 "BACKGROUND" ;;
  inFOREGROUND <- RegisterInput 6 "FOREGROUND" ;;
  outB <- RegisterOutput 0 "B" ;;
  let TPixelOut := TPixelIn in
  Itk.New nVotingBinaryIterativeHoleFillingImageFilter TPixelIn TPixelOut
          VImageDimension ;;
  GetImagePointerFromMatlab TPixelIn VImageDimension inA ;;
  Itk.SetInput ;;
  let radiusDef := Fill VImageDimension (SInt 1) in
  radius <- ReadRowVectorFromMatlab SizeValueType (Some VImageDimension)
                                    inRADIUS radiusDef ;;
  Itk.Set_ "Radius" (VVector radius) ;;
  maxiter <- ReadScalarFromMatlab uint32_T inMAXITER (SInt 1) ;;
  Itk.Set_ "MaximumNumberOfIterations" (VScalar maxiter) ;;
  thr <- ReadScalarFromMatlab uint32_T inTHR (SInt 2) ;;
  Itk.Set_ "MajorityThreshold" (VScalar thr) ;;
  bg <- ReadScalarFromMatlab TPixelIn inBACKGROUND (cast TPixelIn zero) ;;
  Itk.Set_ "BackgroundValue" (VScalar bg) ;;
  fg <- ReadScalarFromMatlab TPixelIn inFOREGROUND (cast TPixelIn one) ;;
  Itk.Set_ "ForegroundValue" (VScalar fg) ;;
  Itk.Update ;;
  CopyItkImageToMatlab TPixelOut outB (GetOutputs 0) (im_size im).

(** ApproximateSignedDistanceMapImageFilter *)
Definition ApproximateSignedDistanceMapImageFilter : M unit :=
  MatlabImportFilter.CheckNumberOfArguments 2 2 ;;
  MatlabExportFilter.CheckNumberOfArguments 0 1 ;;
  inA <- GetRegisteredInput "A" ;;
  outB <- RegisterOutput 0 "B" ;;
  let TPixelOut := c_float in
  Itk.New nApproximateSignedDistanceMapImageFilter TPixelIn TPixelOut
          VImageDimension ;;
  Itk.Set_ "InsideValue" (VScalar (cast TPixelIn one)) ;;
  Itk.Set_ "OutsideValue" (VScalar (cast TPixelIn zero)) ;;
  GetImagePointerFromMatlab TPixelIn VImageDimension inA ;;
  Itk.SetInput ;;
  GraftItkImageOntoMatlab TPixelOut None outB (GetOutputs 0) (im_size im) ;;
  Itk.Update.

(** MedianImageFilter *)
Definition MedianImageFilter : M unit :=
  MatlabImportFilter.CheckNumberOfArguments 2 3 ;;
  MatlabExportFilter.CheckNumberOfArguments 0 1 ;;
  inA <- GetRegisteredInput "A" ;;
  inRADIUS <- RegisterInput 2 "RADIUS" ;;
  outB <- RegisterOutput 0 "B" ;;
  let TPixelOut := TPixelIn in
  Itk.New nMedianImageFilter TPixelIn TPixelOut VImageDimension ;;
  GetImagePointerFromMatlab TPixelIn VImageDimension inA ;;
  Itk.SetInput ;;
  let radius := Fill VImageDimension (SInt 0) in
  r <- ReadRowVectorFromMatlab SizeValueType (Some VImageDimension)
                               inRADIUS radius ;;
  Itk.Set_ "Radius" (VVector r) ;;
  GraftItkImageOntoMatlab TPixelOut None outB (GetOutputs 0) (im_size im) ;;
  Itk.Update.

(** MultiScaleHessianSmoothed3DToVesselnessMeasureImageFilter *)
Definition MultiScaleHessianSmoothed3DToVesselnessMeasureImageFilter
  : M unit :=
  MatlabImportFilter.CheckNumberOfArguments 2 6 ;;
  MatlabExportFilter.CheckNumberOfArguments 0 1 ;;
  inA <- GetRegisteredInput "A" ;;
  inSIGMAMIN <- RegisterInput 2 "SIGMAMIN" ;;
  inSIGMAMAX <- RegisterInput 3 "SIGMAMAX" ;;
  inNUMSIGMASTEPS <- RegisterInput 4 "NUMSIGMASTEPS" ;;
  inISSIGMASTEPLOG <- RegisterInput 5 "ISSIGMASTEPLOG" ;;
  outB <- RegisterOutput 0 "B" ;;
  let TPixelOut := c_double in
  Itk.New nMultiScaleHessianSmoothed3DToVesselnessMeasureImageFilter
          TPixelIn TPixelOut VImageDimension ;;
  GetImagePointerFromMatlab TPixelIn VImageDimension inA ;;
  Itk.SetInput ;;
  smin <- ReadScalarFromMatlab c_double inSIGMAMIN (SFlt (decimal 2 1)) ;;
  Itk.Set_ "SigmaMin" (VScalar smin) ;;
  smax <- ReadScalarFromMatlab c_double inSIGMAMAX (SFlt two) ;;
  Itk.Set_ "SigmaMax" (VScalar smax) ;;
  nsteps <- ReadScalarFromMatlab int32_T inNUMSIGMASTEPS (SInt 10) ;;
  Itk.Set_ "NumberOfSigmaSteps" (VScalar nsteps) ;;
  islog <- ReadScalarFromMatlab mxLogical inISSIGMASTEPLOG (SInt 1) ;;
  Itk.Set_ "IsSigmaStepLog" (VScalar islog) ;;
  GraftItkImageOntoMatlab TPixelOut None outB (GetOutputs 0) (im_size im) ;;
  Itk.Update.

Definition MultiScaleHessianSmoothed3DToVesselnessMeasureImageFilter_not3D
  : M unit :=
  mexErrMsgTxt "MultiScaleHessianSmoothed3DToVesselnessMeasureImageFilter only accepts 3D input images".

(** AnisotropicDiffusionVesselEnhancementImageFilter *)
Definition AnisotropicDiffusionVesselEnhancementImageFilter : M unit :=
  MatlabImportFilter.CheckNumberOfArguments 2 11 ;;
  MatlabExportFilter.CheckNumberOfArguments 0 1 ;;
  inA <- GetRegisteredInput "A" ;;
  inSIGMAMIN <- RegisterInput 2 "SIGMAMIN" ;;
  inSIGMAMAX <- RegisterInput 3 "SIGMAMAX" ;;
  inNUMSIGMASTEPS <- RegisterInput 4 "NUMSIGMASTEPS" ;;
  inISSIGMASTEPLOG <- RegisterInput 5 "ISSIGMASTEPLOG" ;;
  inNUMITERATIONS <- RegisterInput 6 "NUMITERATIONS" ;;
  inWSTRENGTH <- RegisterInput 7 "WSTRENGTH" ;;
  inSENSITIVITY <- RegisterInput 8 "SENSITIVITY" ;;
  inTIMESTEP <- RegisterInput 9 "TIMESTEP" ;;
  inEPSILON <- RegisterInput 10 "EPSILON" ;;
  outB <- RegisterOutput 0 "B" ;;
  let TPixelOut := TPixelIn in
  Itk.New nAnisotropicDiffusionVesselEnhancementImageFilter TPixelIn
          TPixelOut VImageDimension ;;
  GetImagePointerFromMatlab TPixelIn VImageDimension inA ;;
  Itk.SetInput ;;
  smin <- ReadScalarFromMatlab c_double inSIGMAMIN (SFlt (decimal 2 1)) ;;
  Itk.Set_ "SigmaMin" (VScalar smin) ;;
  smax <- ReadScalarFromMatlab c_double inSIGMAMAX (SFlt two) ;;
  Itk.Set_ "SigmaMax" (VScalar smax) ;;
  nsteps <- ReadScalarFromMatlab int32_T inNUMSIGMASTEPS (SInt 10) ;;
  Itk.Set_ "NumberOfSigmaSteps" (VScalar nsteps) ;;
  islog <- ReadScalarFromMatlab mxLogical inISSIGMASTEPLOG (SInt 1) ;;
  Itk.Set_ "IsSigmaStepLog" (VScalar islog) ;;
  niter <- ReadScalarFromMatlab int32_T inNUMITERATIONS (SInt 1) ;;
  Itk.Set_ "NumberOfIterations" (VScalar niter) ;;
  wstr <- ReadScalarFromMatlab c_double inWSTRENGTH (SFlt (of_Z 25)) ;;
  Itk.Set_ "WStrength" (VScalar wstr) ;;
  sens <- ReadScalarFromMatlab c_double inSENSITIVITY (SFlt (of_Z 5)) ;;
  Itk.Set_ "Sensitivity" (VScalar sens) ;;
  tstep <- ReadScalarFromMatlab c_double inTIMESTEP (SFlt (decimal 1 3)) ;;
  Itk.Set_ "TimeStep" (VScalar tstep) ;;
  eps <- ReadScalarFromMatlab c_double inEPSILON (SFlt (decimal 1 2)) ;;
  Itk.Set_ "Epsilon" (VScalar eps) ;;
  GraftItkImageOntoMatlab TPixelOut None outB (GetOutputs 0) (im_size im) ;;
  Itk.Update.

Definition AnisotropicDiffusionVesselEnhancementImageFilter_not3D
  : M unit :=
  mexErrMsgTxt "AnisotropicDiffusionVesselEnhancementImageFilter only accepts 3D input images".

(** BinaryThinningImageFilter3D *)
Definition BinaryThinningImageFilter3D : M unit :=
  MatlabImportFilter.CheckNumberOfArguments 2 2 ;;
  MatlabExportFilter.CheckNumberOfArguments 0 1 ;;
  inA <- GetRegisteredInput "A" ;;
  outB <- RegisterOutput 0 "B" ;;
  let TPixelOut := TPixelIn in
  Itk.New nBinaryThinningImageFilter3D TPixelIn TPixelOut
          VImageDimension ;;
  GetImagePointerFromMatlab TPixelIn VImageDimension inA ;;
  Itk.SetInput ;;
  GraftItkImageOntoMatlab TPixelOut None outB (GetOutputs 0) (im_size im) ;;
  Itk.Update.

Definition BinaryThinningImageFilter3D_not3D : M unit :=
  mexErrMsgTxt "BinaryThinningImageFilter3D only accepts 3D input images".

(** SignedDanielssonDistanceMapImageFilter *)
Definition SignedDanielssonDistanceMapImageFilter : M unit :=
  MatlabImportFilter.CheckNumberOfArguments 2 2 ;;
  MatlabExportFilter.CheckNumberOfArguments 0 3 ;;
  inA <- GetRegisteredInput "A" ;;
  outB <- RegisterOutput 0 "B" ;;
  outV <- RegisterOutput 1 "V" ;;
  outW <- RegisterOutput 2 "W" ;;
  let TPixelOut := c_float in
  Itk.New nSignedDanielssonDistanceMapImageFilter TPixelIn TPixelOut
          VImageDimension ;;
  GetImagePointerFromMatlab TPixelIn VImageDimension inA ;;
  Itk.SetInput ;;
  (* distance map *)
  GraftItkImageOntoMatlab TPixelOut None outB (GetOutputs 0) (im_size im) ;;
  (* Voronoi map *)
  GraftItkImageOntoMatlab TPixelIn None outV (GetOutputs 1) (im_size im) ;;
  (* vectors pointing to closest foreground voxel *)
  GraftItkImageOntoMatlab OffsetValueType (Some VImageDimension) outW
                          (GetOutputs 2) (im_size im) ;;
  Itk.Update.

(** DanielssonDistanceMapImageFilter *)
Definition DanielssonDistanceMapImageFilter : M unit :=
  MatlabImportFilter.CheckNumberOfArguments 2 2 ;;
  MatlabExportFilter.CheckNumberOfArguments 0 3 ;;
  inA <- GetRegisteredInput "A" ;;
  outB <- RegisterOutput 0 "B" ;;
  outV <- RegisterOutput 1 "V" ;;
  outW <- RegisterOutput 2 "W" ;;
  let TPixelOut := c_double in
  Itk.New nDanielssonDistanceMapImageFilter TPixelIn TPixelOut
          VImageDimension ;;
  GetImagePointerFromMatlab TPixelIn VImageDimension inA ;;
  Itk.SetInput ;;
  (* distance map *)
  GraftItkImageOntoMatlab TPixelOut None outB (GetOutputs 0) (im_size im) ;;
  (* Voronoi map *)
  GraftItkImageOntoMatlab TPixelIn None outV (GetOutputs 1) (im_size im) ;;
  (* vectors pointing to closest foreground voxel *)
  GraftItkImageOntoMatlab OffsetValueType (Some VImageDimension) outW
                          (GetOutputs 2) (im_size im) ;;
  Itk.Update.

(** SignedMaurerDistanceMapImageFilter *)
Definition SignedMaurerDistanceMapImageFilter : M unit :=
  MatlabImportFilter.CheckNumberOfArguments 2 2 ;;
  MatlabExportFilter.CheckNumberOfArguments 0 1 ;;
  inA <- GetRegisteredInput "A" ;;
  outB <- RegisterOutput 0 "B" ;;
  let TPixelOut := c_float in
  Itk.New nSignedMaurerDistanceMapImageFilter TPixelIn TPixelOut
          VImageDimension ;;
  Itk.Set_ "UseImageSpacing" (VScalar (SInt 1)) ;;
  Itk.Call "SquaredDistanceOff" ;;
  GetImagePointerFromMatlab TPixelIn VImageDimension inA ;;
  Itk.SetInput ;;
  Itk.Update ;;
  (* distance map *)
  CopyItkImageToMatlab TPixelOut outB (GetOutputs 0) (im_size im).

Definition SignedMaurerDistanceMapImageFilter_boolean : M unit :=
  mexErrMsgTxt "SignedMaurerDistanceMapImageFilter does not accept input image with type boolean".

(** BinaryDilateImageFilter *)
Definition BinaryDilateImageFilter : M unit :=
  MatlabImportFilter.CheckNumberOfArguments 2 4 ;;
  MatlabExportFilter.CheckNumberOfArguments 0 1 ;;
  inA <- GetRegisteredInput "A" ;;
  inRADIUS <- RegisterInput 2 "RADIUS" ;;
  inFOREGROUND <- RegisterInput 3 "FOREGROUND" ;;
  outB <- RegisterOutput 0 "B" ;;
  let TPixelOut := TPixelIn in
  Itk.New nBinaryDilateImageFilter TPixelIn TPixelOut VImageDimension ;;
  GetImagePointerFromMatlab TPixelIn VImageDimension inA ;;
  Itk.SetInput ;;
  (* radius of the ball in voxels *)
  radius <- ReadScalarFromMatlab uint64_T inRADIUS (SInt 0) ;;
  Itk.Set_ "structuringElement.Radius" (VScalar radius) ;;
  Itk.Call "structuringElement.CreateStructuringElement" ;;
  Itk.Call "SetKernel" ;;
  (* voxels with this value will be dilated *)
  fg <- ReadScalarFromMatlab TPixelIn inFOREGROUND (cast TPixelIn one) ;;
  Itk.Set_ "ForegroundValue" (VScalar fg) ;;
  GraftItkImageOntoMatlab TPixelOut None outB (GetOutputs 0) (im_size im) ;;
  Itk.Update.

(** BinaryErodeImageFilter *)
Definition BinaryErodeImageFilter : M unit :=
  MatlabImportFilter.CheckNumberOfArguments 2 4 ;;
  MatlabExportFilter.CheckNumberOfArguments 0 1 ;;
  inA <- GetRegisteredInput "A" ;;
  inRADIUS <- RegisterInput 2 "RADIUS" ;;
  inFOREGROUND <- RegisterInput 3 "FOREGROUND" ;;
  outB <- RegisterOutput 0 "B" ;;
  let TPixelOut := TPixelIn in
  Itk.New nBinaryErodeImageFilter TPixelIn TPixelOut VImageDimension ;;
  GetImagePointerFromMatlab TPixelIn VImageDimension inA ;;
  Itk.SetInput ;;
  (* radius of the ball in voxels *)
  radius <- ReadScalarFromMatlab uint64_T inRADIUS (SInt 0) ;;
  Itk.Set_ "structuringElement.Radius" (VScalar radius) ;;
  Itk.Call "structuringElement.CreateStructuringElement" ;;
  Itk.Call "SetKernel" ;;
  fg <- ReadScalarFromMatlab TPixelIn inFOREGROUND (cast TPixelIn one) ;;
  Itk.Set_ "ForegroundValue" (VScalar fg) ;;
  GraftItkImageOntoMatlab TPixelOut None outB (GetOutputs 0) (im_size im) ;;
  Itk.Update.

(** MRFImageFilter *)

(** [v[i] = x] on a [std::vector] (nothing happens out of range in the
    embedding; the wrapper only assigns inside the vector). *)
Fixpoint assign {A} (i : nat) (x : A) (v : list A) : list A :=
  match v, i with
  | [], _ => []
  | _ :: v', O => x :: v'
  | y :: v', S i' => y :: assign i' x v'
  end.

(** The loop over the classes: one membership function per centroid is
    added to the classifier, and the centroids are summed.  The centroid
    goes through [centroidAux], a [CentroidType] array of one [double]:
    [centroidAux[0] = centroid[i]] converts it from [TPixelIn]. *)
Fixpoint add_membership_functions (cs : list scalar) (meanDistance : double)
  : M double :=
  match cs with
  | [] => ret meanDistance
  | c :: cs' =>
      Itk.NewAux "DistanceToCentroidMembershipFunction" ;;
      let centroidAux := [SFlt (to_double c)] in
      Itk.Set_ "membershipFunction.Centroid" (VVector centroidAux) ;;
      Itk.Call "classifier.AddMembershipFunction" ;;
      add_membership_functions cs' (add meanDistance (to_double c))
  end.

(** The first loop over the weights: [totalWeight += *wcIt]. *)
Fixpoint total_weight_loop (ws : list double) (totalWeight : double)
  : double :=
  match ws with
  | [] => totalWeight
  | w :: ws' => total_weight_loop ws' (add totalWeight w)
  end.

(** The second loop over the weights, in place: [n] entries are left,
    the iterator is at index [i]. *)
Fixpoint scale_loop (n i : nat) (meanDistance totalWeight : double)
    (weights : list double) : list double :=
  match n with
  | O => weights
  | S n' =>
      let w := nth i weights zero in
      scale_loop n' (S i) meanDistance totalWeight
        (assign i (div (mul w meanDistance) (mul two totalWeight)) weights)
  end.

Definition scale_weights (meanDistance : double) (weights : list double)
  : list double :=
  let totalWeight := total_weight_loop weights zero in
  scale_loop (List.length weights) 0 meanDistance totalWeight weights.

(** The local variables of the wrapper that are used after the
    arguments have been read. *)
Record MRFLocals : Type := mkMRFLocals {
  outB : MatlabOutput;
  centroid : list scalar;        (* std::vector<TPixelIn> *)
  numberOfClasses : Z;           (* unsigned int *)
  weights : list double;         (* std::vector<double> *)
  neighHalfSize : list scalar
}.

(** From the argument checks to the parameters of the filter. *)
Definition MRF_read_arguments : M MRFLocals :=
  MatlabImportFilter.CheckNumberOfArguments 3 7 ;;
  MatlabExportFilter.CheckNumberOfArguments 0 1 ;;
  inA <- GetRegisteredInput "A" ;;
  inMU <- RegisterInput 2 "MU" ;;
  inWEIGHTS <- RegisterInput 3 "WEIGHTS" ;;
  inSMOOTH <- RegisterInput 4 "SMOOTH" ;;
  inNITER <- RegisterInput 5 "NITER" ;;
  inTOL <- RegisterInput 6 "TOL" ;;
  outB <- RegisterOutput 0 "B" ;;
  let TPixelOut := LabelPixelType in
  Itk.New nMRFImageFilter TPixelIn TPixelOut VImageDimension ;;
  Itk.NewAux "ComposeImageFilter" ;;
  GetImagePointerFromMatlab TPixelIn VImageDimension inA ;;
  Itk.Call "scalarToArrayFilter.SetInput" ;;
  (* vector of centroids *)
  centroid <- ReadRowVectorFromMatlab TPixelIn None inMU [] ;;
  let numberOfClasses := to_unsigned_int (vector_size centroid) in
  (* default neighbourhood: a hypercube with side 3, all weights 1.0
     except for the central one, that is 0.0 *)
  let neighLength := N.to_nat (3 ^ VImageDimension)%N in
  let weights := repeat one neighLength in
  let weights := assign ((neighLength - 1) / 2)%nat zero weights in
  let neighHalfSize := Fill VImageDimension (SInt 1) in
  weights <- ReadArrayAsVectorFromMatlab inWEIGHTS weights ;;
  neighHalfSize <- ReadMatlabArrayHalfSize VImageDimension inWEIGHTS
                                           neighHalfSize ;;
  smoothingFactor <- ReadScalarFromMatlab c_double inSMOOTH
                                          (SFlt (decimal 1 7)) ;;
  maximumNumberOfIterations <- ReadScalarFromMatlab uint32_T inNITER
                                                    (SInt 100) ;;
  errorTolerance <- ReadScalarFromMatlab c_double inTOL
                                         (SFlt (decimal 1 7)) ;;
  Itk.Set_ "NumberOfClasses" (VScalar (SInt numberOfClasses)) ;;
  Itk.Set_ "SmoothingFactor" (VScalar smoothingFactor) ;;
  Itk.Set_ "MaximumNumberOfIterations"
           (VScalar maximumNumberOfIterations) ;;
  Itk.Set_ "ErrorTolerance" (VScalar errorTolerance) ;;
  ret (mkMRFLocals outB centroid numberOfClasses weights neighHalfSize).

(** The classifier, its decision rule and its membership functions;
    returns [meanDistance]. *)
Definition MRF_build_classifier (l : MRFLocals) : M double :=
  Itk.NewAux "ImageClassifierBase" ;;
  Itk.NewAux "MinimumDecisionRule" ;;
  Itk.Call "classifier.SetDecisionRule" ;;
  meanDistance <- add_membership_functions
                    (firstn (Z.to_nat (numberOfClasses l)) (centroid l))
                    zero ;;
  ret (div meanDistance (of_Z (numberOfClasses l))).

(** The wrapper up to the point where the classifier has been built:
    the local variables as they are then, and [meanDistance]. *)
Definition MRF_until_classifier : M (MRFLocals * double) :=
  l <- MRF_read_arguments ;;
  meanDistance <- MRF_build_classifier l ;;
  ret (l, meanDistance).

Definition MRFImageFilter : M unit :=
  lm <- MRF_until_classifier ;;
  let l := fst lm in
  let meanDistance := snd lm in
  Itk.Set_ "NeighborhoodRadius" (VVector (neighHalfSize l)) ;;
  (* scale weights so that the smoothing function and the image
     fidelity functions have comparable value *)
  let weights := scale_weights meanDistance (weights l) in
  Itk.Set_ "MRFNeighborhoodWeight" (VVector (map SFlt weights)) ;;
  Itk.Call "SetClassifier" ;;
  Itk.SetInput ;;
  GraftItkImageOntoMatlab LabelPixelType None (outB l) (GetOutputs 0)
                          (im_size im) ;;
  Itk.Update.

(** Template resolution: the most specialised [FilterWrapper] for
    [TPixelIn], [VImageDimension] and the enumerator [FilterEnum]. *)
Definition FilterWrapper (FilterEnum : N) : M unit :=
  match FilterEnum with
  | 0 =>
      match TPixelIn with
      | mxLogical | int8_T | uint8_T | int16_T | uint16_T | int32_T
      | int64_T => CannyEdgeDetectionImageFilter_nonfloating
      | _ => CannyEdgeDetectionImageFilter
      end
  | 1 => VotingBinaryIterativeHoleFillingImageFilter
  | 2 => ApproximateSignedDistanceMapImageFilter
  | 3 => MedianImageFilter
  | 4 =>
      match VImageDimension with
      | 2 | 4 =>
          MultiScaleHessianSmoothed3DToVesselnessMeasureImageFilter_not3D
      | _ => MultiScaleHessianSmoothed3DToVesselnessMeasureImageFilter
      end
  | 5 =>
      match VImageDimension with
      | 2 | 4 => AnisotropicDiffusionVesselEnhancementImageFilter_not3D
      | _ => AnisotropicDiffusionVesselEnhancementImageFilter
      end
  | 6 =>
      match VImageDimension with
      | 2 | 4 => BinaryThinningImageFilter3D_not3D
      | _ => BinaryThinningImageFilter3D
      end
  | 7 => SignedDanielssonDistanceMapImageFilter
  | 8 => DanielssonDistanceMapImageFilter
  | 9 =>
      match TPixelIn with
      | mxLogical => SignedMaurerDistanceMapImageFilter_boolean
      | _ => SignedMaurerDistanceMapImageFilter
      end
  | 10 => BinaryDilateImageFilter
  | 11 => BinaryErodeImageFilter
  | 12 => MRFImageFilter
  | _ => Unsupported
  end%N.

End Wrappers.

End FilterWrapper.

(** ** Argument parsers

    These functions map the input data types that are only known at run
    time to the templates that ITK requires at compilation time. *)

Import MatlabImportFilter.

(** parseOutputImageTypeToTemplate() *)
Definition parseOutputImageTypeToTemplate (TPixelIn : CType)
    (VImageDimension : N) (im : MatlabImageHeader) : M unit :=
  let wrap f :=
    FilterWrapper.FilterWrapper TPixelIn VImageDimension im (enum_value f) in
  inTYPE <- GetRegisteredInput "TYPE" ;;
  filterName <- ReadStringFromMatlab inTYPE "Unknown" ;;
  if (filterName =? "canny")%string
     || (filterName =? "CannyEdgeDetectionImageFilter")%string then
    wrap nCannyEdgeDetectionImageFilter
  else if (filterName =? "appsigndist")%string
     || (filterName =? "ApproximateSignedDistanceMapImageFilter")%string then
    wrap nApproximateSignedDistanceMapImageFilter
  else if (filterName =? "median")%string
     || (filterName =? "MedianImageFilter")%string then
    wrap nMedianImageFilter
  else if (filterName =? "advess")%string
     || (filterName =? "AnisotropicDiffusionVesselEnhancementImageFilter")%string then
    wrap nAnisotropicDiffusionVesselEnhancementImageFilter
  else if (filterName =? "bwdilate")%string
     || (filterName =? "BinaryDilateImageFilter")%string then
    wrap nBinaryDilateImageFilter
  else if (filterName =? "bwerode")%string
     || (filterName =? "BinaryErodeImageFilter")%string then
    wrap nBinaryErodeImageFilter
  else if (filterName =? "skel")%string
     || (filterName =? "BinaryThinningImageFilter3D")%string then
    wrap nBinaryThinningImageFilter3D
  else if (filterName =? "signdandist")%string
     || (filterName =? "SignedDanielssonDistanceMapImageFilter")%string then
    wrap nSignedDanielssonDistanceMapImageFilter
  else if (filterName =? "dandist")%string
     || (filterName =? "DanielssonDistanceMapImageFilter")%string then
    wrap nDanielssonDistanceMapImageFilter
  else if (filterName =? "hesves")%string
     || (filterName =? "MultiScaleHessianSmoothed3DToVesselnessMeasureImageFilter")%string then
    wrap nMultiScaleHessianSmoothed3DToVesselnessMeasureImageFilter
  else if (filterName =? "maudist")%string
     || (filterName =? "SignedMaurerDistanceMapImageFilter")%string then
    wrap nSignedMaurerDistanceMapImageFilter
  else if (filterName =? "mrf")%string
     || (filterName =? "MRFImageFilter")%string then
    wrap nMRFImageFilter
  else if (filterName =? "voteholefill")%string
     || (filterName =? "VotingBinaryIterativeHoleFillingImageFilter")%string then
    wrap nVotingBinaryIterativeHoleFillingImageFilter
  else
    mexErrMsgTxt "Invalid filter type".

(** parseInputImageTypeToTemplate() *)
Definition parseInputImageTypeToTemplate (VImageDimension : N)
    (im : MatlabImageHeader) : M unit :=
  match im_type im with
  | mxLOGICAL_CLASS =>
      parseOutputImageTypeToTemplate mxLogical VImageDimension im
  | mxDOUBLE_CLASS =>
      parseOutputImageTypeToTemplate c_double VImageDimension im
  | mxSINGLE_CLASS =>
      parseOutputImageTypeToTemplate c_float VImageDimension im
  | mxINT8_CLASS =>
      parseOutputImageTypeToTemplate int8_T VImageDimension im
  | mxUINT8_CLASS =>
      parseOutputImageTypeToTemplate uint8_T VImageDimension im
  | mxINT16_CLASS =>
      parseOutputImageTypeToTemplate int16_T VImageDimension im
  | mxUINT16_CLASS =>
      parseOutputImageTypeToTemplate uint16_T VImageDimension im
  | mxINT32_CLASS =>
      parseOutputImageTypeToTemplate int32_T VImageDimension im
  (* case mxUINT32_CLASS: break; is commented out *)
  | mxINT64_CLASS =>
      parseOutputImageTypeToTemplate int64_T VImageDimension im
  (* case mxUINT64_CLASS: break; is commented out *)
  | mxUNKNOWN_CLASS =>
      mexErrMsgTxt "Input matrix has unknown type."
  | _ =>
      mexErrMsgTxt "Input matrix has invalid type."
  end.

(** parseInputImageDimensionToTemplate() *)
Definition parseInputImageDimensionToTemplate : M unit :=
  inA <- GetRegisteredInput "A" ;;
  im <- MatlabImageHeader_new inA ;;
  match GetNumberOfDimensions im with
  | 2 => parseInputImageTypeToTemplate 2 im
  | 3 => parseInputImageTypeToTemplate 3 im
  | 4 => parseInputImageTypeToTemplate 4 im
  | _ => mexErrMsgTxt "Input image can only have 2 to 4 dimensions"
  end.

(** The world at the entry of [mexFunction]: the arguments are connected
    and nothing is registered or produced. *)
Definition connect (nlhs : Z) (prhs : list mxArray) : World :=
  mkWorld prhs [] nlhs [] [] [].

(** The inputs common to all filters are checked and registered. *)
Definition mex_prelude : M unit :=
  (* check that we have at least a filter name and input image *)
  MatlabImportFilter.CheckNumberOfArguments 2 INT_MAX ;;
  inTYPE <- RegisterInput 0 "TYPE" ;;
  inA <- RegisterInput 1 "A" ;;
  ret tt.

(** mexFunction(): entry point for the mex function *)
Definition mexFunction (nlhs : Z) (prhs : list mxArray) : Result unit * World :=
  (mex_prelude ;; parseInputImageDimensionToTemplate) (connect nlhs prhs).

(** The invocation interface: a filter name, the primary array and the
    filter's own arguments, asking for [nlhs] outputs. *)
Definition invoke (nlhs : Z) (filterName : string) (A : mxArray)
    (extraArgs : list mxArray) : Result unit * World :=
  mexFunction nlhs (mxChar filterName :: A :: extraArgs).

(** * Properties *)

(** ** The dispatch cascade *)

(** The classes [parseInputImageTypeToTemplate] accepts, with the pixel
    type each one selects. *)
Definition catalog : list (mxClassID * CType) :=
  [ (mxLOGICAL_CLASS, mxLogical); (mxDOUBLE_CLASS, c_double);
    (mxSINGLE_CLASS, c_float); (mxINT8_CLASS, int8_T);
    (mxUINT8_CLASS, uint8_T); (mxINT16_CLASS, int16_T);
    (mxUINT16_CLASS, uint16_T); (mxINT32_CLASS, int32_T);
    (mxINT64_CLASS, int64_T) ].

(** The names [parseOutputImageTypeToTemplate] accepts for a filter. *)
Definition names (f : SupportedFilter) : list string :=
  match f with
  | nCannyEdgeDetectionImageFilter =>
      ["canny"; "CannyEdgeDetectionImageFilter"]
  | nVotingBinaryIterativeHoleFillingImageFilter =>
      ["voteholefill"; "VotingBinaryIterativeHoleFillingImageFilter"]
  | nApproximateSignedDistanceMapImageFilter =>
      ["appsigndist"; "ApproximateSignedDistanceMapImageFilter"]
  | nMedianImageFilter => ["median"; "MedianImageFilter"]
  | nMultiScaleHessianSmoothed3DToVesselnessMeasureImageFilter =>
      ["hesves"; "MultiScaleHessianSmoothed3DToVesselnessMeasureImageFilter"]
  | nAnisotropicDiffusionVesselEnhancementImageFilter =>
      ["advess"; "AnisotropicDiffusionVesselEnhancementImageFilter"]
  | nBinaryThinningImageFilter3D => ["skel"; "BinaryThinningImageFilter3D"]
  | nSignedDanielssonDistanceMapImageFilter =>
      ["signdandist"; "SignedDanielssonDistanceMapImageFilter"]
  | nDanielssonDistanceMapImageFilter =>
      ["dandist"; "DanielssonDistanceMapImageFilter"]
  | nSignedMaurerDistanceMapImageFilter =>
      ["maudist"; "SignedMaurerDistanceMapImageFilter"]
  | nBinaryDilateImageFilter => ["bwdilate"; "BinaryDilateImageFilter"]
  | nBinaryErodeImageFilter => ["bwerode"; "BinaryErodeImageFilter"]
  | nMRFImageFilter => ["mrf"; "MRFImageFilter"]
  end.

(** The number of arguments of a call fits the [int] that carries it. *)
Definition fits_int (extraArgs : list mxArray) : Prop :=
  Z.of_nat (List.length extraArgs) + 2 <= INT_MAX.

(** The rank of an array. *)
Definition rank (A : mxArray) : Z := Z.of_nat (List.length (mxGetDimensions A)).

(** The world in which the cascade starts: TYPE and A are registered. *)
Definition entry (nlhs : Z) (prhs : list mxArray) : World :=
  mkWorld prhs
          [mkInput "TYPE" (nth_error prhs 0); mkInput "A" (nth_error prhs 1)]
          nlhs [] [] [].

Lemma CheckNumberOfArguments_in (min max : Z) (w : World) :
  min <= Z.of_nat (List.length (prhs w)) <= max ->
  MatlabImportFilter.CheckNumberOfArguments min max w = (Ok tt, w).
Proof.
  intros [Hlo Hhi].
  unfold MatlabImportFilter.CheckNumberOfArguments, bind, get_world.
  destruct (Z.ltb_spec (Z.of_nat (List.length (prhs w))) min); [lia|].
  destruct (Z.ltb_spec max (Z.of_nat (List.length (prhs w)))); [lia|].
  reflexivity.
Qed.

Lemma CheckNumberOfArguments_out (min max : Z) (w : World) :
  min <= nlhs w <= max ->
  MatlabExportFilter.CheckNumberOfArguments min max w = (Ok tt, w).
Proof.
  intros [Hlo Hhi].
  unfold MatlabExportFilter.CheckNumberOfArguments, bind, get_world.
  destruct (Z.ltb_spec (nlhs w) min); [lia|].
  destruct (Z.ltb_spec max (nlhs w)); [lia|].
  reflexivity.
Qed.

Lemma length_args (t a : mxArray) (extra : list mxArray) :
  Z.of_nat (List.length (t :: a :: extra)) = Z.of_nat (List.length extra) + 2.
Proof. cbn [List.length]. lia. Qed.

(** With a filter name and an image the common checks pass. *)
Lemma mexFunction_entry (nl : Z) (t a : mxArray) (extra : list mxArray) :
  fits_int extra ->
  mexFunction nl (t :: a :: extra)
  = parseInputImageDimensionToTemplate (entry nl (t :: a :: extra)).
Proof.
  intros Hfit. unfold mexFunction, mex_prelude.
  unfold bind at 1 2.
  rewrite CheckNumberOfArguments_in.
  - reflexivity.
  - unfold connect, prhs. rewrite length_args. unfold fits_int in Hfit.
    pose proof (Nat2Z.is_nonneg (List.length extra)). lia.
Qed.

(** The cascade resolves a supported rank, a class of the catalog and a
    name of a filter to the wrapper for them. *)
Lemma dispatch_resolves (nl : Z) (f : SupportedFilter) (name : string)
    (cls : mxClassID) (T : CType) (dims : list Z) (data : list double)
    (extra : list mxArray) (dim : N) :
  fits_int extra ->
  In name (names f) ->
  In (cls, T) catalog ->
  In dim [2; 3; 4]%N ->
  Z.of_nat (List.length dims) = Z.of_N dim ->
  invoke nl name (mxNumeric cls dims data) extra
  = FilterWrapper.FilterWrapper T dim (mkHeader cls dims) (enum_value f)
      (entry nl (mxChar name :: mxNumeric cls dims data :: extra)).
Proof.
  intros Hfit Hname Hcat Hdim Hlen.
  unfold invoke. rewrite mexFunction_entry by assumption.
  unfold parseInputImageDimensionToTemplate.
  unfold bind at 1 2. cbn [GetRegisteredInput bind get_world entry inputs find in_name String.eqb Ascii.eqb Bool.eqb].
  cbn [MatlabImageHeader_new in_pm nth_error ret mxGetClassID mxGetDimensions].
  unfold GetNumberOfDimensions. cbn [im_size]. rewrite Hlen.
  cbn in Hdim, Hcat.
  repeat (destruct Hdim as [<- | Hdim]); try contradiction;
  repeat (destruct Hcat as [Hc | Hcat]; [ inversion Hc; subst cls T | ]); try contradiction;
  destruct f; cbn in Hname; repeat (destruct Hname as [<- | Hname]); try contradiction;
  reflexivity.
Qed.

(** ** Combinations without a filter *)

(** The specialisations of [FilterWrapper] whose constructor only raises an
    error, with the message each one raises. *)
Definition rejection (f : SupportedFilter) (dim : N) (T : CType)
  : option string :=
  match f with
  | nCannyEdgeDetectionImageFilter =>
      match T with
      | mxLogical | int8_T | uint8_T | int16_T | uint16_T | int32_T
      | int64_T =>
          Some "CannyEdgeDetectionImageFilter only accepts input images with floating type (double or single)"
      | _ => None
      end
  | nMultiScaleHessianSmoothed3DToVesselnessMeasureImageFilter =>
      match dim with
      | 2 | 4 =>
          Some "MultiScaleHessianSmoothed3DToVesselnessMeasureImageFilter only accepts 3D input images"
      | _ => None
      end
  | nAnisotropicDiffusionVesselEnhancementImageFilter =>
      match dim with
      | 2 | 4 =>
          Some "AnisotropicDiffusionVesselEnhancementImageFilter only accepts 3D input images"
      | _ => None
      end
  | nBinaryThinningImageFilter3D =>
      match dim with
      | 2 | 4 =>
          Some "BinaryThinningImageFilter3D only accepts 3D input images"
      | _ => None
      end
  | nSignedMaurerDistanceMapImageFilter =>
      match T with
      | mxLogical =>
          Some "SignedMaurerDistanceMapImageFilter does not accept input image with type boolean"
      | _ => None
      end
  | _ => None
  end%N.

(** The arguments after the image that a filter cannot do without: the
    centroids of the MRF filter (here an empty row vector). *)
Definition required_args (f : SupportedFilter) : list mxArray :=
  match f with
  | nMRFImageFilter => [mxNumeric mxDOUBLE_CLASS [1; 0] []]
  | _ => []
  end.

(** The wrapped filter is constructed during a call. *)
Definition constructs (f : SupportedFilter) (T : CType) (dim : N) (w : World)
  : Prop :=
  exists TPixelOut, In (ItkNew f T TPixelOut dim) (itk w).

(** An image of the given class and size with unspecified contents. *)
Definition blank (cls : mxClassID) (dims : list Z) : mxArray :=
  mxNumeric cls dims [].

Lemma rejected_fails (f : SupportedFilter) (T : CType) (dim : N)
    (im : MatlabImageHeader) (msg : string) (w : World) :
  rejection f dim T = Some msg ->
  FilterWrapper.FilterWrapper T dim im (enum_value f) w = (Failed (ErrMsg msg), w).
Proof.
  intros H.
  destruct f; try discriminate H.
  - destruct T; cbn in H; try discriminate H;
      inversion H; reflexivity.
  - destruct dim as [|p]; [discriminate H|];
      do 3 (try destruct p as [p|p|]); cbn in H; try discriminate H;
      inversion H; reflexivity.
  - destruct dim as [|p]; [discriminate H|];
      do 3 (try destruct p as [p|p|]); cbn in H; try discriminate H;
      inversion H; reflexivity.
  - destruct dim as [|p]; [discriminate H|];
      do 3 (try destruct p as [p|p|]); cbn in H; try discriminate H;
      inversion H; reflexivity.
  - destruct T; cbn in H; try discriminate H;
      inversion H; reflexivity.
Qed.

Lemma rank_cases (dims : list Z) :
  2 <= Z.of_nat (List.length dims) <= 4 ->
  exists dim, In dim [2; 3; 4]%N /\ Z.of_nat (List.length dims) = Z.of_N dim.
Proof.
  intros H.
  assert (Hc : Z.of_nat (List.length dims) = 2
               \/ Z.of_nat (List.length dims) = 3
               \/ Z.of_nat (List.length dims) = 4) by lia.
  destruct Hc as [Hc | [Hc | Hc]]; rewrite Hc.
  - exists 2%N. cbn. auto.
  - exists 3%N. cbn. auto.
  - exists 4%N. cbn. auto.
Qed.

Lemma default_stub (T : CType) (dim : N) (im : MatlabImageHeader) (n : N)
    (w : World) :
  (13 <= n)%N ->
  FilterWrapper.FilterWrapper T dim im n w
  = (Failed (ErrMsg "Unsupported filter type"), w).
Proof.
  intros H.
  destruct n as [|p]; [lia|].
  do 4 (try destruct p as [p|p|]); try lia; reflexivity.
Qed.

(** A combination the cascade reaches and no specialisation rejects runs
    its filter when it is given the arguments it cannot do without. *)
Lemma accepted_constructs (f : SupportedFilter) (cls : mxClassID) (T : CType)
    (dim : N) :
  In (cls, T) catalog -> In dim [2; 3; 4]%N -> rejection f dim T = None ->
  exists w,
    invoke 0 (hd "" (names f)) (blank cls (repeat 1 (N.to_nat dim)))
           (required_args f) = (Ok tt, w)
    /\ constructs f T dim w.
Proof.
  intros Hcat Hdim Hrej. cbn in Hcat, Hdim.
  repeat (destruct Hdim as [<- | Hdim]); try contradiction;
  repeat (destruct Hcat as [Hc | Hcat]; [ inversion Hc; subst cls T | ]);
  try contradiction;
  destruct f; try discriminate Hrej;
  (eexists; split; [vm_compute; reflexivity |
                    eexists; cbn; left; reflexivity]).
Qed.


(** ** Distance filters *)

(** [OutputIndexType_MAX] of each wrapper. *)
Definition OutputIndexType_MAX (f : SupportedFilter) : Z :=
  match f with
  | nCannyEdgeDetectionImageFilter => 2
  | nSignedDanielssonDistanceMapImageFilter
  | nDanielssonDistanceMapImageFilter => 3
  | _ => 1
  end.

(** The array produced at a position of [plhs]. *)
Definition output_at (pos : nat) (w : World) : option OutputArray :=
  find (fun o => Nat.eqb (oa_pos o) pos) (plhs w).

Definition distance_filters : list SupportedFilter :=
  [ nDanielssonDistanceMapImageFilter; nSignedDanielssonDistanceMapImageFilter;
    nSignedMaurerDistanceMapImageFilter;
    nApproximateSignedDistanceMapImageFilter ].

Definition danielsson_filters : list SupportedFilter :=
  [ nDanielssonDistanceMapImageFilter;
    nSignedDanielssonDistanceMapImageFilter ].

(** The integer classes of the catalog. *)
Definition integer_catalog : list (mxClassID * CType) :=
  filter (fun p => is_integer (snd p)) catalog.

Lemma nlhs_cases (n hi : Z) :
  0 <= n <= hi -> hi <= 3 -> n = 0 \/ n = 1 \/ n = 2 \/ n = 3.
Proof. lia. Qed.

Lemma dims_of_rank (dims : list Z) :
  2 <= Z.of_nat (List.length dims) <= 4 ->
  (exists a b, dims = [a; b]) \/ (exists a b c, dims = [a; b; c])
  \/ (exists a b c d, dims = [a; b; c; d]).
Proof.
  destruct dims as [|a [|b [|c [|d [|e dims]]]]]; cbn [List.length]; intros H;
    try lia.
  - left. eauto.
  - right. left. eauto.
  - right. right. eauto.
Qed.

Ltac split_In H :=
  cbn in H; repeat (destruct H as [<- | H]); try contradiction.

Ltac split_pairs H :=
  cbn in H;
  repeat (destruct H as [?Hc | H]; [inversion Hc; subst; clear Hc|]);
  try contradiction.

Ltac split_nlhs H Hmax :=
  let C := fresh "C" in
  pose proof (nlhs_cases _ _ H Hmax) as C;
  destruct C as [-> | [-> | [-> | ->]]].

(** The classes of the integer types of Matlab. *)
Definition integer_class (cls : mxClassID) : bool :=
  match cls with
  | mxINT8_CLASS | mxUINT8_CLASS | mxINT16_CLASS | mxUINT16_CLASS
  | mxINT32_CLASS | mxUINT32_CLASS | mxINT64_CLASS | mxUINT64_CLASS => true
  | _ => false
  end.

(** C2, counterexample.  An array of unsigned 32-bit integers of shape
    (10,10,10) is integer-typed, and 'dandist' on it fails with the type
    message of the cascade: no distance map is produced. *)
Lemma C2_unsigned_32_bit_image_has_no_distance_map :
  integer_class mxUINT32_CLASS = true
  /\ invoke 3 "dandist" (blank mxUINT32_CLASS [10; 10; 10]) []
     = (Failed (ErrMsg "Input matrix has invalid type."),
        entry 3 [mxChar "dandist"; blank mxUINT32_CLASS [10; 10; 10]])
  /\ output_at 0 (snd (invoke 3 "dandist"
                         (blank mxUINT32_CLASS [10; 10; 10]) [])) = None.
Proof.
  split; [reflexivity|]. split; [reflexivity|]. vm_compute. reflexivity.
Qed.

(** C2 (as amended).  On an image of one of the six integer classes of the
    catalog (so not the unsigned 32-bit and 64-bit ones) and of shape
    (10,10,10), each of the four distance filters succeeds and
    produces at position 0 an array of floating-point type and of shape
    (10,10,10); the two Danielsson filters also produce at position 2 an
    array of shape (3,10,10,10), the offset vectors. *)
Theorem C2_distance_output_type_and_shape :
  forall nl f name cls T data,
    In f distance_filters -> In name (names f) ->
    In (cls, T) integer_catalog ->
    0 <= nl <= OutputIndexType_MAX f ->
    exists w B,
      invoke nl name (mxNumeric cls [10; 10; 10] data) [] = (Ok tt, w)
      /\ output_at 0 w = Some B
      /\ is_floating (oa_type B) = true
      /\ oa_shape B = [10; 10; 10]
      /\ (In f danielsson_filters ->
          exists W, output_at 2 w = Some W
                    /\ oa_shape W = [3; 10; 10; 10]
                    /\ oa_source W = GetOutputs 2).
Proof.
  intros nl f name cls T data Hf Hname Hcat Hnl.
  assert (Hmax : OutputIndexType_MAX f <= 3) by (destruct f; cbn; lia).
  split_nlhs Hnl Hmax;
    split_In Hf; cbn in Hnl; try lia;
    split_In Hname; split_pairs Hcat;
    (eexists; eexists; split; [vm_compute; reflexivity|];
     split; [vm_compute; reflexivity|];
     split; [reflexivity|]; split; [reflexivity|];
     intros HD; first [ eexists; split; [vm_compute; reflexivity|];
                        split; reflexivity
                      | exfalso; cbn in HD;
                        repeat (destruct HD as [HD | HD]; try discriminate HD);
                        contradiction ]).
Qed.

Ltac split_dims H :=
  destruct (dims_of_rank _ H) as [(?a & ?b & ->) | [(?a & ?b & ?c & ->)
                                 | (?a & ?b & ?c & ?d & ->)]].

(** C9.  On every input a distance filter supports (a class of the catalog
    that no specialisation rejects, rank 2 to 4), the distance map at
    position 0 has type [double] for 'dandist' and type [float] for
    'signdandist', 'maudist' and 'appsigndist'; the filter is instantiated
    with that output pixel type, so the four filters do not share one
    output type. *)
Theorem C9_distance_output_pixel_types :
  forall nl f name cls T dims data,
    In f distance_filters -> In name (names f) -> In (cls, T) catalog ->
    2 <= Z.of_nat (List.length dims) <= 4 ->
    rejection f (Z.to_N (Z.of_nat (List.length dims))) T = None ->
    0 <= nl <= OutputIndexType_MAX f ->
    exists w B,
      invoke nl name (mxNumeric cls dims data) [] = (Ok tt, w)
      /\ output_at 0 w = Some B
      /\ oa_shape B = dims
      /\ (f = nDanielssonDistanceMapImageFilter ->
          oa_type B = c_double
          /\ In (ItkNew f T c_double (Z.to_N (Z.of_nat (List.length dims))))
                (itk w))
      /\ (f <> nDanielssonDistanceMapImageFilter ->
          oa_type B = c_float
          /\ In (ItkNew f T c_float (Z.to_N (Z.of_nat (List.length dims))))
                (itk w)).
Proof.
  intros nl f name cls T dims data Hf Hname Hcat Hrank Hrej Hnl.
  assert (Hmax : OutputIndexType_MAX f <= 3) by (destruct f; cbn; lia).
  split_dims Hrank;
    split_nlhs Hnl Hmax;
    split_In Hf; cbn in Hnl; try lia;
    split_In Hname; split_pairs Hcat; try discriminate Hrej;
    (eexists; eexists; split; [vm_compute; reflexivity|];
     split; [vm_compute; reflexivity|];
     split; [reflexivity|];
     split; intros Hf;
     first [ discriminate Hf
           | contradiction Hf; reflexivity
           | split; [reflexivity | cbn; tauto] ]).
Qed.

(** C10.  At ranks 2, 3 and 4 'maudist' on a boolean image fails with the
    message of its boolean specialisation in the world of the entry of the
    cascade, so before any filter is constructed; the other three distance
    filters accept a boolean image at each of these ranks: the call
    succeeds and the filter is constructed on [mxLogical] pixels. *)
Theorem C10_maurer_rejects_boolean :
  (forall nl name dims data extra,
      fits_int extra ->
      In name (names nSignedMaurerDistanceMapImageFilter) ->
      2 <= Z.of_nat (List.length dims) <= 4 ->
      invoke nl name (mxNumeric mxLOGICAL_CLASS dims data) extra
      = (Failed (ErrMsg "SignedMaurerDistanceMapImageFilter does not accept input image with type boolean"),
         entry nl (mxChar name :: mxNumeric mxLOGICAL_CLASS dims data
                               :: extra)))
  /\ (forall nl f name dims data,
         In f [ nDanielssonDistanceMapImageFilter;
                nSignedDanielssonDistanceMapImageFilter;
                nApproximateSignedDistanceMapImageFilter ] ->
         In name (names f) ->
         2 <= Z.of_nat (List.length dims) <= 4 ->
         0 <= nl <= OutputIndexType_MAX f ->
         exists w,
           invoke nl name (mxNumeric mxLOGICAL_CLASS dims data) []
           = (Ok tt, w)
           /\ constructs f mxLogical (Z.to_N (Z.of_nat (List.length dims))) w).
Proof.
  split.
  - intros nl name dims data extra Hfit Hname Hrank.
    destruct (rank_cases dims Hrank) as (dim & Hdim & Hlen).
    rewrite (dispatch_resolves nl nSignedMaurerDistanceMapImageFilter name
               mxLOGICAL_CLASS mxLogical dims data extra dim);
      try assumption; [| cbn; tauto].
    apply rejected_fails. reflexivity.
  - intros nl f name dims data Hf Hname Hrank Hnl.
    assert (Hmax : OutputIndexType_MAX f <= 3) by (destruct f; cbn; lia).
    split_dims Hrank;
      split_nlhs Hnl Hmax;
      split_In Hf; cbn in Hnl; try lia;
      split_In Hname;
      (eexists; split; [vm_compute; reflexivity|];
       eexists; cbn; left; reflexivity).
Qed.

(** ** The order of the cascade: rank, element type, filter name *)

Definition all_filters : list SupportedFilter :=
  [ nCannyEdgeDetectionImageFilter;
    nVotingBinaryIterativeHoleFillingImageFilter;
    nApproximateSignedDistanceMapImageFilter; nMedianImageFilter;
    nMultiScaleHessianSmoothed3DToVesselnessMeasureImageFilter;
    nAnisotropicDiffusionVesselEnhancementImageFilter;
    nBinaryThinningImageFilter3D; nSignedDanielssonDistanceMapImageFilter;
    nDanielssonDistanceMapImageFilter; nSignedMaurerDistanceMapImageFilter;
    nBinaryDilateImageFilter; nBinaryErodeImageFilter; nMRFImageFilter ].

(** Every name the cascade knows. *)
Definition known_names : list string := flat_map names all_filters.

(** The message of [parseInputImageTypeToTemplate] for a class outside the
    catalog. *)
Definition type_message (cls : mxClassID) : string :=
  match cls with
  | mxUNKNOWN_CLASS => "Input matrix has unknown type."
  | _ => "Input matrix has invalid type."
  end.

Definition rank_message : string :=
  "Input image can only have 2 to 4 dimensions".

Lemma entry_header (nl : Z) (t A : mxArray) (extra : list mxArray)
    (k : MatlabImageHeader -> M unit) :
  (inA <- GetRegisteredInput "A" ;; im <- MatlabImageHeader_new inA ;; k im)
    (entry nl (t :: A :: extra))
  = k (mkHeader (mxGetClassID A) (mxGetDimensions A))
      (entry nl (t :: A :: extra)).
Proof. reflexivity. Qed.

Lemma rank_switch_default {X} (n : Z) (a b c d : X) :
  ~ In n [2; 3; 4] ->
  match n with 2 => a | 3 => b | 4 => c | _ => d end = d.
Proof.
  intros H. destruct n as [|p|p]; try reflexivity.
  do 3 (try destruct p as [p|p|]); try reflexivity;
    exfalso; apply H; cbn; tauto.
Qed.

Lemma rank_rejected (nl : Z) (t A : mxArray) (extra : list mxArray) :
  fits_int extra -> ~ In (rank A) [2; 3; 4] ->
  mexFunction nl (t :: A :: extra)
  = (Failed (ErrMsg rank_message), entry nl (t :: A :: extra)).
Proof.
  intros Hfit Hrank. rewrite mexFunction_entry by assumption.
  unfold parseInputImageDimensionToTemplate. rewrite entry_header.
  unfold GetNumberOfDimensions. cbn [im_size]. fold (rank A).
  rewrite rank_switch_default by assumption. reflexivity.
Qed.

Lemma type_rejected (nl : Z) (t A : mxArray) (extra : list mxArray) :
  fits_int extra -> In (rank A) [2; 3; 4] ->
  ~ In (mxGetClassID A) (map fst catalog) ->
  mexFunction nl (t :: A :: extra)
  = (Failed (ErrMsg (type_message (mxGetClassID A))),
     entry nl (t :: A :: extra)).
Proof.
  intros Hfit Hrank Hcls. rewrite mexFunction_entry by assumption.
  unfold parseInputImageDimensionToTemplate. rewrite entry_header.
  unfold GetNumberOfDimensions. cbn [im_size]. fold (rank A).
  assert (Hty : forall dim,
             parseInputImageTypeToTemplate dim
               (mkHeader (mxGetClassID A) (mxGetDimensions A))
               (entry nl (t :: A :: extra))
             = (Failed (ErrMsg (type_message (mxGetClassID A))),
                entry nl (t :: A :: extra))).
  { intros dim. unfold parseInputImageTypeToTemplate. cbn [im_type].
    destruct (mxGetClassID A);
      try (exfalso; apply Hcls; cbn; tauto); reflexivity. }
  cbn in Hrank. destruct Hrank as [<- | [<- | [<- | []]]]; apply Hty.
Qed.

Lemma eqb_unknown (name s : string) :
  ~ In name known_names -> In s known_names -> (name =? s)%string = false.
Proof.
  intros Hn Hs. apply String.eqb_neq. intros ->. contradiction.
Qed.

Lemma name_rejected (nl : Z) (name : string) (cls : mxClassID) (T : CType)
    (dims : list Z) (data : list double) (extra : list mxArray) :
  fits_int extra -> ~ In name known_names -> In (cls, T) catalog ->
  2 <= Z.of_nat (List.length dims) <= 4 ->
  invoke nl name (mxNumeric cls dims data) extra
  = (Failed (ErrMsg "Invalid filter type"),
     entry nl (mxChar name :: mxNumeric cls dims data :: extra)).
Proof.
  intros Hfit Hname Hcat Hrank.
  unfold invoke. rewrite mexFunction_entry by assumption.
  unfold parseInputImageDimensionToTemplate. rewrite entry_header.
  assert (Hout : forall T dim,
             parseOutputImageTypeToTemplate T dim (mkHeader cls dims)
               (entry nl (mxChar name :: mxNumeric cls dims data :: extra))
             = (Failed (ErrMsg "Invalid filter type"),
                entry nl (mxChar name :: mxNumeric cls dims data :: extra))).
  { intros T' dim. unfold parseOutputImageTypeToTemplate.
    unfold bind at 1 2.
    cbn [GetRegisteredInput bind get_world entry inputs find in_name
         String.eqb Ascii.eqb Bool.eqb ret ReadStringFromMatlab in_pm
         nth_error].
    rewrite !(eqb_unknown name) by (assumption || (cbn; tauto)).
    reflexivity. }
  unfold GetNumberOfDimensions. cbn [im_size mxGetDimensions].
  split_dims Hrank; cbn [List.length Z.of_nat Pos.of_succ_nat Pos.succ];
    unfold parseInputImageTypeToTemplate; cbn [im_type mxGetClassID];
    split_pairs Hcat; apply Hout.
Qed.

(** C5.  The cascade resolves the rank first, then the element type, then
    the filter name.  A call whose image has a number of dimensions other
    than 2, 3 or 4 fails with the rank message whatever its first argument
    is, so also under a filter name the cascade does not know, and in the
    world of the entry of the cascade: nothing further was resolved.  With
    a supported rank, a class outside the catalog fails with the type
    message whatever the first argument is; with a supported rank and a
    class of the catalog, an unknown name fails with the filter message.
    A call returns one result, so one error. *)
Theorem C5_rank_then_type_then_filter :
  (forall nl t A extra,
      fits_int extra -> ~ In (rank A) [2; 3; 4] ->
      mexFunction nl (t :: A :: extra)
      = (Failed (ErrMsg "Input image can only have 2 to 4 dimensions"),
         entry nl (t :: A :: extra)))
  /\ (forall nl name A extra,
         fits_int extra -> ~ In name known_names ->
         ~ In (rank A) [2; 3; 4] ->
         invoke nl name A extra
         = (Failed (ErrMsg "Input image can only have 2 to 4 dimensions"),
            entry nl (mxChar name :: A :: extra))
         /\ fst (invoke nl name A extra)
            <> Failed (ErrMsg "Invalid filter type"))
  /\ (forall nl t A extra,
         fits_int extra -> In (rank A) [2; 3; 4] ->
         ~ In (mxGetClassID A) (map fst catalog) ->
         mexFunction nl (t :: A :: extra)
         = (Failed (ErrMsg (type_message (mxGetClassID A))),
            entry nl (t :: A :: extra)))
  /\ (forall nl name cls T dims data extra,
         fits_int extra -> ~ In name known_names -> In (cls, T) catalog ->
         2 <= Z.of_nat (List.length dims) <= 4 ->
         invoke nl name (mxNumeric cls dims data) extra
         = (Failed (ErrMsg "Invalid filter type"),
            entry nl (mxChar name :: mxNumeric cls dims data :: extra))).
Proof.
  split; [|split; [|split]].
  - intros. now apply rank_rejected.
  - intros nl name A extra Hfit _ Hrank. unfold invoke.
    rewrite rank_rejected by assumption. split; [reflexivity|].
    cbn [fst]. discriminate.
  - intros. now apply type_rejected.
  - intros. now apply (name_rejected nl name cls T).
Qed.

Definition mxClassID_eq_dec (a b : mxClassID) : {a = b} + {a <> b}.
Proof. decide equality. Defined.

Lemma CheckNumberOfArguments_in_fails (min max : Z) (w : World) :
  Z.of_nat (List.length (prhs w)) < min
  \/ max < Z.of_nat (List.length (prhs w)) ->
  MatlabImportFilter.CheckNumberOfArguments min max w
  = (Failed (ArityError min (Z.of_nat (List.length (prhs w)))), w).
Proof.
  intros H.
  unfold MatlabImportFilter.CheckNumberOfArguments, bind, get_world.
  destruct (Z.ltb_spec (Z.of_nat (List.length (prhs w))) min);
    [reflexivity|].
  destruct (Z.ltb_spec max (Z.of_nat (List.length (prhs w))));
    [reflexivity | lia].
Qed.

(** The common check stops a call whose number of arguments is below 2 or
    above [INT_MAX]. *)
Lemma mexFunction_arity (nl : Z) (args : list mxArray) :
  Z.of_nat (List.length args) < 2 \/ INT_MAX < Z.of_nat (List.length args) ->
  mexFunction nl args
  = (Failed (ArityError 2 (Z.of_nat (List.length args))), connect nl args).
Proof.
  intros H. unfold mexFunction, mex_prelude. unfold bind at 1 2.
  rewrite CheckNumberOfArguments_in_fails by exact H. reflexivity.
Qed.

(** A call that succeeds has an image of supported rank and of a class of
    the catalog. *)
Lemma success_needs_catalog (nl : Z) (args : list mxArray) (w : World) :
  mexFunction nl args = (Ok tt, w) ->
  exists t A extra,
    args = t :: A :: extra /\ In (rank A) [2; 3; 4]
    /\ In (mxGetClassID A) (map fst catalog).
Proof.
  intros Hok.
  destruct args as [|t [|A extra]].
  - rewrite mexFunction_arity in Hok by (cbn; lia). discriminate.
  - rewrite mexFunction_arity in Hok by (cbn; lia). discriminate.
  - exists t, A, extra. split; [reflexivity|].
    destruct (Z_le_gt_dec (Z.of_nat (List.length extra) + 2) INT_MAX)
      as [Hfit | Hbig].
    + destruct (in_dec Z.eq_dec (rank A) [2; 3; 4]) as [Hr | Hr].
      * split; [assumption|].
        destruct (in_dec mxClassID_eq_dec (mxGetClassID A) (map fst catalog))
          as [Hc | Hc]; [assumption|].
        rewrite type_rejected in Hok by assumption. discriminate.
      * rewrite rank_rejected in Hok by assumption. discriminate.
    + rewrite mexFunction_arity in Hok
        by (right; rewrite length_args; lia).
      discriminate.
Qed.

(** C6.  Dispatch can succeed exactly on the nine classes of the catalog.
    On an image of any other class and of rank 2, 3 or 4 the call fails
    with the type message, whatever the first argument is and in the world
    of the entry of the cascade, so before a filter is selected; for the
    unsigned 32-bit and 64-bit integers the message is the one for an
    invalid type.  A class admits a successful call if and only if it is
    one of the nine. *)
Theorem C6_catalog_of_element_types :
  (forall nl t A extra,
      fits_int extra -> In (rank A) [2; 3; 4] ->
      ~ In (mxGetClassID A) (map fst catalog) ->
      exists msg,
        mexFunction nl (t :: A :: extra)
        = (Failed (ErrMsg msg), entry nl (t :: A :: extra))
        /\ (msg = "Input matrix has invalid type."
            \/ (mxGetClassID A = mxUNKNOWN_CLASS
                /\ msg = "Input matrix has unknown type.")))
  /\ (forall nl t A extra,
         fits_int extra -> In (rank A) [2; 3; 4] ->
         In (mxGetClassID A) [mxUINT32_CLASS; mxUINT64_CLASS] ->
         mexFunction nl (t :: A :: extra)
         = (Failed (ErrMsg "Input matrix has invalid type."),
            entry nl (t :: A :: extra)))
  /\ (forall cls,
         (exists nl args A w,
             nth_error args 1 = Some A /\ mxGetClassID A = cls
             /\ mexFunction nl args = (Ok tt, w))
         <-> In cls [ mxLOGICAL_CLASS; mxSINGLE_CLASS; mxDOUBLE_CLASS;
                      mxINT8_CLASS; mxUINT8_CLASS; mxINT16_CLASS;
                      mxUINT16_CLASS; mxINT32_CLASS; mxINT64_CLASS ]).
Proof.
  split; [|split].
  - intros nl t A extra Hfit Hrank Hcls.
    exists (type_message (mxGetClassID A)). split.
    + now apply type_rejected.
    + destruct (mxGetClassID A); cbn; auto.
  - intros nl t A extra Hfit Hrank Hcls.
    rewrite type_rejected; try assumption.
    + cbn in Hcls. destruct Hcls as [<- | [<- | []]]; reflexivity.
    + cbn in Hcls |- *. destruct Hcls as [<- | [<- | []]];
        intuition discriminate.
  - intros cls. split.
    + intros (nl & args & A & w & Hnth & Hcls & Hok).
      destruct (success_needs_catalog nl args w Hok)
        as (t & A' & extra & -> & _ & Hin).
      cbn in Hnth. injection Hnth as ->. rewrite Hcls in Hin.
      cbn in Hin |- *. tauto.
    + intros Hin.
      exists 1, [mxChar "median"; blank cls [1; 1]], (blank cls [1; 1]).
      split_In Hin;
        (eexists; split; [reflexivity|]; split; [reflexivity|];
         vm_compute; reflexivity).
Qed.

(** ** Combinations without a filter, through the cascade *)

(** C1.  A combination of filter, rank and element type that a
    specialisation of [FilterWrapper] rejects makes the call fail with that
    specialisation's message, in the world of the entry of the cascade:
    no filter object is constructed, no output is registered or produced.
    This holds for the Canny filter on the seven non-floating types of the
    catalog at ranks 2, 3 and 4, and for the three 3D-only filters at ranks
    2 and 4 on every type of the catalog; on an image of a class outside
    the catalog the call fails even earlier, with the type message of the
    cascade, again in the world of its entry.  A filter enumerator without
    a specialisation reaches the primary template, which fails at once.
    The combinations the table does not reject do construct their
    filter. *)
Theorem C1_unsupported_combination_fails_before_any_filter :
  (forall nl f name cls T dims data extra dim msg,
      fits_int extra -> In name (names f) -> In (cls, T) catalog ->
      In dim [2; 3; 4]%N -> Z.of_nat (List.length dims) = Z.of_N dim ->
      rejection f dim T = Some msg ->
      invoke nl name (mxNumeric cls dims data) extra
      = (Failed (ErrMsg msg),
         entry nl (mxChar name :: mxNumeric cls dims data :: extra)))
  /\ (forall nl name cls T dims data extra,
         fits_int extra ->
         In name (names nCannyEdgeDetectionImageFilter) ->
         In (cls, T) [ (mxLOGICAL_CLASS, mxLogical); (mxINT8_CLASS, int8_T);
                       (mxUINT8_CLASS, uint8_T); (mxINT16_CLASS, int16_T);
                       (mxUINT16_CLASS, uint16_T); (mxINT32_CLASS, int32_T);
                       (mxINT64_CLASS, int64_T) ] ->
         2 <= Z.of_nat (List.length dims) <= 4 ->
         invoke nl name (mxNumeric cls dims data) extra
         = (Failed (ErrMsg "CannyEdgeDetectionImageFilter only accepts input images with floating type (double or single)"),
            entry nl (mxChar name :: mxNumeric cls dims data :: extra)))
  /\ (forall nl f name cls T dims data extra,
         fits_int extra ->
         In f [ nBinaryThinningImageFilter3D;
                nAnisotropicDiffusionVesselEnhancementImageFilter;
                nMultiScaleHessianSmoothed3DToVesselnessMeasureImageFilter ] ->
         In name (names f) -> In (cls, T) catalog ->
         Z.of_nat (List.length dims) = 2 \/ Z.of_nat (List.length dims) = 4 ->
         exists msg,
           rejection f 2 T = Some msg /\ rejection f 4 T = Some msg
           /\ invoke nl name (mxNumeric cls dims data) extra
              = (Failed (ErrMsg msg),
                 entry nl (mxChar name :: mxNumeric cls dims data :: extra)))
  /\ (forall nl t A extra,
         fits_int extra -> rank A = 2 \/ rank A = 4 ->
         ~ In (mxGetClassID A) (map fst catalog) ->
         mexFunction nl (t :: A :: extra)
         = (Failed (ErrMsg (type_message (mxGetClassID A))),
            entry nl (t :: A :: extra)))
  /\ (forall T dim im n w,
         (forall f, enum_value f <> n) ->
         FilterWrapper.FilterWrapper T dim im n w
         = (Failed (ErrMsg "Unsupported filter type"), w))
  /\ (forall f cls T dim,
         In (cls, T) catalog -> In dim [2; 3; 4]%N ->
         rejection f dim T = None ->
         exists w,
           invoke 0 (hd "" (names f)) (blank cls (repeat 1 (N.to_nat dim)))
                  (required_args f) = (Ok tt, w)
           /\ constructs f T dim w).
Proof.
  assert (General : forall nl f name cls T dims data extra dim msg,
      fits_int extra -> In name (names f) -> In (cls, T) catalog ->
      In dim [2; 3; 4]%N -> Z.of_nat (List.length dims) = Z.of_N dim ->
      rejection f dim T = Some msg ->
      invoke nl name (mxNumeric cls dims data) extra
      = (Failed (ErrMsg msg),
         entry nl (mxChar name :: mxNumeric cls dims data :: extra))).
  { intros nl f name cls T dims data extra dim msg Hfit Hname Hcat Hdim Hlen Hr.
    rewrite (dispatch_resolves nl f name cls T dims data extra dim) by assumption.
    now apply rejected_fails. }
  split; [exact General|]. split; [|split; [|split; [|split]]].
  - intros nl name cls T dims data extra Hfit Hname Hcat Hrank.
    destruct (rank_cases dims Hrank) as (dim & Hdim & Hlen).
    apply (General nl nCannyEdgeDetectionImageFilter name cls T dims data extra dim);
      try assumption.
    + cbn in Hcat |- *.
      repeat (destruct Hcat as [Hc | Hcat]; [inversion Hc; subst; tauto|]).
      contradiction.
    + cbn in Hcat.
      repeat (destruct Hcat as [Hc | Hcat]; [inversion Hc; subst; reflexivity|]).
      contradiction.
  - intros nl f name cls T dims data extra Hfit Hf Hname Hcat Hrank.
    assert (Hdim : exists dim, In dim [2; 4]%N
                               /\ Z.of_nat (List.length dims) = Z.of_N dim).
    { destruct Hrank as [H | H]; rewrite H;
        [exists 2%N | exists 4%N]; cbn; auto. }
    destruct Hdim as (dim & Hdim & Hlen).
    cbn in Hf. destruct Hf as [<- | [<- | [<- | []]]];
      (eexists; split; [reflexivity | split; [reflexivity|]];
       match goal with
       | Hn : In name (names ?g) |- _ =>
           apply (General nl g name cls T dims data extra dim)
       end; try assumption;
       [ cbn in Hdim |- *; tauto
       | cbn in Hdim; destruct Hdim as [<- | [<- | []]]; reflexivity ]).
  - intros nl t A extra Hfit Hrank Hcls.
    apply type_rejected; try assumption.
    cbn. destruct Hrank as [-> | ->]; tauto.
  - intros T dim im n w Hn.
    destruct (N.le_gt_cases 13 n) as [Hge | Hlt].
    + now apply default_stub.
    + exfalso.
      assert (Hc : In n [0; 1; 2; 3; 4; 5; 6; 7; 8; 9; 10; 11; 12]%N)
        by (cbn; lia).
      cbn in Hc.
      repeat (destruct Hc as [<- | Hc];
              [ first [ apply (Hn nCannyEdgeDetectionImageFilter); reflexivity
                      | apply (Hn nVotingBinaryIterativeHoleFillingImageFilter); reflexivity
                      | apply (Hn nApproximateSignedDistanceMapImageFilter); reflexivity
                      | apply (Hn nMedianImageFilter); reflexivity
                      | apply (Hn nMultiScaleHessianSmoothed3DToVesselnessMeasureImageFilter); reflexivity
                      | apply (Hn nAnisotropicDiffusionVesselEnhancementImageFilter); reflexivity
                      | apply (Hn nBinaryThinningImageFilter3D); reflexivity
                      | apply (Hn nSignedDanielssonDistanceMapImageFilter); reflexivity
                      | apply (Hn nDanielssonDistanceMapImageFilter); reflexivity
                      | apply (Hn nSignedMaurerDistanceMapImageFilter); reflexivity
                      | apply (Hn nBinaryDilateImageFilter); reflexivity
                      | apply (Hn nBinaryErodeImageFilter); reflexivity
                      | apply (Hn nMRFImageFilter); reflexivity ] |]).
      contradiction.
  - exact accepted_constructs.
Qed.

(** ** Defaults of the edge-detection filter *)

(** The value a parameter of the filter has when the call returns. *)
Definition resolved (param : string) (w : World) : option Value :=
  Itk.last_set param (itk w) None.

Lemma CheckNumberOfArguments_out_fails (min max : Z) (w : World) :
  nlhs w < min \/ max < nlhs w ->
  MatlabExportFilter.CheckNumberOfArguments min max w
  = (Failed (ArityError min (nlhs w)), w).
Proof.
  intros H.
  unfold MatlabExportFilter.CheckNumberOfArguments, bind, get_world.
  destruct (Z.ltb_spec (nlhs w) min); [reflexivity|].
  destruct (Z.ltb_spec max (nlhs w)); [reflexivity | lia].
Qed.

(** Asked for more outputs than it has, the Canny wrapper stops at its
    check of the outputs. *)
Lemma canny_without_outputs (T : CType) (dim : N) (im : MatlabImageHeader)
    (nl : Z) (t A : mxArray) :
  ~ 0 <= nl <= 2 ->
  FilterWrapper.CannyEdgeDetectionImageFilter T dim im (entry nl [t; A])
  = (Failed (ArityError 0 nl), entry nl [t; A]).
Proof.
  intros Hnl. unfold FilterWrapper.CannyEdgeDetectionImageFilter.
  unfold bind at 1. rewrite CheckNumberOfArguments_in by (cbn; lia).
  unfold bind at 1.
  rewrite CheckNumberOfArguments_out_fails by (cbn [nlhs entry]; lia).
  reflexivity.
Qed.

(** The thresholds of a Canny call with the filter name and the image
    only: none is resolved, or the lower one is half the upper one. *)
Definition thresholds_none_or_half (r : Result unit) (w : World) : Prop :=
  (resolved "UpperThreshold" w = None /\ resolved "LowerThreshold" w = None
   /\ exists e, r = Failed e)
  \/ (exists m e,
         resolved "UpperThreshold" w = Some (VScalar (SFlt (S754_finite false m e)))
         /\ resolved "LowerThreshold" w
            = Some (VScalar (SFlt (S754_finite false m (e - 1))))
         /\ r = Ok tt).

Lemma thresholds_of_failure (e : Error) (nl : Z) (args : list mxArray) :
  thresholds_none_or_half (Failed e) (entry nl args).
Proof. left. split; [reflexivity|]. split; [reflexivity|]. now exists e. Qed.

Ltac eval_call :=
  match goal with
  | |- thresholds_none_or_half (fst ?x) (snd ?x) =>
      let v := eval vm_compute in x in
      replace x with v by (vm_compute; reflexivity)
  end;
  cbn [fst snd].

Lemma canny_thresholds_rejected (nl : Z) (name : string) (cls : mxClassID)
    (T : CType) (dims : list Z) (data : list double) (msg : string) :
  In name (names nCannyEdgeDetectionImageFilter) -> In (cls, T) catalog ->
  2 <= Z.of_nat (List.length dims) <= 4 ->
  (forall dim, rejection nCannyEdgeDetectionImageFilter dim T = Some msg) ->
  thresholds_none_or_half (fst (invoke nl name (mxNumeric cls dims data) []))
                          (snd (invoke nl name (mxNumeric cls dims data) [])).
Proof.
  intros Hname Hcat Hrank Hrej.
  destruct (rank_cases dims Hrank) as (dim & Hdim & Hlen).
  rewrite (dispatch_resolves nl nCannyEdgeDetectionImageFilter name cls T
             dims data [] dim)
    by (assumption || (unfold fits_int, INT_MAX; cbn; lia)).
  rewrite (rejected_fails _ _ _ _ msg) by apply Hrej.
  apply thresholds_of_failure.
Qed.

Lemma canny_thresholds_floating (nl : Z) (name : string) (cls : mxClassID)
    (T : CType) (dims : list Z) (data : list double) :
  In name (names nCannyEdgeDetectionImageFilter) ->
  In (cls, T) [(mxSINGLE_CLASS, c_float); (mxDOUBLE_CLASS, c_double)] ->
  2 <= Z.of_nat (List.length dims) <= 4 ->
  thresholds_none_or_half (fst (invoke nl name (mxNumeric cls dims data) []))
                          (snd (invoke nl name (mxNumeric cls dims data) [])).
Proof.
  intros Hname Hcat Hrank.
  destruct (Z_le_dec 0 nl) as [Hlo | Hlo];
    [destruct (Z_le_dec nl 2) as [Hhi | Hhi]|].
  - assert (Hnl : 0 <= nl <= 2) by lia.
    assert (Hmax : 2 <= 3) by lia.
    (split_dims Hrank; split_nlhs Hnl Hmax; try lia;
      split_In Hname; split_pairs Hcat;
      eval_call; right; do 2 eexists;
      (split; [vm_compute; reflexivity|]);
      (split; [vm_compute; reflexivity|]); reflexivity).
  - destruct (rank_cases dims Hrank) as (dim & Hdim & Hlen).
    rewrite (dispatch_resolves nl nCannyEdgeDetectionImageFilter name cls T
               dims data [] dim);
      try assumption;
      [ | unfold fits_int, INT_MAX; cbn; lia
        | split_pairs Hcat; cbn; tauto ].
    split_pairs Hcat;
      cbv beta iota delta [FilterWrapper.FilterWrapper enum_value];
      rewrite canny_without_outputs by lia;
      apply thresholds_of_failure.
  - destruct (rank_cases dims Hrank) as (dim & Hdim & Hlen).
    rewrite (dispatch_resolves nl nCannyEdgeDetectionImageFilter name cls T
               dims data [] dim);
      try assumption;
      [ | unfold fits_int, INT_MAX; cbn; lia
        | split_pairs Hcat; cbn; tauto ].
    split_pairs Hcat;
      cbv beta iota delta [FilterWrapper.FilterWrapper enum_value];
      rewrite canny_without_outputs by lia;
      apply thresholds_of_failure.
Qed.

Lemma canny_thresholds (nl : Z) (name : string) (A : mxArray) :
  In name (names nCannyEdgeDetectionImageFilter) ->
  thresholds_none_or_half (fst (invoke nl name A []))
                          (snd (invoke nl name A [])).
Proof.
  intros Hname.
  assert (Hfit : fits_int []) by (unfold fits_int, INT_MAX; cbn; lia).
  destruct (in_dec Z.eq_dec (rank A) [2; 3; 4]) as [Hr | Hr];
    [| unfold invoke; rewrite rank_rejected by assumption;
       apply thresholds_of_failure].
  destruct (in_dec mxClassID_eq_dec (mxGetClassID A) (map fst catalog))
    as [Hc | Hc];
    [| unfold invoke; rewrite type_rejected by assumption;
       apply thresholds_of_failure].
  destruct A as [s | cls dims data];
    [cbn in Hc; intuition discriminate|].
  assert (Hrank : 2 <= Z.of_nat (List.length dims) <= 4)
    by (unfold rank in Hr; cbn in Hr; lia).
  clear Hr. cbn [mxGetClassID map fst catalog] in Hc.
  split_In Hc;
    first
      [ apply (canny_thresholds_floating nl name _ c_float);
        [assumption | cbn; tauto | assumption]
      | apply (canny_thresholds_floating nl name _ c_double);
        [assumption | cbn; tauto | assumption]
      | eapply canny_thresholds_rejected;
        [ assumption | cbn; eauto 12 | assumption
        | intros dim; reflexivity ] ].
Qed.

(** C4.  In a call of the Canny filter with only the filter name and the
    image, whatever the image and the number of outputs asked for, either
    the call fails and no threshold is resolved, or the resolved lower
    threshold has the mantissa of the resolved upper threshold and an
    exponent one less: it is exactly half of it.  On an image of class
    single or double and rank 2 to 4 the call succeeds; the upper
    threshold is set first, to the largest value of the pixel type, and
    the lower threshold is set next, to the upper threshold read back from
    the filter and divided by 2.0; doubling it gives the upper threshold
    back. *)
Theorem C4_canny_lower_threshold_is_half_upper :
  (forall nl name A,
      In name (names nCannyEdgeDetectionImageFilter) ->
      thresholds_none_or_half (fst (invoke nl name A []))
                              (snd (invoke nl name A [])))
  /\ (forall nl name cls T dims data,
         In name (names nCannyEdgeDetectionImageFilter) ->
         In (cls, T) [(mxSINGLE_CLASS, c_float); (mxDOUBLE_CLASS, c_double)] ->
         2 <= Z.of_nat (List.length dims) <= 4 ->
         0 <= nl <= OutputIndexType_MAX nCannyEdgeDetectionImageFilter ->
         exists w pre post upp low m e,
           invoke nl name (mxNumeric cls dims data) [] = (Ok tt, w)
           /\ itk w = pre ++ ItkSet "UpperThreshold" (VScalar upp)
                          :: ItkSet "LowerThreshold" (VScalar low) :: post
           /\ resolved "UpperThreshold" w = Some (VScalar upp)
           /\ resolved "LowerThreshold" w = Some (VScalar low)
           /\ upp = numeric_limits_max T
           /\ low = cast T (div (to_double upp) two)
           /\ upp = SFlt (S754_finite false m e)
           /\ low = SFlt (S754_finite false m (e - 1))
           /\ mul (to_double low) two = to_double upp).
Proof.
  split; [exact canny_thresholds|].
  intros nl name cls T dims data Hname Hcat Hrank Hnl.
  assert (Hmax : OutputIndexType_MAX nCannyEdgeDetectionImageFilter <= 3)
    by (cbn; lia).
  split_dims Hrank;
    split_nlhs Hnl Hmax; cbn in Hnl; try lia;
    split_In Hname; split_pairs Hcat;
    match goal with
    | |- exists w pre post upp low m e, ?inv = _ /\ _ =>
        exists (snd inv), (firstn 3 (itk (snd inv))),
          (skipn 5 (itk (snd inv)))
    end;
    (do 4 eexists;
     split; [vm_compute; reflexivity|];
     split; [vm_compute; reflexivity|];
     split; [vm_compute; reflexivity|];
     split; [vm_compute; reflexivity|];
     split; [vm_compute; reflexivity|];
     split; [vm_compute; reflexivity|];
     split; [vm_compute; reflexivity|];
     split; [vm_compute; reflexivity|];
     vm_compute; reflexivity).
Qed.

(** ** The weights of the MRF filter *)

(** The rescaling as the specification words it: every weight [w] becomes
    [w * mean(MU) / (2 * sum(W))], in [double] arithmetic, with the sums
    taken from the first element on. *)
Module Spec.

Definition sum (xs : list double) : double := fold_left add xs zero.

Definition mean (xs : list double) : double :=
  div (sum xs) (of_Z (Z.of_nat (List.length xs))).

Definition rescale (W MU : list double) : list double :=
  map (fun w => div (mul w (mean MU)) (mul two (sum W))) W.

End Spec.

Section ScaleWeights.

Variables meanDistance totalWeight : double.

Let scaled (w : double) : double :=
  div (mul w meanDistance) (mul two totalWeight).

Lemma total_weight_loop_fold (ws : list double) (acc : double) :
  FilterWrapper.total_weight_loop ws acc = fold_left add ws acc.
Proof.
  revert acc. induction ws as [|w ws IH]; intros acc; cbn; [reflexivity|].
  apply IH.
Qed.

Lemma nth_middle_app (done rest : list double) (r : double) :
  nth (List.length done) (done ++ r :: rest) zero = r.
Proof. induction done as [|d done IH]; cbn; [reflexivity | exact IH]. Qed.

Lemma assign_middle_app (done rest : list double) (r v : double) :
  FilterWrapper.assign (List.length done) v (done ++ r :: rest)
  = done ++ v :: rest.
Proof.
  induction done as [|d done IH]; cbn; [reflexivity|]. now rewrite IH.
Qed.

(** The in-place loop, started at the index where [done] ends, leaves
    [done] alone and scales every entry after it. *)
Lemma scale_loop_invariant (rest done : list double) :
  FilterWrapper.scale_loop (List.length rest) (List.length done)
    meanDistance totalWeight (done ++ rest)
  = done ++ map scaled rest.
Proof.
  revert done. induction rest as [|r rest IH]; intros done.
  - reflexivity.
  - cbn [List.length FilterWrapper.scale_loop].
    rewrite nth_middle_app, assign_middle_app.
    change (div (mul r meanDistance) (mul two totalWeight)) with (scaled r).
    replace (S (List.length done)) with (List.length (done ++ [scaled r]))
      by (rewrite length_app; cbn; lia).
    replace (done ++ scaled r :: rest) with ((done ++ [scaled r]) ++ rest)
      by (rewrite <- app_assoc; reflexivity).
    rewrite IH. rewrite <- app_assoc. reflexivity.
Qed.

End ScaleWeights.

(** The two loops over the weights compute the rescaling by the total of
    the weights as they were before the second loop started. *)
Lemma scale_weights_map (meanDistance : double) (weights : list double) :
  FilterWrapper.scale_weights meanDistance weights
  = map (fun w => div (mul w meanDistance) (mul two (Spec.sum weights)))
        weights.
Proof.
  unfold FilterWrapper.scale_weights.
  rewrite total_weight_loop_fold.
  exact (scale_loop_invariant meanDistance (fold_left add weights zero)
           weights []).
Qed.

(** What the loop over the classes does to the ITK pipeline for one
    centroid: the membership function receives the centroid as an array
    of one [double]. *)
Definition membership_events (c : scalar) : list ItkEvent :=
  [ ItkNewAux "DistanceToCentroidMembershipFunction";
    ItkSet "membershipFunction.Centroid" (VVector [SFlt (to_double c)]);
    ItkCall "classifier.AddMembershipFunction" ].

Definition add_events (tr : list ItkEvent) (w : World) : World :=
  mkWorld (prhs w) (inputs w) (nlhs w) (outputs w) (plhs w) (itk w ++ tr).

Lemma add_membership_functions_run (cs : list scalar) (acc : double)
    (w : World) :
  FilterWrapper.add_membership_functions cs acc w
  = (Ok (fold_left (fun a c => add a (to_double c)) cs acc),
     add_events (flat_map membership_events cs) w).
Proof.
  revert acc w. induction cs as [|c cs IH]; intros acc w.
  - destruct w. unfold add_events. cbn. now rewrite app_nil_r.
  - cbn [FilterWrapper.add_membership_functions]. cbv zeta.
    unfold bind, Itk.NewAux, Itk.Set_, Itk.Call, itk_emit.
    rewrite IH. unfold add_events. cbn [prhs inputs nlhs outputs plhs itk].
    cbn [fold_left flat_map membership_events].
    repeat rewrite <- app_assoc. reflexivity.
Qed.

Lemma sum_of_centroids (cs : list scalar) (acc : double) :
  fold_left (fun a c => add a (to_double c)) cs acc
  = fold_left add (map to_double cs) acc.
Proof.
  revert acc. induction cs as [|c cs IH]; intros acc; cbn;
    [reflexivity | apply IH].
Qed.

Lemma no_wrap_classes (centroid : list scalar) :
  vector_size centroid < 2 ^ 32 ->
  to_unsigned_int (vector_size centroid) = vector_size centroid
  /\ firstn (Z.to_nat (to_unsigned_int (vector_size centroid))) centroid
     = centroid.
Proof.
  intros H. unfold to_unsigned_int, vector_size in *.
  rewrite Z.mod_small by lia. split; [reflexivity|].
  rewrite Nat2Z.id. apply firstn_all.
Qed.

(** Without wrap-around of the number of classes, the weights the wrapper
    computes are the rescaling of the specification. *)
Lemma scale_weights_spec (centroid : list scalar) (weights : list double) :
  vector_size centroid < 2 ^ 32 ->
  let n := to_unsigned_int (vector_size centroid) in
  FilterWrapper.scale_weights
    (div (fold_left (fun a c => add a (to_double c))
                    (firstn (Z.to_nat n) centroid) zero)
         (of_Z n))
    weights
  = Spec.rescale weights (map to_double centroid).
Proof.
  intros H n. subst n.
  destruct (no_wrap_classes centroid H) as [-> ->].
  rewrite scale_weights_map, sum_of_centroids.
  unfold Spec.rescale, Spec.mean, Spec.sum, vector_size.
  now rewrite length_map.
Qed.


(** The weights of the wrapper before WEIGHTS is read: a hypercube of side
    3 of ones, with 0.0 written at index [(neighLength - 1) / 2].
    [std::pow(3.0, VImageDimension)] is taken as the power of integers,
    which it is for the ranks the cascade instantiates. *)
Definition default_weights (VImageDimension : N) : list double :=
  let neighLength := N.to_nat (3 ^ VImageDimension)%N in
  FilterWrapper.assign ((neighLength - 1) / 2)%nat zero
                       (repeat one neighLength).

(** What the wrapper holds after its reads, as a function of the
    arguments of the call: the weights and the half-size of the
    neighbourhood come from WEIGHTS, or are the defaults without it; a
    scalar parameter is the first element of its argument, converted, or
    its default without it (a call whose argument holds no element
    fails at the read). *)
Definition weights_read (dim : N) (WEIGHTS : option mxArray) : list double :=
  match WEIGHTS with
  | Some a => mxGetData a
  | None => default_weights dim
  end.

Definition half_size_read (dim : N) (WEIGHTS : option mxArray)
  : list scalar :=
  match WEIGHTS with
  | Some a => map (fun s => SInt ((s - 1) / 2)) (mxGetDimensions a)
  | None => Fill dim (SInt 1)
  end.

Definition scalar_read (T : CType) (arg : option mxArray) (def : scalar)
  : scalar :=
  match arg with
  | Some a =>
      match mxGetData a with
      | x :: _ => cast T x
      | [] => def
      end
  | None => def
  end.

(** The trace of the MRF wrapper up to the loop over the classes. *)
Definition mrf_head (T : CType) (dim : N) (numberOfClasses : Z)
    (smoothingFactor maximumNumberOfIterations errorTolerance : scalar)
  : list ItkEvent :=
  [ ItkNew nMRFImageFilter T LabelPixelType dim;
    ItkNewAux "ComposeImageFilter";
    ItkCall "scalarToArrayFilter.SetInput";
    ItkSet "NumberOfClasses" (VScalar (SInt numberOfClasses));
    ItkSet "SmoothingFactor" (VScalar smoothingFactor);
    ItkSet "MaximumNumberOfIterations" (VScalar maximumNumberOfIterations);
    ItkSet "ErrorTolerance" (VScalar errorTolerance);
    ItkNewAux "ImageClassifierBase";
    ItkNewAux "MinimumDecisionRule";
    ItkCall "classifier.SetDecisionRule" ].

(** The trace of a whole run of the MRF wrapper on the centroids, the
    weights, the half-size and the scalars it has read. *)
Definition mrf_trace (T : CType) (dim : N) (centroid : list scalar)
    (weights : list double) (neighHalfSize : list scalar)
    (smoothingFactor maximumNumberOfIterations errorTolerance : scalar)
  : list ItkEvent :=
  let numberOfClasses := to_unsigned_int (vector_size centroid) in
  let classes := firstn (Z.to_nat numberOfClasses) centroid in
  let meanDistance :=
    div (fold_left (fun a c => add a (to_double c)) classes zero)
        (of_Z numberOfClasses) in
  mrf_head T dim numberOfClasses smoothingFactor maximumNumberOfIterations
           errorTolerance
  ++ flat_map membership_events classes
  ++ [ ItkSet "NeighborhoodRadius" (VVector neighHalfSize);
       ItkSet "MRFNeighborhoodWeight"
         (VVector (map SFlt (FilterWrapper.scale_weights meanDistance
                                                         weights)));
       ItkCall "SetClassifier"; ItkSetInput; ItkUpdate ].

(** One case distinction of the evaluation of the wrapper on arguments
    that are not known: the test of a coercion. *)
Ltac mrf_case :=
  match goal with
  | |- context [is_row_vector ?a] => destruct (is_row_vector a) eqn:?
  | |- context [is_numeric ?a] => destruct (is_numeric a) eqn:?
  | |- context [N.eqb ?x ?y] => destruct (N.eqb x y) eqn:?
  | |- context [match mxGetData ?a with _ => _ end] =>
      destruct (mxGetData a) eqn:?
  end.

(** Evaluation of the MRF wrapper on arguments whose elements are not
    known: the arithmetic, the loop over the classes and the tests of the
    coercions stay folded. *)
Ltac mrf_unfold :=
  cbv beta iota delta [FilterWrapper.FilterWrapper enum_value
    FilterWrapper.MRFImageFilter FilterWrapper.MRF_until_classifier
    FilterWrapper.MRF_read_arguments FilterWrapper.MRF_build_classifier
    bind].

Ltac mrf_eval_all :=
  lazy -[add mul div of_Z cast to_double decimal to_unsigned_int vector_size
         FilterWrapper.scale_weights FilterWrapper.add_membership_functions
         firstn Z.to_nat map Z.div Z.sub flat_map membership_events
         fold_left app one two zero double
         is_row_vector is_numeric mxGetData mxGetDimensions N.eqb
         mrf_trace weights_read half_size_read scalar_read default_weights
         Fill].

(** The outcome of a run of the MRF wrapper from the entry of the
    cascade, whatever the arguments after the image are: it fails, or the
    first of them is a row vector MU and the trace is that of the
    centroids, weights and scalars read from the arguments. *)
Lemma mrf_wrapper_outcome (nl : Z) (t A : mxArray) (extra : list mxArray)
    (T : CType) (dim : N) (im : MatlabImageHeader) :
  In dim [2; 3; 4]%N ->
  match FilterWrapper.MRFImageFilter T dim im (entry nl (t :: A :: extra))
  with
  | (Failed _, _) => True
  | (Ok _, w) =>
      exists MU,
        nth_error extra 0 = Some MU /\ is_row_vector MU = true
        /\ itk w
           = mrf_trace T dim (map (cast T) (mxGetData MU))
               (weights_read dim (nth_error extra 1))
               (half_size_read dim (nth_error extra 1))
               (scalar_read c_double (nth_error extra 2) (SFlt (decimal 1 7)))
               (scalar_read uint32_T (nth_error extra 3) (SInt 100))
               (scalar_read c_double (nth_error extra 4) (SFlt (decimal 1 7)))
  end.
Proof.
  intros Hdim.
  set (w0 := entry nl (t :: A :: extra)).
  assert (Hn : Z.of_nat (List.length (prhs w0))
               = Z.of_nat (List.length extra) + 2)
    by (unfold w0, entry, prhs; apply length_args).
  mrf_unfold.
  destruct (Z_lt_dec (Z.of_nat (List.length extra)) 1) as [Hfew | Hmu];
    [rewrite CheckNumberOfArguments_in_fails by (left; lia); exact I|].
  destruct (Z_lt_dec 5 (Z.of_nat (List.length extra))) as [Hmany | Hmax];
    [rewrite CheckNumberOfArguments_in_fails by (right; lia); exact I|].
  rewrite CheckNumberOfArguments_in by lia.
  destruct (Z_lt_dec (nlhs w0) 0) as [Hneg | Hpos];
    [rewrite CheckNumberOfArguments_out_fails by (left; lia); exact I|].
  destruct (Z_lt_dec 1 (nlhs w0)) as [Hout | Hout];
    [rewrite CheckNumberOfArguments_out_fails by (right; lia); exact I|].
  rewrite CheckNumberOfArguments_out by lia.
  clear Hn Hpos Hout. subst w0.
  destruct extra as [|a0 [|a1 [|a2 [|a3 [|a4 [|a5 extra]]]]]];
    cbn [List.length] in Hmu, Hmax; try lia; clear Hmu Hmax;
    split_In Hdim.
  all: mrf_eval_all.
  all: repeat (first [ exact I
                     | rewrite add_membership_functions_run
                     | mrf_case ]; mrf_eval_all).
  all: eexists; (split; [reflexivity|]); (split; [assumption|]);
    unfold mrf_trace, mrf_head, weights_read, half_size_read, scalar_read;
    cbv zeta;
    repeat match goal with H : mxGetData _ = _ |- _ => rewrite H end;
    repeat rewrite <- app_assoc; reflexivity.
Qed.
(** The wrapper run through the cascade. *)
Lemma mrf_call_outcome (nl : Z) (name : string) (cls : mxClassID) (T : CType)
    (dims : list Z) (data : list double) (extra : list mxArray) :
  In name (names nMRFImageFilter) -> In (cls, T) catalog ->
  2 <= Z.of_nat (List.length dims) <= 4 ->
  let dim := Z.to_N (Z.of_nat (List.length dims)) in
  match invoke nl name (mxNumeric cls dims data) extra with
  | (Failed _, _) => True
  | (Ok _, w) =>
      exists MU,
        nth_error extra 0 = Some MU /\ is_row_vector MU = true
        /\ itk w
           = mrf_trace T dim (map (cast T) (mxGetData MU))
               (weights_read dim (nth_error extra 1))
               (half_size_read dim (nth_error extra 1))
               (scalar_read c_double (nth_error extra 2) (SFlt (decimal 1 7)))
               (scalar_read uint32_T (nth_error extra 3) (SInt 100))
               (scalar_read c_double (nth_error extra 4) (SFlt (decimal 1 7)))
  end.
Proof.
  intros Hname Hcat Hrank dim0. subst dim0.
  destruct (rank_cases dims Hrank) as (dim & Hdim & Hlen).
  rewrite Hlen, N2Z.id.
  destruct (Z_le_gt_dec (Z.of_nat (List.length extra) + 2) INT_MAX)
    as [Hfit | Hbig].
  - rewrite (dispatch_resolves nl nMRFImageFilter name cls T dims data extra
               dim) by assumption.
    exact (mrf_wrapper_outcome nl (mxChar name) (mxNumeric cls dims data)
             extra T dim (mkHeader cls dims) Hdim).
  - unfold invoke.
    rewrite mexFunction_arity by (right; rewrite length_args; lia).
    exact I.
Qed.

(** Without wrap-around of the number of classes every centroid gets its
    membership function and the weights handed to the filter are the
    rescaling of the specification. *)
Lemma mrf_trace_no_wrap (T : CType) (dim : N) (centroid : list scalar)
    (weights : list double) (neighHalfSize : list scalar)
    (smoothingFactor maximumNumberOfIterations errorTolerance : scalar) :
  vector_size centroid < 2 ^ 32 ->
  mrf_trace T dim centroid weights neighHalfSize smoothingFactor
            maximumNumberOfIterations errorTolerance
  = mrf_head T dim (vector_size centroid) smoothingFactor
             maximumNumberOfIterations errorTolerance
    ++ flat_map membership_events centroid
    ++ [ ItkSet "NeighborhoodRadius" (VVector neighHalfSize);
         ItkSet "MRFNeighborhoodWeight"
           (VVector (map SFlt (Spec.rescale weights
                                 (map to_double centroid))));
         ItkCall "SetClassifier"; ItkSetInput; ItkUpdate ].
Proof.
  intros H. unfold mrf_trace. cbv zeta.
  pose proof (scale_weights_spec centroid weights H) as Hsc. cbv zeta in Hsc.
  rewrite Hsc.
  destruct (no_wrap_classes centroid H) as [-> ->]. reflexivity.
Qed.








(** ** Arity *)

(** The parameters after the image a filter cannot do without: MU of the
    MRF filter. *)
Definition required_parameters (f : SupportedFilter) : Z :=
  match f with
  | nMRFImageFilter => 1
  | _ => 0
  end.

(** [InputIndexType_MAX] of each wrapper. *)
Definition InputIndexType_MAX (f : SupportedFilter) : Z :=
  match f with
  | nCannyEdgeDetectionImageFilter => 6
  | nVotingBinaryIterativeHoleFillingImageFilter => 7
  | nApproximateSignedDistanceMapImageFilter => 2
  | nMedianImageFilter => 3
  | nMultiScaleHessianSmoothed3DToVesselnessMeasureImageFilter => 6
  | nAnisotropicDiffusionVesselEnhancementImageFilter => 11
  | nBinaryThinningImageFilter3D => 2
  | nSignedDanielssonDistanceMapImageFilter => 2
  | nDanielssonDistanceMapImageFilter => 2
  | nSignedMaurerDistanceMapImageFilter => 2
  | nBinaryDilateImageFilter => 4
  | nBinaryErodeImageFilter => 4
  | nMRFImageFilter => 7
  end.

Ltac unfold_wrapper :=
  cbv beta iota delta
    [FilterWrapper.FilterWrapper enum_value bind
     FilterWrapper.CannyEdgeDetectionImageFilter
     FilterWrapper.VotingBinaryIterativeHoleFillingImageFilter
     FilterWrapper.ApproximateSignedDistanceMapImageFilter
     FilterWrapper.MedianImageFilter
     FilterWrapper.MultiScaleHessianSmoothed3DToVesselnessMeasureImageFilter
     FilterWrapper.AnisotropicDiffusionVesselEnhancementImageFilter
     FilterWrapper.BinaryThinningImageFilter3D
     FilterWrapper.SignedDanielssonDistanceMapImageFilter
     FilterWrapper.DanielssonDistanceMapImageFilter
     FilterWrapper.SignedMaurerDistanceMapImageFilter
     FilterWrapper.BinaryDilateImageFilter
     FilterWrapper.BinaryErodeImageFilter
     FilterWrapper.MRFImageFilter FilterWrapper.MRF_until_classifier
     FilterWrapper.MRF_read_arguments].

(** Every wrapper that is not a rejecting specialisation starts with the
    check of the number of arguments, then checks the number of
    outputs. *)
Lemma wrapper_checks_first (f : SupportedFilter) (T : CType) (dim : N)
    (im : MatlabImageHeader) (w : World) :
  rejection f dim T = None -> In dim [2; 3; 4]%N -> In T (map snd catalog) ->
  let n := Z.of_nat (List.length (prhs w)) in
  (n < required_parameters f + 2 \/ InputIndexType_MAX f < n ->
   FilterWrapper.FilterWrapper T dim im (enum_value f) w
   = (Failed (ArityError (required_parameters f + 2) n), w))
  /\ (required_parameters f + 2 <= n <= InputIndexType_MAX f ->
      nlhs w < 0 \/ OutputIndexType_MAX f < nlhs w ->
      FilterWrapper.FilterWrapper T dim im (enum_value f) w
      = (Failed (ArityError 0 (nlhs w)), w)).
Proof.
  intros Hrej Hdim HT n. subst n.
  split_In Hdim; split_In HT; destruct f; try discriminate Hrej;
    (split; [intros Hin | intros Hin Hout]; unfold_wrapper;
     [ rewrite CheckNumberOfArguments_in_fails by exact Hin; reflexivity
     | rewrite CheckNumberOfArguments_in by exact Hin;
       rewrite CheckNumberOfArguments_out_fails by exact Hout;
       reflexivity ]).
Qed.

Lemma mrf_needs_MU (nl : Z) (name : string) (cls : mxClassID) (T : CType)
    (dims : list Z) (data : list double) :
  In name (names nMRFImageFilter) -> In (cls, T) catalog ->
  2 <= Z.of_nat (List.length dims) <= 4 ->
  invoke nl name (mxNumeric cls dims data) []
  = (Failed (ArityError 3 2),
     entry nl [mxChar name; mxNumeric cls dims data]).
Proof.
  intros Hname Hcat Hrank.
  split_dims Hrank; split_In Hname; split_pairs Hcat; reflexivity.
Qed.

(** A call with fewer arguments after the image than the filter requires
    stops at the check of the wrapper. *)
Lemma too_few_arguments (nl : Z) (f : SupportedFilter) (name : string)
    (cls : mxClassID) (T : CType) (dims : list Z) (data : list double)
    (extra : list mxArray) :
  In name (names f) -> In (cls, T) catalog ->
  2 <= Z.of_nat (List.length dims) <= 4 ->
  Z.of_nat (List.length extra) < required_parameters f ->
  invoke nl name (mxNumeric cls dims data) extra
  = (Failed (ArityError (required_parameters f + 2)
                        (Z.of_nat (List.length extra) + 2)),
     entry nl (mxChar name :: mxNumeric cls dims data :: extra)).
Proof.
  intros Hname Hcat Hrank Hfew.
  destruct f; cbn in Hfew; try lia.
  destruct extra as [|a extra]; [| cbn [List.length] in Hfew; lia].
  exact (mrf_needs_MU nl name cls T dims data Hname Hcat Hrank).
Qed.

(** The trace of a finished run holds [Update]. *)
Ltac has_update :=
  cbn [itk]; repeat (first [left; reflexivity | right]).

Lemma two_arguments_suffice (nl : Z) (f : SupportedFilter) (name : string)
    (cls : mxClassID) (T : CType) (dims : list Z) (data : list double) :
  f <> nMRFImageFilter -> In name (names f) -> In (cls, T) catalog ->
  2 <= Z.of_nat (List.length dims) <= 4 ->
  rejection f (Z.to_N (Z.of_nat (List.length dims))) T = None ->
  0 <= nl <= OutputIndexType_MAX f ->
  exists w,
    invoke nl name (mxNumeric cls dims data) [] = (Ok tt, w)
    /\ In ItkUpdate (itk w).
Proof.
  intros Hf Hname Hcat Hrank Hrej Hnl.
  assert (Hmax : OutputIndexType_MAX f <= 3) by (destruct f; cbn; lia).
  split_dims Hrank; split_nlhs Hnl Hmax;
    (destruct f; try (contradiction Hf; reflexivity));
    cbn in Hnl; try lia;
    split_In Hname; split_pairs Hcat; try discriminate Hrej;
    (eexists; split; [vm_compute; reflexivity | has_update]).
Qed.

(** The MRF wrapper on the filter name, the image and MU: with a row
    vector for MU it reaches [Update], with anything else the coercion of
    MU fails. *)
Lemma mrf_with_MU (nl : Z) (t A MU : mxArray) (T : CType) (dim : N)
    (im : MatlabImageHeader) :
  In dim [2; 3; 4]%N -> 0 <= nl <= 1 ->
  if is_row_vector MU
  then exists w,
         FilterWrapper.MRFImageFilter T dim im (entry nl [t; A; MU])
         = (Ok tt, w)
         /\ In ItkUpdate (itk w)
  else exists w,
         FilterWrapper.MRFImageFilter T dim im (entry nl [t; A; MU])
         = (Failed (CoercionError "MU" KRowVector), w).
Proof.
  intros Hdim Hnl. mrf_unfold.
  rewrite CheckNumberOfArguments_in by (cbn; lia).
  rewrite CheckNumberOfArguments_out by (cbn; lia).
  split_In Hdim; mrf_eval_all; mrf_case; mrf_eval_all;
    try (eexists; reflexivity);
    rewrite add_membership_functions_run; mrf_eval_all;
    (eexists; split; [reflexivity|]);
    apply in_or_app; right; left; reflexivity.
Qed.

Definition SupportedFilter_eq_dec (a b : SupportedFilter)
  : {a = b} + {a <> b}.
Proof. decide equality. Defined.

(** With exactly the arguments a filter requires, the number of arguments
    is accepted: the only arity error left is that of the outputs. *)
Lemma required_arguments_are_accepted (nl : Z) (f : SupportedFilter)
    (name : string) (cls : mxClassID) (T : CType) (dims : list Z)
    (data : list double) (extra : list mxArray) (m a : Z) :
  In name (names f) -> In (cls, T) catalog ->
  2 <= Z.of_nat (List.length dims) <= 4 ->
  rejection f (Z.to_N (Z.of_nat (List.length dims))) T = None ->
  Z.of_nat (List.length extra) = required_parameters f ->
  fst (invoke nl name (mxNumeric cls dims data) extra)
  = Failed (ArityError m a) ->
  m = 0 /\ a = nl /\ ~ 0 <= nl <= OutputIndexType_MAX f.
Proof.
  intros Hname Hcat Hrank Hrej Hlen Hfail.
  destruct (rank_cases dims Hrank) as (dim & Hdim & Hd).
  assert (Hfit : fits_int extra)
    by (unfold fits_int, INT_MAX; destruct f; cbn in Hlen; lia).
  assert (HT : In T (map snd catalog))
    by (apply in_map_iff; exists (cls, T); split; [reflexivity | assumption]).
  assert (Hn : Z.of_nat (List.length
                 (prhs (entry nl (mxChar name :: mxNumeric cls dims data
                                  :: extra))))
               = required_parameters f + 2)
    by (unfold entry, prhs; rewrite length_args; lia).
  assert (Hin : required_parameters f + 2 <= InputIndexType_MAX f)
    by (destruct f; cbn; lia).
  destruct (Z_le_dec 0 nl) as [Hlo | Hlo];
    [destruct (Z_le_dec nl (OutputIndexType_MAX f)) as [Hhi | Hhi]|].
  - exfalso.
    destruct (SupportedFilter_eq_dec f nMRFImageFilter) as [-> | Hf].
    + destruct extra as [|MU [|b extra]]; cbn in Hlen; try lia.
      rewrite (dispatch_resolves nl nMRFImageFilter name cls T dims data
                 [MU] dim) in Hfail by assumption.
      change (FilterWrapper.FilterWrapper T dim (mkHeader cls dims)
                (enum_value nMRFImageFilter))
        with (FilterWrapper.MRFImageFilter T dim (mkHeader cls dims))
        in Hfail.
      pose proof (mrf_with_MU nl (mxChar name) (mxNumeric cls dims data) MU
                    T dim (mkHeader cls dims) Hdim (conj Hlo Hhi)) as H.
      destruct (is_row_vector MU); destruct H as (w & H);
        try destruct H as (H & _); rewrite H in Hfail; discriminate Hfail.
    + assert (Hnil : extra = [])
        by (destruct f, extra; cbn in Hlen; try reflexivity; try lia;
            contradiction Hf; reflexivity).
      subst extra.
      destruct (two_arguments_suffice nl f name cls T dims data Hf Hname
                  Hcat Hrank Hrej (conj Hlo Hhi)) as (w & H & _).
      rewrite H in Hfail. discriminate Hfail.
  - rewrite Hd, N2Z.id in Hrej.
    rewrite (dispatch_resolves nl f name cls T dims data extra dim) in Hfail
      by assumption.
    destruct (wrapper_checks_first f T dim (mkHeader cls dims)
                (entry nl (mxChar name :: mxNumeric cls dims data :: extra))
                Hrej Hdim HT) as [_ Hout].
    rewrite Hout in Hfail;
      [| rewrite Hn; lia | right; unfold entry, nlhs; lia].
    cbn in Hfail. inversion Hfail. repeat split; lia.
  - rewrite Hd, N2Z.id in Hrej.
    rewrite (dispatch_resolves nl f name cls T dims data extra dim) in Hfail
      by assumption.
    destruct (wrapper_checks_first f T dim (mkHeader cls dims)
                (entry nl (mxChar name :: mxNumeric cls dims data :: extra))
                Hrej Hdim HT) as [_ Hout].
    rewrite Hout in Hfail;
      [| rewrite Hn; lia | left; unfold entry, nlhs; lia].
    cbn in Hfail. inversion Hfail. repeat split; lia.
Qed.

(** C7.  A call with fewer arguments than the required parameters of its
    filter plus two (the filter name and the image) fails with an arity
    error.  Fewer than 2 arguments fail with minimum 2 whatever the
    filter.  The MRF filter has one required parameter, MU, every other
    filter none; on an image of supported rank and of a class of the
    catalog, a call with fewer arguments after the image than the filter
    requires ('mrf' without MU) fails in the wrapper with the minimum of
    the filter, 3 for 'mrf'.  The minima are exact: with exactly the
    required arguments, on a combination no specialisation rejects, the
    number of arguments is accepted whatever the arguments hold, and the
    only arity error left is that of a number of outputs the filter does
    not have; with a number of outputs it has, every filter but 'mrf'
    reaches [Update] on the filter name and the image alone, and 'mrf'
    does so once a row vector of at least one centroid is supplied for
    MU. *)
Theorem C7_minimum_number_of_arguments :
  (forall nl args,
      Z.of_nat (List.length args) < 2 ->
      mexFunction nl args
      = (Failed (ArityError 2 (Z.of_nat (List.length args))),
         connect nl args))
  /\ (required_parameters nMRFImageFilter = 1
      /\ forall f, f <> nMRFImageFilter -> required_parameters f = 0)
  /\ (forall nl f name cls T dims data extra,
         In name (names f) -> In (cls, T) catalog ->
         2 <= Z.of_nat (List.length dims) <= 4 ->
         Z.of_nat (List.length extra) < required_parameters f ->
         invoke nl name (mxNumeric cls dims data) extra
         = (Failed (ArityError (required_parameters f + 2)
                               (Z.of_nat (List.length extra) + 2)),
            entry nl (mxChar name :: mxNumeric cls dims data :: extra)))
  /\ (forall nl f name cls T dims data extra m a,
         In name (names f) -> In (cls, T) catalog ->
         2 <= Z.of_nat (List.length dims) <= 4 ->
         rejection f (Z.to_N (Z.of_nat (List.length dims))) T = None ->
         Z.of_nat (List.length extra) = required_parameters f ->
         fst (invoke nl name (mxNumeric cls dims data) extra)
         = Failed (ArityError m a) ->
         m = 0 /\ a = nl /\ ~ 0 <= nl <= OutputIndexType_MAX f)
  /\ (forall nl f name cls T dims data,
         f <> nMRFImageFilter -> In name (names f) -> In (cls, T) catalog ->
         2 <= Z.of_nat (List.length dims) <= 4 ->
         rejection f (Z.to_N (Z.of_nat (List.length dims))) T = None ->
         0 <= nl <= OutputIndexType_MAX f ->
         exists w,
           invoke nl name (mxNumeric cls dims data) [] = (Ok tt, w)
           /\ In ItkUpdate (itk w))
  /\ (forall nl name cls T dims data MU,
         In name (names nMRFImageFilter) -> In (cls, T) catalog ->
         2 <= Z.of_nat (List.length dims) <= 4 ->
         is_row_vector MU = true -> mxGetData MU <> [] ->
         0 <= nl <= OutputIndexType_MAX nMRFImageFilter ->
         exists w,
           invoke nl name (mxNumeric cls dims data) [MU] = (Ok tt, w)
           /\ In ItkUpdate (itk w)).
Proof.
  split; [|split; [|split; [|split; [|split]]]].
  - intros nl args H. apply mexFunction_arity. now left.
  - split; [reflexivity|].
    intros f Hf. destruct f; try reflexivity. contradiction Hf; reflexivity.
  - intros nl f name cls T dims data extra Hname Hcat Hrank Hfew.
    exact (too_few_arguments nl f name cls T dims data extra
             Hname Hcat Hrank Hfew).
  - intros nl f name cls T dims data extra m a Hname Hcat Hrank Hrej Hlen
           Hfail.
    exact (required_arguments_are_accepted nl f name cls T dims data extra
             m a Hname Hcat Hrank Hrej Hlen Hfail).
  - intros nl f name cls T dims data Hf Hname Hcat Hrank Hrej Hnl.
    exact (two_arguments_suffice nl f name cls T dims data
             Hf Hname Hcat Hrank Hrej Hnl).
  - intros nl name cls T dims data MU Hname Hcat Hrank Hrow _ Hnl.
    destruct (rank_cases dims Hrank) as (dim & Hdim & Hlen).
    rewrite (dispatch_resolves nl nMRFImageFilter name cls T dims data [MU]
               dim);
      try assumption; [| unfold fits_int, INT_MAX; cbn; lia].
    pose proof (mrf_with_MU nl (mxChar name) (mxNumeric cls dims data) MU
                  T dim (mkHeader cls dims) Hdim Hnl) as H.
    rewrite Hrow in H. exact H.
Qed.

(** ** Instances of the theorems on concrete calls *)

Lemma C1_witness :
  fits_int []
  /\ In "canny" (names nCannyEdgeDetectionImageFilter)
  /\ In (mxUINT8_CLASS, uint8_T) catalog
  /\ In 3%N [2; 3; 4]%N
  /\ Z.of_nat (List.length [5; 5; 5]) = Z.of_N 3
  /\ rejection nCannyEdgeDetectionImageFilter 3 uint8_T
     = Some "CannyEdgeDetectionImageFilter only accepts input images with floating type (double or single)"
  /\ invoke 1 "canny" (mxNumeric mxUINT8_CLASS [5; 5; 5] []) []
     = (Failed (ErrMsg "CannyEdgeDetectionImageFilter only accepts input images with floating type (double or single)"),
        entry 1 [mxChar "canny"; mxNumeric mxUINT8_CLASS [5; 5; 5] []]).
Proof.
  assert (H1 : fits_int []) by (unfold fits_int, INT_MAX; simpl; lia).
  assert (H2 : In "canny" (names nCannyEdgeDetectionImageFilter))
    by (simpl; auto).
  assert (H3 : In (mxUINT8_CLASS, uint8_T) catalog) by (simpl; auto 10).
  assert (H4 : In 3%N [2; 3; 4]%N) by (simpl; auto).
  assert (H5 : Z.of_nat (List.length [5; 5; 5]) = Z.of_N 3) by reflexivity.
  repeat (split; [assumption || reflexivity|]).
  exact (proj1 C1_unsupported_combination_fails_before_any_filter
           1 nCannyEdgeDetectionImageFilter "canny" mxUINT8_CLASS uint8_T
           [5; 5; 5] [] [] 3%N _ H1 H2 H3 H4 H5 eq_refl).
Defined.

Lemma C2_witness :
  In nDanielssonDistanceMapImageFilter distance_filters
  /\ In "dandist" (names nDanielssonDistanceMapImageFilter)
  /\ In (mxINT16_CLASS, int16_T) integer_catalog
  /\ 0 <= 3 <= OutputIndexType_MAX nDanielssonDistanceMapImageFilter
  /\ exists w B,
      invoke 3 "dandist" (mxNumeric mxINT16_CLASS [10; 10; 10] []) []
      = (Ok tt, w)
      /\ output_at 0 w = Some B
      /\ is_floating (oa_type B) = true
      /\ oa_shape B = [10; 10; 10]
      /\ (In nDanielssonDistanceMapImageFilter danielsson_filters ->
          exists W, output_at 2 w = Some W
                    /\ oa_shape W = [3; 10; 10; 10]
                    /\ oa_source W = GetOutputs 2).
Proof.
  assert (H1 : In nDanielssonDistanceMapImageFilter distance_filters)
    by (simpl; auto).
  assert (H2 : In "dandist" (names nDanielssonDistanceMapImageFilter))
    by (simpl; auto).
  assert (H3 : In (mxINT16_CLASS, int16_T) integer_catalog)
    by (simpl; auto 10).
  assert (H4 : 0 <= 3 <= OutputIndexType_MAX nDanielssonDistanceMapImageFilter)
    by (simpl; lia).
  repeat (split; [assumption|]).
  exact (C2_distance_output_type_and_shape
           3 nDanielssonDistanceMapImageFilter "dandist" mxINT16_CLASS
           int16_T [] H1 H2 H3 H4).
Defined.


Lemma C4_witness :
  In "canny" (names nCannyEdgeDetectionImageFilter)
  /\ In (mxSINGLE_CLASS, c_float)
        [(mxSINGLE_CLASS, c_float); (mxDOUBLE_CLASS, c_double)]
  /\ 2 <= Z.of_nat (List.length [8; 8; 8]) <= 4
  /\ 0 <= 2 <= OutputIndexType_MAX nCannyEdgeDetectionImageFilter
  /\ exists w pre post upp low m e,
      invoke 2 "canny" (mxNumeric mxSINGLE_CLASS [8; 8; 8] []) [] = (Ok tt, w)
      /\ itk w = pre ++ ItkSet "UpperThreshold" (VScalar upp)
                     :: ItkSet "LowerThreshold" (VScalar low) :: post
      /\ resolved "UpperThreshold" w = Some (VScalar upp)
      /\ resolved "LowerThreshold" w = Some (VScalar low)
      /\ upp = numeric_limits_max c_float
      /\ low = cast c_float (div (to_double upp) two)
      /\ upp = SFlt (S754_finite false m e)
      /\ low = SFlt (S754_finite false m (e - 1))
      /\ mul (to_double low) two = to_double upp.
Proof.
  assert (H1 : In "canny" (names nCannyEdgeDetectionImageFilter))
    by (simpl; auto).
  assert (H2 : In (mxSINGLE_CLASS, c_float)
                  [(mxSINGLE_CLASS, c_float); (mxDOUBLE_CLASS, c_double)])
    by (simpl; auto).
  assert (H3 : 2 <= Z.of_nat (List.length [8; 8; 8]) <= 4) by (simpl; lia).
  assert (H4 : 0 <= 2 <= OutputIndexType_MAX nCannyEdgeDetectionImageFilter)
    by (simpl; lia).
  repeat (split; [assumption|]).
  exact (proj2 C4_canny_lower_threshold_is_half_upper
           2 "canny" mxSINGLE_CLASS c_float [8; 8; 8] [] H1 H2 H3 H4).
Defined.

Lemma C5_witness :
  fits_int []
  /\ ~ In (rank (blank mxDOUBLE_CLASS [2; 2; 2; 2; 2])) [2; 3; 4]
  /\ mexFunction 1 [mxChar "nosuchfilter"; blank mxDOUBLE_CLASS [2; 2; 2; 2; 2]]
     = (Failed (ErrMsg "Input image can only have 2 to 4 dimensions"),
        entry 1 [mxChar "nosuchfilter"; blank mxDOUBLE_CLASS [2; 2; 2; 2; 2]]).
Proof.
  assert (H1 : fits_int []) by (unfold fits_int, INT_MAX; simpl; lia).
  assert (H2 : ~ In (rank (blank mxDOUBLE_CLASS [2; 2; 2; 2; 2])) [2; 3; 4])
    by (vm_compute; intuition discriminate).
  repeat (split; [assumption|]).
  exact (proj1 C5_rank_then_type_then_filter
           1 (mxChar "nosuchfilter") (blank mxDOUBLE_CLASS [2; 2; 2; 2; 2])
           [] H1 H2).
Defined.

Lemma C6_witness :
  fits_int []
  /\ In (rank (blank mxUINT32_CLASS [4; 4; 4])) [2; 3; 4]
  /\ In (mxGetClassID (blank mxUINT32_CLASS [4; 4; 4]))
        [mxUINT32_CLASS; mxUINT64_CLASS]
  /\ mexFunction 1 [mxChar "median"; blank mxUINT32_CLASS [4; 4; 4]]
     = (Failed (ErrMsg "Input matrix has invalid type."),
        entry 1 [mxChar "median"; blank mxUINT32_CLASS [4; 4; 4]]).
Proof.
  assert (H1 : fits_int []) by (unfold fits_int, INT_MAX; simpl; lia).
  assert (H2 : In (rank (blank mxUINT32_CLASS [4; 4; 4])) [2; 3; 4])
    by (vm_compute; auto).
  assert (H3 : In (mxGetClassID (blank mxUINT32_CLASS [4; 4; 4]))
                  [mxUINT32_CLASS; mxUINT64_CLASS]) by (simpl; auto).
  repeat (split; [assumption|]).
  exact (proj1 (proj2 C6_catalog_of_element_types)
           1 (mxChar "median") (blank mxUINT32_CLASS [4; 4; 4]) [] H1 H2 H3).
Defined.

Lemma C7_witness :
  In "mrf" (names nMRFImageFilter)
  /\ In (mxDOUBLE_CLASS, c_double) catalog
  /\ 2 <= Z.of_nat (List.length [6; 6]) <= 4
  /\ Z.of_nat (List.length (@nil mxArray))
     < required_parameters nMRFImageFilter
  /\ invoke 1 "mrf" (mxNumeric mxDOUBLE_CLASS [6; 6] []) []
     = (Failed (ArityError (required_parameters nMRFImageFilter + 2)
                           (Z.of_nat (List.length (@nil mxArray)) + 2)),
        entry 1 [mxChar "mrf"; mxNumeric mxDOUBLE_CLASS [6; 6] []]).
Proof.
  assert (H1 : In "mrf" (names nMRFImageFilter)) by (simpl; auto).
  assert (H2 : In (mxDOUBLE_CLASS, c_double) catalog) by (simpl; auto).
  assert (H3 : 2 <= Z.of_nat (List.length [6; 6]) <= 4) by (simpl; lia).
  assert (H4 : Z.of_nat (List.length (@nil mxArray))
               < required_parameters nMRFImageFilter) by (simpl; lia).
  repeat (split; [assumption|]).
  exact (proj1 (proj2 (proj2 C7_minimum_number_of_arguments))
           1 nMRFImageFilter "mrf" mxDOUBLE_CLASS c_double [6; 6] [] []
           H1 H2 H3 H4).
Defined.

Lemma C9_witness :
  In nSignedMaurerDistanceMapImageFilter distance_filters
  /\ In "maudist" (names nSignedMaurerDistanceMapImageFilter)
  /\ In (mxUINT8_CLASS, uint8_T) catalog
  /\ 2 <= Z.of_nat (List.length [7; 7; 7]) <= 4
  /\ rejection nSignedMaurerDistanceMapImageFilter
       (Z.to_N (Z.of_nat (List.length [7; 7; 7]))) uint8_T = None
  /\ 0 <= 1 <= OutputIndexType_MAX nSignedMaurerDistanceMapImageFilter
  /\ exists w B,
      invoke 1 "maudist" (mxNumeric mxUINT8_CLASS [7; 7; 7] []) [] = (Ok tt, w)
      /\ output_at 0 w = Some B
      /\ oa_shape B = [7; 7; 7]
      /\ (nSignedMaurerDistanceMapImageFilter
          = nDanielssonDistanceMapImageFilter ->
          oa_type B = c_double
          /\ In (ItkNew nSignedMaurerDistanceMapImageFilter uint8_T c_double
                        (Z.to_N (Z.of_nat (List.length [7; 7; 7])))) (itk w))
      /\ (nSignedMaurerDistanceMapImageFilter
          <> nDanielssonDistanceMapImageFilter ->
          oa_type B = c_float
          /\ In (ItkNew nSignedMaurerDistanceMapImageFilter uint8_T c_float
                        (Z.to_N (Z.of_nat (List.length [7; 7; 7])))) (itk w)).
Proof.
  assert (H1 : In nSignedMaurerDistanceMapImageFilter distance_filters)
    by (simpl; auto).
  assert (H2 : In "maudist" (names nSignedMaurerDistanceMapImageFilter))
    by (simpl; auto).
  assert (H3 : In (mxUINT8_CLASS, uint8_T) catalog) by (simpl; auto 10).
  assert (H4 : 2 <= Z.of_nat (List.length [7; 7; 7]) <= 4) by (simpl; lia).
  assert (H5 : rejection nSignedMaurerDistanceMapImageFilter
                 (Z.to_N (Z.of_nat (List.length [7; 7; 7]))) uint8_T = None)
    by reflexivity.
  assert (H6 : 0 <= 1
               <= OutputIndexType_MAX nSignedMaurerDistanceMapImageFilter)
    by (simpl; lia).
  repeat (split; [assumption|]).
  exact (C9_distance_output_pixel_types
           1 nSignedMaurerDistanceMapImageFilter "maudist" mxUINT8_CLASS
           uint8_T [7; 7; 7] [] H1 H2 H3 H4 H5 H6).
Defined.

Lemma C10_witness :
  fits_int []
  /\ In "maudist" (names nSignedMaurerDistanceMapImageFilter)
  /\ 2 <= Z.of_nat (List.length [9; 9]) <= 4
  /\ invoke 1 "maudist" (mxNumeric mxLOGICAL_CLASS [9; 9] []) []
     = (Failed (ErrMsg "SignedMaurerDistanceMapImageFilter does not accept input image with type boolean"),
        entry 1 [mxChar "maudist"; mxNumeric mxLOGICAL_CLASS [9; 9] []]).
Proof.
  assert (H1 : fits_int []) by (unfold fits_int, INT_MAX; simpl; lia).
  assert (H2 : In "maudist" (names nSignedMaurerDistanceMapImageFilter))
    by (simpl; auto).
  assert (H3 : 2 <= Z.of_nat (List.length [9; 9]) <= 4) by (simpl; lia).
  repeat (split; [assumption|]).
  exact (proj1 C10_maurer_rejects_boolean 1 "maudist" [9; 9] [] [] H1 H2 H3).
Defined.

(** * Further properties *)

(** ** What a call leaves behind *)

(** The events that construct or run the wrapped filter. *)
Definition is_run_event (e : ItkEvent) : bool :=
  match e with
  | ItkNew _ _ _ _ | ItkUpdate => true
  | _ => false
  end.

(** The arrays produced so far and the construction and runs of the
    filter so far. *)
Definition summary (w : World) : list OutputArray * list ItkEvent :=
  (plhs w, filter is_run_event (itk w)).

(** Nothing was handed back to Matlab and the filter did not run. *)
Definition quiet (w : World) : Prop :=
  plhs w = [] /\ ~ In ItkUpdate (itk w).

Definition quiet_summary (s : list OutputArray * list ItkEvent) : Prop :=
  fst s = [] /\ ~ In ItkUpdate (snd s).

(** The events that follow the first run of the filter. *)
Fixpoint after_update (tr : list ItkEvent) : list ItkEvent :=
  match tr with
  | [] => []
  | ItkUpdate :: tr' => tr'
  | _ :: tr' => after_update tr'
  end.

(** Nothing was done to the pipeline after the filter ran. *)
Definition settled (w : World) : Prop := after_update (itk w) = [].

(** A computation started in a world that satisfies [P] returns in a world
    that satisfies [Q], or fails in a quiet world. *)
Definition hoare {A} (P : World -> Prop) (m : M A) (Q : A -> World -> Prop)
  : Prop :=
  forall w, P w ->
    match m w with
    | (Ok a, w') => Q a w'
    | (Failed _, w') => quiet w'
    end.

(** The world has the summary [s]. *)
Definition at_summary (s : list OutputArray * list ItkEvent) (w : World)
  : Prop := summary w = s /\ settled w.

(** A computation that leaves the summary as it is, whether it fails or
    not, and that leaves a pipeline that has not run settled. *)
Definition keeps {A} (m : M A) : Prop :=
  forall w, summary (snd (m w)) = summary w
            /\ (~ In ItkUpdate (itk w) -> settled (snd (m w))).

Lemma after_update_none (tr : list ItkEvent) :
  ~ In ItkUpdate tr -> after_update tr = [].
Proof.
  induction tr as [|e tr IH]; intros H; [reflexivity|].
  destruct e; cbn; try (apply IH; intros Hin; apply H; now right).
  exfalso. apply H. now left.
Qed.

Lemma after_update_emit (tr : list ItkEvent) (e : ItkEvent) :
  ~ In ItkUpdate tr -> after_update (tr ++ [e]) = [].
Proof.
  induction tr as [|x tr IH]; intros H.
  - destruct e; reflexivity.
  - destruct x; cbn; try (apply IH; intros Hin; apply H; now right).
    exfalso. apply H. now left.
Qed.

Lemma after_update_last (tr : list ItkEvent) :
  after_update tr = [] ->
  forall pre post, tr = pre ++ ItkUpdate :: post -> post = [].
Proof.
  intros H pre. revert tr H.
  induction pre as [|x pre IH]; intros tr H post ->.
  - exact H.
  - destruct x; cbn in H; try (now apply (IH _ H post)).
    now destruct pre.
Qed.

(** A computation that touches neither the outputs nor the pipeline. *)
Lemma keeps_same {A} (m : M A) :
  (forall w, plhs (snd (m w)) = plhs w /\ itk (snd (m w)) = itk w) ->
  keeps m.
Proof.
  intros H w. destruct (H w) as [Hp Hi]. split.
  - unfold summary. now rewrite Hp, Hi.
  - intros Hq. unfold settled. rewrite Hi. now apply after_update_none.
Qed.

Lemma quiet_of_summary (s : list OutputArray * list ItkEvent) (w : World) :
  summary w = s -> quiet_summary s -> quiet w.
Proof.
  intros <- [H1 H2]. split; [exact H1|].
  intros Hin. apply H2. cbn. apply filter_In. now split.
Qed.

Section HoareRules.

Context {A B : Type}.

Lemma hoare_bind (P : World -> Prop) (m : M A) (Q : A -> World -> Prop)
    (k : A -> M B) (R : B -> World -> Prop) :
  hoare P m Q -> (forall a, hoare (Q a) (k a) R) -> hoare P (bind m k) R.
Proof.
  intros Hm Hk w HP. unfold bind. specialize (Hm w HP).
  destruct (m w) as [[a | e] w']; [apply (Hk a w' Hm) | exact Hm].
Qed.

Lemma hoare_ret (P : World -> Prop) (a : A) :
  hoare P (ret a) (fun _ w => P w).
Proof. intros w HP. exact HP. Qed.

Lemma hoare_raise (s : list OutputArray * list ItkEvent) (e : Error)
    (Q : A -> World -> Prop) :
  quiet_summary s -> hoare (at_summary s) (raise e) Q.
Proof. intros Hq w [Hs _]. cbn. exact (quiet_of_summary s w Hs Hq). Qed.

Lemma hoare_keeps (s : list OutputArray * list ItkEvent) (m : M A) :
  keeps m -> quiet_summary s ->
  hoare (at_summary s) m (fun _ w => at_summary s w).
Proof.
  intros Hk Hq w [Hs _]. destruct (Hk w) as [Hk1 Hk2].
  assert (Hqw : ~ In ItkUpdate (itk w))
    by exact (proj2 (quiet_of_summary s w Hs Hq)).
  specialize (Hk2 Hqw).
  destruct (m w) as [[a | e] w']; cbn in Hk1, Hk2.
  - split; [congruence | exact Hk2].
  - apply (quiet_of_summary s); [congruence | exact Hq].
Qed.

Lemma hoare_pure (phi : Prop) (P : World -> Prop) (m : M A)
    (Q : A -> World -> Prop) :
  (phi -> hoare P m Q) -> hoare (fun w => phi /\ P w) m Q.
Proof. intros H w [Hphi HP]. exact (H Hphi w HP). Qed.

Lemma hoare_post (P : World -> Prop) (m : M A) (Q Q' : A -> World -> Prop) :
  hoare P m Q -> (forall a w, Q a w -> Q' a w) -> hoare P m Q'.
Proof.
  intros H HQ w HP. specialize (H w HP).
  destruct (m w) as [[a | e] w']; [now apply HQ | exact H].
Qed.

End HoareRules.

(** *** The steps of a wrapper *)

Lemma keeps_in_check (min max : Z) :
  keeps (MatlabImportFilter.CheckNumberOfArguments min max).
Proof.
  apply keeps_same. intros w. unfold MatlabImportFilter.CheckNumberOfArguments, bind, get_world.
  destruct (_ || _); (split; reflexivity).
Qed.

Lemma keeps_out_check (min max : Z) :
  keeps (MatlabExportFilter.CheckNumberOfArguments min max).
Proof.
  apply keeps_same. intros w. unfold MatlabExportFilter.CheckNumberOfArguments, bind, get_world.
  destruct (_ || _); (split; reflexivity).
Qed.

Lemma keeps_GetRegisteredInput (name : string) :
  keeps (GetRegisteredInput name).
Proof.
  apply keeps_same. intros w. unfold GetRegisteredInput, bind, get_world.
  destruct (find _ _); (split; reflexivity).
Qed.

Lemma keeps_RegisterInput (pos : nat) (name : string) :
  keeps (RegisterInput pos name).
Proof. apply keeps_same. intros w. (split; reflexivity). Qed.

Lemma keeps_ReadString (i : MatlabInput) (def : string) :
  keeps (ReadStringFromMatlab i def).
Proof.
  apply keeps_same. intros w. unfold ReadStringFromMatlab.
  destruct (in_pm i) as [[s | c d p] |]; (split; reflexivity).
Qed.

Lemma keeps_ReadScalar (T : CType) (i : MatlabInput) (def : scalar) :
  keeps (ReadScalarFromMatlab T i def).
Proof.
  apply keeps_same. intros w. unfold ReadScalarFromMatlab.
  destruct (in_pm i) as [a |]; [destruct (mxGetData a)|]; (split; reflexivity).
Qed.

Lemma keeps_ReadRowVector (T : CType) (len : option N) (i : MatlabInput)
    (def : list scalar) :
  keeps (ReadRowVectorFromMatlab T len i def).
Proof.
  apply keeps_same. intros w. unfold ReadRowVectorFromMatlab.
  destruct (in_pm i) as [a |]; [|(split; reflexivity)].
  destruct len as [n |];
    [| destruct (is_row_vector a); (split; reflexivity)].
  destruct (_ && _); [(split; reflexivity)|].
  destruct (mxGetData a) as [|x [|y l]]; (split; reflexivity).
Qed.

Lemma keeps_ReadArrayAsVector (i : MatlabInput) (def : list double) :
  keeps (ReadArrayAsVectorFromMatlab i def).
Proof.
  apply keeps_same. intros w. unfold ReadArrayAsVectorFromMatlab.
  destruct (in_pm i) as [a |]; [destruct (is_numeric a)|];
    (split; reflexivity).
Qed.

Lemma keeps_ReadHalfSize (dim : N) (i : MatlabInput) (def : list scalar) :
  keeps (ReadMatlabArrayHalfSize dim i def).
Proof.
  apply keeps_same. intros w. unfold ReadMatlabArrayHalfSize.
  destruct (in_pm i); [destruct (_ =? _)%N|]; (split; reflexivity).
Qed.

Lemma keeps_GetImagePointer (T : CType) (dim : N) (i : MatlabInput) :
  keeps (GetImagePointerFromMatlab T dim i).
Proof.
  apply keeps_same. intros w. unfold GetImagePointerFromMatlab. destruct (in_pm i); (split; reflexivity).
Qed.

Lemma summary_emit (e : ItkEvent) (w : World) :
  summary (snd (itk_emit e w))
  = (fst (summary w),
     snd (summary w) ++ (if is_run_event e then [e] else [])).
Proof.
  unfold summary, itk_emit. cbn [snd fst plhs itk]. rewrite filter_app.
  cbn [filter]. reflexivity.
Qed.

Lemma keeps_emit (e : ItkEvent) :
  is_run_event e = false -> keeps (itk_emit e).
Proof.
  intros He w. split.
  - rewrite summary_emit, He, app_nil_r. now destruct (summary w).
  - intros Hq. unfold settled, itk_emit. cbn [snd itk].
    now apply after_update_emit.
Qed.

Lemma keeps_NewAux (cls : string) : keeps (Itk.NewAux cls).
Proof. now apply keeps_emit. Qed.

Lemma keeps_Set (p : string) (v : Value) : keeps (Itk.Set_ p v).
Proof. now apply keeps_emit. Qed.

Lemma keeps_Call (m : string) : keeps (Itk.Call m).
Proof. now apply keeps_emit. Qed.

Lemma keeps_SetInput : keeps Itk.SetInput.
Proof. now apply keeps_emit. Qed.

Lemma keeps_Get (p : string) : keeps (Itk.Get p).
Proof.
  apply keeps_same. intros w. unfold Itk.Get, bind, get_world.
  destruct (Itk.last_set _ _ _) as [[v | vs] |]; (split; reflexivity).
Qed.

Lemma keeps_RegisterOutput (pos : nat) (name : string) :
  keeps (MatlabExportFilter.RegisterOutput pos name).
Proof. apply keeps_same. intros w. (split; reflexivity). Qed.

Lemma keeps_add_membership_functions (cs : list scalar) (acc : double) :
  keeps (FilterWrapper.add_membership_functions cs acc).
Proof.
  intros w. rewrite add_membership_functions_run. cbn [snd]. split.
  - unfold summary, add_events. cbn [plhs itk]. rewrite filter_app.
    replace (filter is_run_event (flat_map membership_events cs)) with
      (@nil ItkEvent); [now rewrite app_nil_r|].
    induction cs as [|c cs IH]; [reflexivity | exact IH].
  - intros Hq. unfold settled, add_events. cbn [itk].
    apply after_update_none. intros Hin. apply in_app_or in Hin.
    destruct Hin as [Hin | Hin]; [now apply Hq|].
    apply in_flat_map in Hin. destruct Hin as (c & _ & Hc).
    cbn in Hc. intuition discriminate.
Qed.

Lemma not_run_of_summary (s : list OutputArray * list ItkEvent) (w : World) :
  summary w = s -> ~ In ItkUpdate (snd s) -> ~ In ItkUpdate (itk w).
Proof.
  intros <- H Hin. apply H. cbn. apply filter_In. now split.
Qed.

Lemma hoare_emit (s : list OutputArray * list ItkEvent) (e : ItkEvent) :
  is_run_event e = true -> ~ In ItkUpdate (snd s) ->
  hoare (at_summary s) (itk_emit e)
        (fun _ w => at_summary (fst s, snd s ++ [e]) w).
Proof.
  intros He Hq w [Hs _]. split.
  - change (summary (snd (itk_emit e w)) = (fst s, snd s ++ [e])).
    now rewrite summary_emit, He, Hs.
  - unfold settled. cbn [itk]. apply after_update_emit.
    exact (not_run_of_summary s w Hs Hq).
Qed.

Lemma hoare_New (s : list OutputArray * list ItkEvent) (f : SupportedFilter)
    (TIn TOut : CType) (dim : N) :
  ~ In ItkUpdate (snd s) ->
  hoare (at_summary s) (Itk.New f TIn TOut dim)
        (fun _ w => at_summary (fst s, snd s ++ [ItkNew f TIn TOut dim]) w).
Proof. now apply hoare_emit. Qed.

Lemma hoare_Update (s : list OutputArray * list ItkEvent) :
  ~ In ItkUpdate (snd s) ->
  hoare (at_summary s) Itk.Update
        (fun _ w => at_summary (fst s, snd s ++ [ItkUpdate]) w).
Proof. now apply hoare_emit. Qed.

Lemma hoare_produce (s : list OutputArray * list ItkEvent) (o : MatlabOutput)
    (T : CType) (shape : list Z) (src : ItkSource) :
  hoare (at_summary s) (MatlabExportFilter.produce o T shape src)
        (fun _ w =>
           at_summary (fst s ++ [mkOutputArray (out_pos o) (out_name o) T
                                               shape src], snd s) w).
Proof.
  intros w [Hs Hst]. split; [cbn; now rewrite <- Hs | exact Hst].
Qed.

Lemma hoare_Graft (s : list OutputArray * list ItkEvent) (T : CType)
    (vd : option N) (o : MatlabOutput) (src : ItkSource) (size : list Z) :
  hoare (at_summary s)
        (MatlabExportFilter.GraftItkImageOntoMatlab T vd o src size)
        (fun _ w =>
           at_summary
             (fst s ++ [mkOutputArray (out_pos o) (out_name o) T
                          (match vd with
                           | None => size
                           | Some n => Z.of_N n :: size
                           end) src], snd s) w).
Proof.
  unfold MatlabExportFilter.GraftItkImageOntoMatlab.
  destruct vd; apply hoare_produce.
Qed.

Lemma hoare_Copy (s : list OutputArray * list ItkEvent) (T : CType)
    (o : MatlabOutput) (src : ItkSource) (size : list Z) :
  hoare (at_summary s)
        (MatlabExportFilter.CopyItkImageToMatlab T o src size)
        (fun _ w =>
           at_summary (fst s ++ [mkOutputArray (out_pos o) (out_name o) T
                                               size src], snd s) w).
Proof. apply hoare_produce. Qed.

Lemma hoare_RegisterOutput (s : list OutputArray * list ItkEvent)
    (pos : nat) (name : string) :
  hoare (at_summary s) (MatlabExportFilter.RegisterOutput pos name)
        (fun o w => o = mkOutput pos name /\ at_summary s w).
Proof. intros w Hs. cbn. split; [reflexivity | exact Hs]. Qed.

Create HintDb keeps_db.
#[local] Hint Resolve keeps_in_check keeps_out_check keeps_GetRegisteredInput
  keeps_RegisterInput keeps_ReadString keeps_ReadScalar keeps_ReadRowVector
  keeps_ReadArrayAsVector keeps_ReadHalfSize keeps_GetImagePointer
  keeps_NewAux keeps_Set keeps_Call keeps_SetInput keeps_Get
  keeps_add_membership_functions : keeps_db.

Ltac quiet_now :=
  split; [reflexivity | cbn; intuition discriminate].

Ltac not_run_now := cbn; intuition discriminate.

(** One step of a wrapper. *)
Ltac hoare_prim :=
  first
    [ apply hoare_RegisterOutput
    | apply hoare_New; not_run_now
    | apply hoare_Update; not_run_now
    | apply hoare_Graft
    | apply hoare_Copy
    | apply hoare_keeps; [solve [auto with keeps_db] | quiet_now] ].

Ltac hoare_run :=
  repeat
    first
      [ apply hoare_pure; intros ->
      | eapply hoare_bind; [hoare_prim | intros ?]
      | apply hoare_raise; quiet_now ];
  cbn [fst snd app out_pos out_name].

(** The pixel type of the first output of each wrapper, its [TPixelOut]. *)
Definition TPixelOut_of (f : SupportedFilter) (TPixelIn : CType) : CType :=
  match f with
  | nApproximateSignedDistanceMapImageFilter
  | nSignedDanielssonDistanceMapImageFilter
  | nSignedMaurerDistanceMapImageFilter => c_float
  | nMultiScaleHessianSmoothed3DToVesselnessMeasureImageFilter
  | nDanielssonDistanceMapImageFilter => c_double
  | nMRFImageFilter => LabelPixelType
  | _ => TPixelIn
  end.

(** The arrays each wrapper grafts or copies onto its outputs, for an
    image of the given pixel type, rank and size. *)
Definition expected_outputs (f : SupportedFilter) (TPixelIn : CType) (dim : N)
    (size : list Z) : list OutputArray :=
  let B := mkOutputArray 0 "B" (TPixelOut_of f TPixelIn) size (GetOutputs 0) in
  match f with
  | nCannyEdgeDetectionImageFilter =>
      [B; mkOutputArray 1 "C" TPixelIn size GetNonMaximumSuppressionImage]
  | nSignedDanielssonDistanceMapImageFilter
  | nDanielssonDistanceMapImageFilter =>
      [B; mkOutputArray 1 "V" TPixelIn size (GetOutputs 1);
       mkOutputArray 2 "W" OffsetValueType (Z.of_N dim :: size) (GetOutputs 2)]
  | _ => [B]
  end.

Definition expected_summary (f : SupportedFilter) (T : CType) (dim : N)
    (size : list Z) : list OutputArray * list ItkEvent :=
  (expected_outputs f T dim size,
   [ItkNew f T (TPixelOut_of f T) dim; ItkUpdate]).

Ltac hoare_last :=
  first
    [ eapply hoare_post; [hoare_prim | intros ? ? H; exact H]
    | apply hoare_raise; quiet_now ].

Ltac hoare_wrapper := cbv zeta; hoare_run; hoare_last.

Section WrapperSummaries.

Variables (T : CType) (dim : N) (im : MatlabImageHeader).

Let start : World -> Prop := at_summary ([], []).
Let finish (f : SupportedFilter) : unit -> World -> Prop :=
  fun _ => at_summary (expected_summary f T dim (im_size im)).

Lemma hoare_Canny :
  hoare start (FilterWrapper.CannyEdgeDetectionImageFilter T dim im)
        (finish nCannyEdgeDetectionImageFilter).
Proof. unfold FilterWrapper.CannyEdgeDetectionImageFilter. hoare_wrapper. Qed.

Lemma hoare_Voting :
  hoare start
        (FilterWrapper.VotingBinaryIterativeHoleFillingImageFilter T dim im)
        (finish nVotingBinaryIterativeHoleFillingImageFilter).
Proof.
  unfold FilterWrapper.VotingBinaryIterativeHoleFillingImageFilter.
  hoare_wrapper.
Qed.

Lemma hoare_Approximate :
  hoare start (FilterWrapper.ApproximateSignedDistanceMapImageFilter T dim im)
        (finish nApproximateSignedDistanceMapImageFilter).
Proof.
  unfold FilterWrapper.ApproximateSignedDistanceMapImageFilter.
  hoare_wrapper.
Qed.

Lemma hoare_Median :
  hoare start (FilterWrapper.MedianImageFilter T dim im)
        (finish nMedianImageFilter).
Proof. unfold FilterWrapper.MedianImageFilter. hoare_wrapper. Qed.

Lemma hoare_Hessian :
  hoare start
    (FilterWrapper.MultiScaleHessianSmoothed3DToVesselnessMeasureImageFilter
       T dim im)
    (finish nMultiScaleHessianSmoothed3DToVesselnessMeasureImageFilter).
Proof.
  unfold
    FilterWrapper.MultiScaleHessianSmoothed3DToVesselnessMeasureImageFilter.
  hoare_wrapper.
Qed.

Lemma hoare_Anisotropic :
  hoare start
    (FilterWrapper.AnisotropicDiffusionVesselEnhancementImageFilter T dim im)
    (finish nAnisotropicDiffusionVesselEnhancementImageFilter).
Proof.
  unfold FilterWrapper.AnisotropicDiffusionVesselEnhancementImageFilter.
  hoare_wrapper.
Qed.

Lemma hoare_Thinning :
  hoare start (FilterWrapper.BinaryThinningImageFilter3D T dim im)
        (finish nBinaryThinningImageFilter3D).
Proof. unfold FilterWrapper.BinaryThinningImageFilter3D. hoare_wrapper. Qed.

Lemma hoare_SignedDanielsson :
  hoare start (FilterWrapper.SignedDanielssonDistanceMapImageFilter T dim im)
        (finish nSignedDanielssonDistanceMapImageFilter).
Proof.
  unfold FilterWrapper.SignedDanielssonDistanceMapImageFilter.
  hoare_wrapper.
Qed.

Lemma hoare_Danielsson :
  hoare start (FilterWrapper.DanielssonDistanceMapImageFilter T dim im)
        (finish nDanielssonDistanceMapImageFilter).
Proof.
  unfold FilterWrapper.DanielssonDistanceMapImageFilter. hoare_wrapper.
Qed.

Lemma hoare_Maurer :
  hoare start (FilterWrapper.SignedMaurerDistanceMapImageFilter T dim im)
        (finish nSignedMaurerDistanceMapImageFilter).
Proof.
  unfold FilterWrapper.SignedMaurerDistanceMapImageFilter. hoare_wrapper.
Qed.

Lemma hoare_Dilate :
  hoare start (FilterWrapper.BinaryDilateImageFilter T dim im)
        (finish nBinaryDilateImageFilter).
Proof. unfold FilterWrapper.BinaryDilateImageFilter. hoare_wrapper. Qed.

Lemma hoare_Erode :
  hoare start (FilterWrapper.BinaryErodeImageFilter T dim im)
        (finish nBinaryErodeImageFilter).
Proof. unfold FilterWrapper.BinaryErodeImageFilter. hoare_wrapper. Qed.

Lemma hoare_MRF_read_arguments :
  hoare start (FilterWrapper.MRF_read_arguments T dim)
        (fun l w =>
           FilterWrapper.outB l = mkOutput 0 "B"
           /\ at_summary ([], [ItkNew nMRFImageFilter T LabelPixelType dim]) w).
Proof.
  unfold FilterWrapper.MRF_read_arguments. cbv zeta. hoare_run.
  intros w Hs. cbn. split; [reflexivity | exact Hs].
Qed.

Lemma hoare_MRF_build_classifier (l : FilterWrapper.MRFLocals) :
  hoare (at_summary ([], [ItkNew nMRFImageFilter T LabelPixelType dim]))
        (FilterWrapper.MRF_build_classifier l)
        (fun _ => at_summary
                    ([], [ItkNew nMRFImageFilter T LabelPixelType dim])).
Proof.
  unfold FilterWrapper.MRF_build_classifier. cbv zeta. hoare_run.
  intros w Hs. exact Hs.
Qed.

Lemma hoare_MRF :
  hoare start (FilterWrapper.MRFImageFilter T dim im)
        (finish nMRFImageFilter).
Proof.
  unfold FilterWrapper.MRFImageFilter, FilterWrapper.MRF_until_classifier.
  eapply hoare_bind.
  - eapply hoare_bind; [apply hoare_MRF_read_arguments|].
    intros l. apply hoare_pure. intros Hl.
    eapply hoare_bind; [apply hoare_MRF_build_classifier|].
    intros m w Hs. cbn.
    exact (conj Hl Hs : (fun lm w =>
             FilterWrapper.outB (fst lm) = mkOutput 0 "B"
             /\ at_summary
                  ([], [ItkNew nMRFImageFilter T LabelPixelType dim]) w)
             (l, m) w).
  - intros [l m]. cbn [fst snd]. apply hoare_pure. intros Hl.
    cbv zeta. rewrite Hl. hoare_run. hoare_last.
Qed.

End WrapperSummaries.

(** Whatever specialisation is selected, a wrapper started with nothing
    produced either fails in a quiet world or ends with the outputs of its
    filter, the filter constructed once and run once. *)
Lemma hoare_FilterWrapper (T : CType) (dim : N) (im : MatlabImageHeader)
    (f : SupportedFilter) :
  hoare (at_summary ([], []))
        (FilterWrapper.FilterWrapper T dim im (enum_value f))
        (fun _ => at_summary (expected_summary f T dim (im_size im))).
Proof.
  destruct f; cbv beta iota delta [FilterWrapper.FilterWrapper enum_value];
    repeat (match goal with
            | |- hoare _ (match ?x with _ => _ end) _ => destruct x
            end; cbv beta iota);
    lazymatch goal with
    | |- hoare _ (mexErrMsgTxt _) _ => apply hoare_raise; quiet_now
    | |- hoare _ FilterWrapper.Unsupported _ => apply hoare_raise; quiet_now
    | |- hoare _ FilterWrapper.CannyEdgeDetectionImageFilter_nonfloating _ =>
        apply hoare_raise; quiet_now
    | |- hoare _ FilterWrapper.BinaryThinningImageFilter3D_not3D _ =>
        apply hoare_raise; quiet_now
    | |- hoare _ FilterWrapper.SignedMaurerDistanceMapImageFilter_boolean _ =>
        apply hoare_raise; quiet_now
    | |- hoare _
           FilterWrapper.AnisotropicDiffusionVesselEnhancementImageFilter_not3D
           _ => apply hoare_raise; quiet_now
    | |- hoare _
           FilterWrapper.MultiScaleHessianSmoothed3DToVesselnessMeasureImageFilter_not3D
           _ => apply hoare_raise; quiet_now
    | |- hoare _ (FilterWrapper.CannyEdgeDetectionImageFilter _ _ _) _ =>
        apply hoare_Canny
    | |- hoare _
           (FilterWrapper.VotingBinaryIterativeHoleFillingImageFilter _ _ _)
           _ => apply hoare_Voting
    | |- hoare _ (FilterWrapper.ApproximateSignedDistanceMapImageFilter _ _ _)
           _ => apply hoare_Approximate
    | |- hoare _ (FilterWrapper.MedianImageFilter _ _ _) _ =>
        apply hoare_Median
    | |- hoare _
           (FilterWrapper.MultiScaleHessianSmoothed3DToVesselnessMeasureImageFilter
              _ _ _) _ => apply hoare_Hessian
    | |- hoare _
           (FilterWrapper.AnisotropicDiffusionVesselEnhancementImageFilter
              _ _ _) _ => apply hoare_Anisotropic
    | |- hoare _ (FilterWrapper.BinaryThinningImageFilter3D _ _ _) _ =>
        apply hoare_Thinning
    | |- hoare _ (FilterWrapper.SignedDanielssonDistanceMapImageFilter _ _ _)
           _ => apply hoare_SignedDanielsson
    | |- hoare _ (FilterWrapper.DanielssonDistanceMapImageFilter _ _ _) _ =>
        apply hoare_Danielsson
    | |- hoare _ (FilterWrapper.SignedMaurerDistanceMapImageFilter _ _ _) _ =>
        apply hoare_Maurer
    | |- hoare _ (FilterWrapper.BinaryDilateImageFilter _ _ _) _ =>
        apply hoare_Dilate
    | |- hoare _ (FilterWrapper.BinaryErodeImageFilter _ _ _) _ =>
        apply hoare_Erode
    | |- hoare _ (FilterWrapper.MRFImageFilter _ _ _) _ => apply hoare_MRF
    end.
Qed.

Lemma quiet_entry (nl : Z) (args : list mxArray) : quiet (entry nl args).
Proof. split; [reflexivity | intros []]. Qed.

Lemma quiet_connect (nl : Z) (args : list mxArray) : quiet (connect nl args).
Proof. split; [reflexivity | intros []]. Qed.

(** A first argument that is not a string stops the cascade where the
    filter name is read. *)
Lemma name_not_a_string (nl : Z) (c : mxClassID) (d : list Z)
    (p : list double) (cls : mxClassID) (T : CType) (dims : list Z)
    (data : list double) (extra : list mxArray) :
  fits_int extra -> In (cls, T) catalog ->
  2 <= Z.of_nat (List.length dims) <= 4 ->
  mexFunction nl (mxNumeric c d p :: mxNumeric cls dims data :: extra)
  = (Failed (CoercionError "TYPE" KString),
     entry nl (mxNumeric c d p :: mxNumeric cls dims data :: extra)).
Proof.
  intros Hfit Hcat Hrank.
  rewrite mexFunction_entry by assumption.
  unfold parseInputImageDimensionToTemplate. rewrite entry_header.
  unfold GetNumberOfDimensions. cbn [im_size mxGetDimensions].
  split_dims Hrank; cbn [List.length Z.of_nat Pos.of_succ_nat Pos.succ];
    unfold parseInputImageTypeToTemplate; cbn [im_type mxGetClassID];
    split_pairs Hcat; reflexivity.
Qed.

Lemma known_name_has_filter (name : string) :
  In name known_names -> exists f, In name (names f).
Proof.
  unfold known_names. intros H. apply in_flat_map in H.
  destruct H as (f & _ & Hf). now exists f.
Qed.

(** The outcome of a call: what a successful call was called with. *)
Definition resolved_call (args : list mxArray) (f : SupportedFilter)
    (T : CType) (dim : N) (size : list Z) : Prop :=
  exists name cls data extra,
    args = mxChar name :: mxNumeric cls size data :: extra
    /\ In name (names f) /\ In (cls, T) catalog
    /\ In dim [2; 3; 4]%N /\ Z.of_nat (List.length size) = Z.of_N dim
    /\ rejection f dim T = None.

(** Every call either fails in a quiet world, or was resolved to a filter,
    a pixel type and a rank and leaves the summary of that filter, with
    nothing done to the pipeline after the filter ran. *)
Lemma call_outcome (nl : Z) (args : list mxArray) :
  match mexFunction nl args with
  | (Failed _, w) => quiet w
  | (Ok _, w) =>
      exists f T dim size,
        resolved_call args f T dim size
        /\ summary w = expected_summary f T dim size
        /\ settled w
  end.
Proof.
  destruct args as [|t [|A extra]];
    try (rewrite mexFunction_arity by (cbn; lia); apply quiet_connect).
  destruct (Z_le_gt_dec (Z.of_nat (List.length extra) + 2) INT_MAX)
    as [Hfit | Hbig];
    [| rewrite mexFunction_arity by (right; rewrite length_args; lia);
       apply quiet_connect].
  destruct (in_dec Z.eq_dec (rank A) [2; 3; 4]) as [Hr | Hr];
    [| rewrite rank_rejected by assumption; apply quiet_entry].
  destruct (in_dec mxClassID_eq_dec (mxGetClassID A) (map fst catalog))
    as [Hc | Hc];
    [| rewrite type_rejected by assumption; apply quiet_entry].
  destruct A as [s | cls dims data]; [cbn in Hc; intuition discriminate|].
  assert (Hrank : 2 <= Z.of_nat (List.length dims) <= 4)
    by (unfold rank in Hr; cbn in Hr; lia).
  cbn [mxGetClassID] in Hc. apply in_map_iff in Hc.
  destruct Hc as ([cls' T] & Hfst & Hcat). cbn in Hfst. subst cls'.
  destruct t as [name | c d p];
    [| rewrite (name_not_a_string nl c d p cls T) by assumption;
       apply quiet_entry].
  destruct (in_dec string_dec name known_names) as [Hk | Hk];
    [| change (mexFunction nl (mxChar name :: mxNumeric cls dims data :: extra))
         with (invoke nl name (mxNumeric cls dims data) extra);
       rewrite (name_rejected nl name cls T) by assumption;
       apply quiet_entry].
  destruct (known_name_has_filter name Hk) as (f & Hf).
  destruct (rank_cases dims Hrank) as (dim & Hdim & Hlen).
  change (mexFunction nl (mxChar name :: mxNumeric cls dims data :: extra))
    with (invoke nl name (mxNumeric cls dims data) extra).
  rewrite (dispatch_resolves nl f name cls T dims data extra dim)
    by assumption.
  pose proof (hoare_FilterWrapper T dim (mkHeader cls dims) f
                (entry nl (mxChar name :: mxNumeric cls dims data :: extra))
                (conj eq_refl eq_refl)) as H.
  destruct (rejection f dim T) as [msg |] eqn:Hrej.
  - rewrite (rejected_fails f T dim _ msg) in * by assumption. exact H.
  - destruct (FilterWrapper.FilterWrapper _ _ _ _ _) as [[[] | e] w];
      [| exact H].
    exists f, T, dim, dims. split; [| exact H].
    exists name, cls, data, extra. repeat split; assumption.
Qed.

(** X1.  A call that fails, for whatever reason and at whatever step, has
    handed no array back to Matlab and has not run the filter: in every
    wrapper the checks and the reads of the arguments come before the
    first output is grafted or copied and before [Update]. *)
Theorem X1_failed_call_produces_nothing :
  forall nl args e w,
    mexFunction nl args = (Failed e, w) ->
    plhs w = [] /\ ~ In ItkUpdate (itk w).
Proof.
  intros nl args e w H. pose proof (call_outcome nl args) as Hout.
  rewrite H in Hout. exact Hout.
Qed.

(** X2.  A call that succeeds was given a known filter name and an image of
    a class of the catalog and of rank 2 to 4 that no specialisation
    rejects, and the arrays it hands back are those of the filter's table
    of outputs, whatever the other arguments are: one to three arrays, the
    first at position 0 with the shape of the image and the output pixel
    type of the filter. *)
Theorem X2_successful_call_outputs :
  forall nl args w,
    mexFunction nl args = (Ok tt, w) ->
    exists f T dim size,
      resolved_call args f T dim size
      /\ plhs w = expected_outputs f T dim size
      /\ (exists B, output_at 0 w = Some B /\ oa_shape B = size
                    /\ oa_type B = TPixelOut_of f T)
      /\ (1 <= List.length (plhs w) <= 3)%nat.
Proof.
  intros nl args w H. pose proof (call_outcome nl args) as Hout.
  rewrite H in Hout. destruct Hout as (f & T & dim & size & Hres & Hsum & _).
  exists f, T, dim, size. split; [exact Hres|].
  assert (Hp : plhs w = expected_outputs f T dim size)
    by (unfold summary, expected_summary in Hsum; congruence).
  split; [exact Hp|]. unfold output_at. rewrite Hp.
  split; [| destruct f; cbn; lia].
  exists (mkOutputArray 0 "B" (TPixelOut_of f T) size (GetOutputs 0)).
  destruct f; (split; [reflexivity | split; reflexivity]).
Qed.

(** X3.  A call that succeeds has constructed the wrapped filter exactly
    once, on the pixel type of the class of the image, with the output
    pixel type of the filter and with the rank of the image, and has run
    it exactly once, after its construction. *)
Theorem X3_successful_call_runs_one_filter_once :
  forall nl args w,
    mexFunction nl args = (Ok tt, w) ->
    exists f T dim size,
      resolved_call args f T dim size
      /\ filter is_run_event (itk w)
         = [ItkNew f T (TPixelOut_of f T) dim; ItkUpdate].
Proof.
  intros nl args w H. pose proof (call_outcome nl args) as Hout.
  rewrite H in Hout. destruct Hout as (f & T & dim & size & Hres & Hsum & _).
  exists f, T, dim, size. split; [exact Hres|].
  unfold summary, expected_summary in Hsum. congruence.
Qed.

(** A median call whose radius has three entries for an image of rank 2. *)
Definition bad_radius_call : list mxArray :=
  [ mxChar "median"; blank mxDOUBLE_CLASS [3; 3];
    mxNumeric mxDOUBLE_CLASS [1; 3] [of_Z 1; of_Z 2; of_Z 3] ].

Lemma X1_witness :
  mexFunction 1 bad_radius_call
  = (Failed (CoercionError "RADIUS" KRowVectorOfLengthRank),
     snd (mexFunction 1 bad_radius_call))
  /\ plhs (snd (mexFunction 1 bad_radius_call)) = []
  /\ ~ In ItkUpdate (itk (snd (mexFunction 1 bad_radius_call))).
Proof.
  assert (H : mexFunction 1 bad_radius_call
              = (Failed (CoercionError "RADIUS" KRowVectorOfLengthRank),
                 snd (mexFunction 1 bad_radius_call)))
    by (vm_compute; reflexivity).
  split; [exact H|].
  exact (X1_failed_call_produces_nothing 1 bad_radius_call _ _ H).
Defined.

Definition dandist_call : list mxArray :=
  [mxChar "dandist"; blank mxUINT8_CLASS [4; 5; 6]].

Lemma X2_witness :
  mexFunction 3 dandist_call = (Ok tt, snd (mexFunction 3 dandist_call))
  /\ exists f T dim size,
      resolved_call dandist_call f T dim size
      /\ plhs (snd (mexFunction 3 dandist_call))
         = expected_outputs f T dim size
      /\ (exists B, output_at 0 (snd (mexFunction 3 dandist_call)) = Some B
                    /\ oa_shape B = size /\ oa_type B = TPixelOut_of f T)
      /\ (1 <= List.length (plhs (snd (mexFunction 3 dandist_call))) <= 3)%nat.
Proof.
  assert (H : mexFunction 3 dandist_call
              = (Ok tt, snd (mexFunction 3 dandist_call)))
    by (vm_compute; reflexivity).
  split; [exact H|].
  exact (X2_successful_call_outputs 3 dandist_call _ H).
Defined.

Lemma X3_witness :
  mexFunction 3 dandist_call = (Ok tt, snd (mexFunction 3 dandist_call))
  /\ exists f T dim size,
      resolved_call dandist_call f T dim size
      /\ filter is_run_event (itk (snd (mexFunction 3 dandist_call)))
         = [ItkNew f T (TPixelOut_of f T) dim; ItkUpdate].
Proof.
  assert (H : mexFunction 3 dandist_call
              = (Ok tt, snd (mexFunction 3 dandist_call)))
    by (vm_compute; reflexivity).
  split; [exact H|].
  exact (X3_successful_call_runs_one_filter_once 3 dandist_call _ H).
Defined.

(** ** Names and arities *)

(** X4.  The 26 names of the cascade (a short name and the name of the ITK
    class for each of the 13 filters) are pairwise distinct, so a name
    selects one filter whatever the order of the comparisons; the default
    name ["Unknown"], taken when TYPE is missing, is none of them and ends
    in the failure for an invalid filter.  For a name of a filter, a class
    of the catalog and a rank from 2 to 4, the cascade runs the wrapper
    instantiated at the pixel type of the class, the rank and the
    enumerator of that filter, in the world where TYPE and A are
    registered and nothing else has happened. *)
Theorem X4_a_name_selects_one_wrapper :
  (forall f g name, In name (names f) -> In name (names g) -> f = g)
  /\ NoDup known_names
  /\ List.length known_names = 26%nat
  /\ (forall T dim im w,
         (forall i, find (fun i => String.eqb (in_name i) "TYPE") (inputs w)
                    = Some i -> in_pm i = None) ->
         parseOutputImageTypeToTemplate T dim im w
         = (Failed (ErrMsg "Invalid filter type"), w))
  /\ (forall nl f name cls T dims data extra dim,
         fits_int extra -> In name (names f) -> In (cls, T) catalog ->
         In dim [2; 3; 4]%N -> Z.of_nat (List.length dims) = Z.of_N dim ->
         invoke nl name (mxNumeric cls dims data) extra
         = FilterWrapper.FilterWrapper T dim (mkHeader cls dims) (enum_value f)
             (entry nl (mxChar name :: mxNumeric cls dims data :: extra))).
Proof.
  split; [|split; [|split; [|split]]].
  - intros f g name Hf Hg.
    destruct f; split_In Hf; destruct g; cbn in Hg;
      repeat (destruct Hg as [Hg | Hg]; try discriminate Hg);
      try contradiction; reflexivity.
  - assert (H : nodup string_dec known_names = known_names)
      by (vm_compute; reflexivity).
    rewrite <- H. apply NoDup_nodup.
  - reflexivity.
  - intros T dim im w Hmissing. unfold parseOutputImageTypeToTemplate.
    unfold bind at 1. unfold GetRegisteredInput, bind, get_world.
    destruct (find _ (inputs w)) as [i |] eqn:Hfind.
    + cbn [ret]. unfold ReadStringFromMatlab.
      rewrite (Hmissing i eq_refl). reflexivity.
    + reflexivity.
  - intros. now apply dispatch_resolves.
Qed.

Lemma X4_witness :
  fits_int []
  /\ In "MedianImageFilter" (names nMedianImageFilter)
  /\ In (mxUINT8_CLASS, uint8_T) catalog
  /\ In 2%N [2; 3; 4]%N
  /\ Z.of_nat (List.length [3; 3]) = Z.of_N 2
  /\ invoke 1 "MedianImageFilter" (mxNumeric mxUINT8_CLASS [3; 3] []) []
     = FilterWrapper.FilterWrapper uint8_T 2 (mkHeader mxUINT8_CLASS [3; 3])
         (enum_value nMedianImageFilter)
         (entry 1 [ mxChar "MedianImageFilter";
                    mxNumeric mxUINT8_CLASS [3; 3] [] ]).
Proof.
  assert (H1 : fits_int []) by (unfold fits_int, INT_MAX; simpl; lia).
  assert (H2 : In "MedianImageFilter" (names nMedianImageFilter))
    by (simpl; auto).
  assert (H3 : In (mxUINT8_CLASS, uint8_T) catalog) by (simpl; auto 10).
  assert (H4 : In 2%N [2; 3; 4]%N) by (simpl; auto).
  assert (H5 : Z.of_nat (List.length [3; 3]) = Z.of_N 2) by reflexivity.
  repeat (split; [assumption|]).
  exact (proj2 (proj2 (proj2 (proj2 X4_a_name_selects_one_wrapper)))
           1 nMedianImageFilter "MedianImageFilter" mxUINT8_CLASS uint8_T
           [3; 3] [] [] 2%N H1 H2 H3 H4 H5).
Defined.

(** X5.  On a combination of filter, class and rank that no specialisation
    rejects, a call with more arguments than the wrapper declares
    ([InputIndexType_MAX]) fails with an arity error, and so does a call
    with an accepted number of arguments that asks for more outputs than
    the wrapper declares ([OutputIndexType_MAX]); both fail in the world of
    the entry of the cascade, before an argument of the filter is
    registered and before the filter is constructed. *)
Theorem X5_too_many_arguments_or_outputs :
  forall nl f name cls T dims data extra,
    fits_int extra -> In name (names f) -> In (cls, T) catalog ->
    2 <= Z.of_nat (List.length dims) <= 4 ->
    rejection f (Z.to_N (Z.of_nat (List.length dims))) T = None ->
    let n := Z.of_nat (List.length extra) + 2 in
    let w0 := entry nl (mxChar name :: mxNumeric cls dims data :: extra) in
    (InputIndexType_MAX f < n ->
     invoke nl name (mxNumeric cls dims data) extra
     = (Failed (ArityError (required_parameters f + 2) n), w0))
    /\ (required_parameters f + 2 <= n <= InputIndexType_MAX f ->
        OutputIndexType_MAX f < nl ->
        invoke nl name (mxNumeric cls dims data) extra
        = (Failed (ArityError 0 nl), w0)).
Proof.
  intros nl f name cls T dims data extra Hfit Hname Hcat Hrank Hrej n w0.
  destruct (rank_cases dims Hrank) as (dim & Hdim & Hlen).
  rewrite Hlen, N2Z.id in Hrej.
  rewrite (dispatch_resolves nl f name cls T dims data extra dim)
    by assumption.
  fold w0.
  assert (HT : In T (map snd catalog))
    by (apply in_map_iff; exists (cls, T); split; [reflexivity | assumption]).
  destruct (wrapper_checks_first f T dim (mkHeader cls dims) w0 Hrej Hdim HT)
    as [Hargs Houts].
  assert (Hn : Z.of_nat (List.length (prhs w0)) = n)
    by (unfold w0, entry, prhs; apply length_args).
  rewrite Hn in Hargs, Houts.
  split.
  - intros Hmany. apply Hargs. now right.
  - intros Hin Hout. apply Houts; [exact Hin | now right].
Qed.

Lemma X5_witness :
  fits_int [blank mxDOUBLE_CLASS [1; 1]]
  /\ In "skel" (names nBinaryThinningImageFilter3D)
  /\ In (mxLOGICAL_CLASS, mxLogical) catalog
  /\ 2 <= Z.of_nat (List.length [4; 4; 4]) <= 4
  /\ rejection nBinaryThinningImageFilter3D
       (Z.to_N (Z.of_nat (List.length [4; 4; 4]))) mxLogical = None
  /\ InputIndexType_MAX nBinaryThinningImageFilter3D
     < Z.of_nat (List.length [blank mxDOUBLE_CLASS [1; 1]]) + 2
  /\ invoke 1 "skel" (mxNumeric mxLOGICAL_CLASS [4; 4; 4] [])
            [blank mxDOUBLE_CLASS [1; 1]]
     = (Failed (ArityError (required_parameters nBinaryThinningImageFilter3D
                            + 2)
                           (Z.of_nat (List.length [blank mxDOUBLE_CLASS [1; 1]])
                            + 2)),
        entry 1 [ mxChar "skel"; mxNumeric mxLOGICAL_CLASS [4; 4; 4] [];
                  blank mxDOUBLE_CLASS [1; 1] ]).
Proof.
  assert (H1 : fits_int [blank mxDOUBLE_CLASS [1; 1]])
    by (unfold fits_int, INT_MAX; simpl; lia).
  assert (H2 : In "skel" (names nBinaryThinningImageFilter3D))
    by (simpl; auto).
  assert (H3 : In (mxLOGICAL_CLASS, mxLogical) catalog) by (simpl; auto).
  assert (H4 : 2 <= Z.of_nat (List.length [4; 4; 4]) <= 4) by (simpl; lia).
  assert (H5 : rejection nBinaryThinningImageFilter3D
                 (Z.to_N (Z.of_nat (List.length [4; 4; 4]))) mxLogical = None)
    by reflexivity.
  assert (H6 : InputIndexType_MAX nBinaryThinningImageFilter3D
               < Z.of_nat (List.length [blank mxDOUBLE_CLASS [1; 1]]) + 2)
    by (simpl; lia).
  repeat (split; [assumption|]).
  exact (proj1 (X5_too_many_arguments_or_outputs
                  1 nBinaryThinningImageFilter3D "skel" mxLOGICAL_CLASS
                  mxLogical [4; 4; 4] [] [blank mxDOUBLE_CLASS [1; 1]]
                  H1 H2 H3 H4 H5) H6).
Defined.

(** ** The rescaling of the MRF weights at its edges *)

(** The result of 0.0 / 0.0. *)
Definition nan : double := S754_nan.

Lemma add_zeros (x y : double) :
  is_zero x = true -> is_zero y = true -> is_zero (add x y) = true.
Proof.
  destruct x as [[] | | |], y as [[] | | |]; intros Hx Hy;
    try discriminate Hx; try discriminate Hy; reflexivity.
Qed.

Lemma sum_of_zeros (ws : list double) (acc : double) :
  Forall (fun x => is_zero x = true) ws -> is_zero acc = true ->
  is_zero (fold_left add ws acc) = true.
Proof.
  intros Hws. revert acc.
  induction Hws as [|x ws Hx _ IH]; intros acc Hacc; cbn; [exact Hacc|].
  apply IH. now apply add_zeros.
Qed.

Lemma zero_over_zero (x meanDistance totalWeight : double) :
  is_zero x = true -> is_zero totalWeight = true ->
  div (mul x meanDistance) (mul two totalWeight) = nan.
Proof.
  destruct x as [[] | | |], totalWeight as [[] | | |]; intros Hx Ht;
    try discriminate Hx; try discriminate Ht;
    destruct meanDistance as [[] | [] | | [] ? ?]; reflexivity.
Qed.

Lemma nan_over_any (x totalWeight : double) :
  div (mul x nan) (mul two totalWeight) = nan.
Proof.
  assert (Hm : mul x nan = nan) by (destruct x as [? | ? | | ? ? ?]; reflexivity).
  rewrite Hm. destruct (mul two totalWeight); reflexivity.
Qed.

(** X6.  The two divisions of the rescaling are not guarded.  When every
    weight is a zero, the total of the weights is a zero and every weight
    the second loop computes is 0.0 / 0.0, whatever the mean of the
    centroids is.  When the mean of the centroids is not a number, every
    weight it computes is not a number, whatever the weights are.  The
    mean is not a number when the number of classes is 0: the loop over
    the classes does not run, no membership function is added to the
    classifier, and [meanDistance /= numberOfClasses] divides 0.0 by 0. *)
Theorem X6_mrf_rescaling_is_unguarded :
  (forall meanDistance weights,
      Forall (fun x => is_zero x = true) weights ->
      FilterWrapper.scale_weights meanDistance weights
      = map (fun _ => nan) weights)
  /\ (forall weights,
         FilterWrapper.scale_weights nan weights = map (fun _ => nan) weights)
  /\ (forall l w,
         FilterWrapper.numberOfClasses l = 0 ->
         FilterWrapper.MRF_build_classifier l w
         = (Ok nan,
            add_events [ ItkNewAux "ImageClassifierBase";
                         ItkNewAux "MinimumDecisionRule";
                         ItkCall "classifier.SetDecisionRule" ] w)).
Proof.
  split; [|split].
  - intros m ws Hws. rewrite scale_weights_map.
    apply map_ext_in. intros x Hx.
    apply zero_over_zero.
    + rewrite Forall_forall in Hws. now apply Hws.
    + unfold Spec.sum. now apply sum_of_zeros.
  - intros ws. rewrite scale_weights_map.
    apply map_ext. intros x. apply nan_over_any.
  - intros l w Hn. unfold FilterWrapper.MRF_build_classifier.
    rewrite Hn. cbn [Z.to_nat firstn].
    unfold bind, Itk.NewAux, Itk.Call, itk_emit. cbn.
    unfold add_events. repeat rewrite <- app_assoc. reflexivity.
Qed.

Lemma X6_witness :
  Forall (fun x => is_zero x = true) [zero; S754_zero true; zero]
  /\ FilterWrapper.scale_weights one [zero; S754_zero true; zero]
     = map (fun _ => nan) [zero; S754_zero true; zero].
Proof.
  assert (H : Forall (fun x => is_zero x = true) [zero; S754_zero true; zero])
    by (repeat constructor).
  split; [exact H|].
  exact (proj1 X6_mrf_rescaling_is_unguarded one _ H).
Defined.

(** ** The default neighbourhood of the MRF filter *)

Lemma side_3_is_odd (dim : N) :
  exists k, N.to_nat (3 ^ dim)%N = (k + S k)%nat.
Proof.
  assert (Hodd : N.odd (3 ^ dim) = true).
  { destruct (N.eq_dec dim 0) as [-> | Hd]; [reflexivity|].
    now rewrite N.odd_pow. }
  apply N.odd_spec in Hodd. destruct Hodd as [m Hm].
  exists (N.to_nat m). rewrite Hm. lia.
Qed.

(** X7.  The default neighbourhood.  For every rank the vector of
    3^rank weights has an odd length 2k + 1, the index
    [(neighLength - 1) / 2] that is assigned 0.0 is inside the vector, and
    the vector is k ones, the zero, k ones: the centre is the only weight
    that is not 1.0.  For the ranks of the cascade its weights
    total 3^rank - 1 exactly.  Every call of the MRF filter without
    WEIGHTS (MU with fewer than 2^32 entries) that returns has set the
    radius of the neighbourhood to 1 on every axis and has handed the
    filter this vector rescaled. *)
Theorem X7_mrf_default_neighbourhood :
  (forall dim, exists k,
      N.to_nat (3 ^ dim)%N = (2 * k + 1)%nat
      /\ ((N.to_nat (3 ^ dim)%N - 1) / 2 < N.to_nat (3 ^ dim)%N)%nat
      /\ default_weights dim = repeat one k ++ zero :: repeat one k)
  /\ (forall dim, In dim [2; 3; 4]%N ->
         Spec.sum (default_weights dim) = of_Z (3 ^ Z.of_N dim - 1))
  /\ (forall nl name cls T dims data MU w,
         In name (names nMRFImageFilter) -> In (cls, T) catalog ->
         2 <= Z.of_nat (List.length dims) <= 4 ->
         vector_size (mxGetData MU) < 2 ^ 32 ->
         invoke nl name (mxNumeric cls dims data) [MU] = (Ok tt, w) ->
         let dim := Z.to_N (Z.of_nat (List.length dims)) in
         let centroids := map (cast T) (mxGetData MU) in
         itk w
         = mrf_head T dim (vector_size centroids) (SFlt (decimal 1 7))
                    (SInt 100) (SFlt (decimal 1 7))
           ++ flat_map membership_events centroids
           ++ [ ItkSet "NeighborhoodRadius" (VVector (Fill dim (SInt 1)));
                ItkSet "MRFNeighborhoodWeight"
                  (VVector (map SFlt
                     (Spec.rescale (default_weights dim)
                        (map to_double centroids))));
                ItkCall "SetClassifier"; ItkSetInput; ItkUpdate ]).
Proof.
  split; [|split].
  - intros dim. destruct (side_3_is_odd dim) as [k Hk]. exists k.
    unfold default_weights. cbv zeta. rewrite Hk.
    split; [lia|].
    assert (Hc : ((k + S k - 1) / 2 = k)%nat).
    { replace (k + S k - 1)%nat with (k * 2)%nat by lia.
      apply Nat.div_mul. discriminate. }
    rewrite Hc. split; [lia|].
    rewrite repeat_app. cbn [repeat].
    rewrite <- (repeat_length one k) at 1.
    apply assign_middle_app.
  - intros dim Hdim. split_In Hdim; vm_compute; reflexivity.
  - intros nl name cls T dims data MU w Hname Hcat Hrank Hmu Hrun
           dim centroids.
    pose proof (mrf_call_outcome nl name cls T dims data [MU]
                  Hname Hcat Hrank) as Hout.
    cbv zeta in Hout. rewrite Hrun in Hout.
    destruct Hout as (MU' & HMU & _ & Htr).
    cbn [nth_error] in HMU, Htr. inversion HMU; subst MU'. clear HMU.
    subst dim centroids. rewrite Htr.
    unfold weights_read, half_size_read, scalar_read.
    apply mrf_trace_no_wrap.
    unfold vector_size in *. now rewrite length_map.
Qed.

Lemma X7_witness :
  In 3%N [2; 3; 4]%N
  /\ Spec.sum (default_weights 3) = of_Z (3 ^ Z.of_N 3 - 1).
Proof.
  assert (H : In 3%N [2; 3; 4]%N) by (simpl; auto).
  split; [exact H|].
  exact (proj1 (proj2 X7_mrf_default_neighbourhood) 3%N H).
Defined.

(** ** Thresholds of the edge-detection filter supplied by the caller *)

Ltac canny_exec :=
  cbv beta iota delta [FilterWrapper.FilterWrapper enum_value
    FilterWrapper.CannyEdgeDetectionImageFilter];
  lazy -[add mul div of_Z cast to_double decimal numeric_limits_max
         one two zero double].

Definition floating_catalog : list (mxClassID * CType) :=
  [(mxSINGLE_CLASS, c_float); (mxDOUBLE_CLASS, c_double)].

(** X8.  On an image of class single or double and rank 2 to 4, with a
    scalar VAR: when the caller supplies UPPTHR and no LOWTHR, the call
    succeeds, the upper threshold is the first element of UPPTHR
    converted to the pixel type, and the lower threshold is that upper
    threshold, as the filter holds it, divided by 2.0 and converted to
    the pixel type.  When the caller supplies LOWTHR as well, the lower
    threshold is the first element of LOWTHR converted to the pixel type,
    whatever the upper threshold is: the wrapper does not compare the
    two. *)
Theorem X8_canny_supplied_thresholds :
  forall nl name cls T dims data cv dv v cu du u us,
    In name (names nCannyEdgeDetectionImageFilter) ->
    In (cls, T) floating_catalog ->
    2 <= Z.of_nat (List.length dims) <= 4 ->
    0 <= nl <= OutputIndexType_MAX nCannyEdgeDetectionImageFilter ->
    (exists w,
        invoke nl name (mxNumeric cls dims data)
               [mxNumeric cv dv [v]; mxNumeric cu du (u :: us)] = (Ok tt, w)
        /\ resolved "UpperThreshold" w = Some (VScalar (cast T u))
        /\ resolved "LowerThreshold" w
           = Some (VScalar (cast T (div (to_double (cast T u)) two))))
    /\ (forall cl dl l ls, exists w,
           invoke nl name (mxNumeric cls dims data)
                  [mxNumeric cv dv [v]; mxNumeric cu du (u :: us);
                   mxNumeric cl dl (l :: ls)] = (Ok tt, w)
           /\ resolved "UpperThreshold" w = Some (VScalar (cast T u))
           /\ resolved "LowerThreshold" w = Some (VScalar (cast T l))).
Proof.
  intros nl name cls T dims data cv dv v cu du u us Hname Hcat Hrank Hnl.
  assert (Hcat' : In (cls, T) catalog)
    by (unfold floating_catalog in Hcat; split_pairs Hcat; cbn; tauto).
  destruct (rank_cases dims Hrank) as (dim & Hdim & Hlen).
  assert (Hmax : OutputIndexType_MAX nCannyEdgeDetectionImageFilter <= 3)
    by (cbn; lia).
  split; [|intros cl dl l ls];
    (rewrite (dispatch_resolves nl nCannyEdgeDetectionImageFilter name cls T
                dims data _ dim);
     try assumption; try (unfold fits_int, INT_MAX; cbn; lia));
    clear Hcat'; unfold floating_catalog in Hcat;
    split_dims Hrank; cbn in Hlen; split_In Hdim; try discriminate Hlen;
    split_nlhs Hnl Hmax; cbn in Hnl; try lia;
    split_In Hname; split_pairs Hcat;
    (eexists; split; [canny_exec; reflexivity|]);
    split; reflexivity.
Qed.

Lemma X8_witness :
  In "canny" (names nCannyEdgeDetectionImageFilter)
  /\ In (mxDOUBLE_CLASS, c_double) floating_catalog
  /\ 2 <= Z.of_nat (List.length [8; 8]) <= 4
  /\ 0 <= 1 <= OutputIndexType_MAX nCannyEdgeDetectionImageFilter
  /\ exists w,
       invoke 1 "canny" (mxNumeric mxDOUBLE_CLASS [8; 8] [])
              [mxNumeric mxDOUBLE_CLASS [1; 1] [one];
               mxNumeric mxDOUBLE_CLASS [1; 1] [of_Z 1];
               mxNumeric mxDOUBLE_CLASS [1; 1] [of_Z 5]] = (Ok tt, w)
       /\ resolved "UpperThreshold" w = Some (VScalar (cast c_double (of_Z 1)))
       /\ resolved "LowerThreshold" w
          = Some (VScalar (cast c_double (of_Z 5))).
Proof.
  assert (H1 : In "canny" (names nCannyEdgeDetectionImageFilter))
    by (simpl; auto).
  assert (H2 : In (mxDOUBLE_CLASS, c_double) floating_catalog)
    by (simpl; auto).
  assert (H3 : 2 <= Z.of_nat (List.length [8; 8]) <= 4) by (simpl; lia).
  assert (H4 : 0 <= 1 <= OutputIndexType_MAX nCannyEdgeDetectionImageFilter)
    by (simpl; lia).
  repeat (split; [assumption|]).
  exact (proj2 (X8_canny_supplied_thresholds 1 "canny" mxDOUBLE_CLASS c_double
                  [8; 8] [] mxDOUBLE_CLASS [1; 1] one mxDOUBLE_CLASS [1; 1]
                  (of_Z 1) [] H1 H2 H3 H4)
               mxDOUBLE_CLASS [1; 1] (of_Z 5) []).
Defined.

(** ** The run comes last *)

(** X9.  The trace of a call records the constructions, the [Set...]
    calls, the other calls that configure or connect an object and
    [Update], in program order.  Whatever the arguments and however the
    call ends, no recorded event follows [Update]: every parameter, the
    kernel, the classifier and the input are handed to the filter before
    it runs, and nothing is constructed, set or connected afterwards.
    (The images of the filter that three wrappers read after [Update], to
    copy them to Matlab, are not events: they are the source of the array
    produced.)  The trace of a call that succeeds is some events without
    [Update], among them the construction of the filter, followed by
    [Update]. *)
Theorem X9_the_filter_runs_last :
  forall nl args r w,
    mexFunction nl args = (r, w) ->
    (forall pre post, itk w = pre ++ ItkUpdate :: post -> post = [])
    /\ (r = Ok tt ->
        exists f T dim size pre,
          resolved_call args f T dim size
          /\ itk w = pre ++ [ItkUpdate]
          /\ ~ In ItkUpdate pre
          /\ In (ItkNew f T (TPixelOut_of f T) dim) pre).
Proof.
  intros nl args r w H. pose proof (call_outcome nl args) as Hout.
  rewrite H in Hout. destruct r as [[] | e].
  - destruct Hout as (f & T & dim & size & Hres & Hsum & Hset).
    split.
    + intros pre post Hitk.
      exact (after_update_last (itk w) Hset pre post Hitk).
    + intros _.
      assert (Hrun : filter is_run_event (itk w)
                     = [ItkNew f T (TPixelOut_of f T) dim; ItkUpdate])
        by (unfold summary, expected_summary in Hsum; congruence).
      assert (Hin : In ItkUpdate (itk w)).
      { apply (proj1 (filter_In is_run_event ItkUpdate (itk w))).
        rewrite Hrun. cbn. tauto. }
      destruct (in_split _ _ Hin) as (pre & post & Hitk).
      pose proof (after_update_last (itk w) Hset pre post Hitk) as ->.
      exists f, T, dim, size, pre. split; [exact Hres|].
      split; [exact Hitk|].
      rewrite Hitk, filter_app in Hrun. cbn [filter is_run_event] in Hrun.
      change [ItkNew f T (TPixelOut_of f T) dim; ItkUpdate]
        with ([ItkNew f T (TPixelOut_of f T) dim] ++ [ItkUpdate]) in Hrun.
      apply app_inj_tail in Hrun. destruct Hrun as [Hpre _].
      split.
      * intros Hu.
        assert (Hf : In ItkUpdate (filter is_run_event pre))
          by (apply filter_In; now split).
        rewrite Hpre in Hf. cbn in Hf. intuition discriminate.
      * apply (proj1 (filter_In is_run_event _ pre)).
        rewrite Hpre. cbn. tauto.
  - split; [| discriminate].
    intros pre post Hitk. exfalso. apply (proj2 Hout).
    rewrite Hitk. apply in_elt.
Qed.

Lemma X9_witness :
  mexFunction 3 dandist_call = (Ok tt, snd (mexFunction 3 dandist_call))
  /\ forall pre post,
       itk (snd (mexFunction 3 dandist_call)) = pre ++ ItkUpdate :: post ->
       post = [].
Proof.
  assert (H : mexFunction 3 dandist_call
              = (Ok tt, snd (mexFunction 3 dandist_call)))
    by (vm_compute; reflexivity).
  split; [exact H|].
  exact (proj1 (X9_the_filter_runs_last 3 dandist_call _ _ H)).
Defined.
